(** * AI Prompt Debugger ([app.py]): prompt construction and provider dispatch

    A shallow embedding of [PromptDebugger.__init__],
    [PromptDebugger.analyze_prompt] and [main] of [app.py], together with
    the properties of the prompt template, of the two-branch provider
    dispatch and of the form validation.

    Conventions.
    - A Python [str] is a sequence of Unicode code points: [pystr] is
      [list N].  Source literals are written with [lit "..."]; the double
      quote character, which the template contains, is written [dq].
    - Side effects that matter to the properties (Streamlit notices, the
      two provider client calls, the final [st.json]) are recorded in a
      trace of [event]s.  Pure layout calls ([st.title], [st.subheader],
      [st.markdown], [st.columns], [st.spinner]) produce no event.
    - Python exceptions are values of type [exn]; an [except] clause is a
      predicate on the exception class.
    - [st.secrets] is a secrets file with its entries, or no file at all:
      a lookup raises [KeyError] on a key the file lacks, and another
      error when there is no file.
    - [st.error], [st.warning] and [st.json] show their argument or raise
      [UnicodeEncodeError] on a text that holds a surrogate. *)

From Stdlib Require Import List String Ascii Bool Arith NArith ZArith QArith Lia.
From Stdlib Require Import DecimalString.
Import ListNotations.
Close Scope Q_scope.

Set Warnings "-register-all".

(* ================================================================= *)
(** ** Python strings *)

Definition pystr := list N.

Definition lit (s : string) : pystr :=
  map N_of_ascii (list_ascii_of_string s).

(** The characters the template needs that a literal cannot hold. *)
Definition dq : pystr := [34%N].
Definition nl : pystr := [10%N].

(** [q s] is the text [s] between double quotes. *)
Definition q (s : string) : pystr := dq ++ lit s ++ dq.

Definition pystr_eq_dec : forall s t : pystr, {s = t} + {s <> t} :=
  list_eq_dec N.eq_dec.

Definition pystr_eqb (s t : pystr) : bool :=
  if pystr_eq_dec s t then true else false.

(** Python truthiness of a string: [bool(s)] is [len(s) != 0]. *)
Definition truthy (s : pystr) : bool :=
  match s with [] => false | _ :: _ => true end.

(** [sep.join(parts)]. *)
Fixpoint join (sep : pystr) (parts : list pystr) : pystr :=
  match parts with
  | [] => []
  | [p] => p
  | p :: ps => p ++ sep ++ join sep ps
  end.

(** [s in t] for strings, as a proposition and as a test. *)
Definition substring (s t : pystr) : Prop :=
  exists pre post, t = pre ++ s ++ post.

Fixpoint is_prefix (s t : pystr) : bool :=
  match s, t with
  | [], _ => true
  | _ :: _, [] => false
  | a :: s', b :: t' => N.eqb a b && is_prefix s' t'
  end.

Fixpoint is_substring (s t : pystr) : bool :=
  match t with
  | [] => is_prefix s []
  | _ :: t' => is_prefix s t || is_substring s t'
  end.

(** Number of positions of [t] at which [s] starts. *)
Fixpoint occurrences (s t : pystr) : nat :=
  match t with
  | [] => 0
  | _ :: t' => (if is_prefix s t then 1 else 0) + occurrences s t'
  end.

(* ================================================================= *)
(** ** [json.dumps(history, indent=2)]

    The conversation history is a list of two-key dictionaries
    [{"role": ..., "content": ...}] of strings.  [json.dumps] with its
    default [ensure_ascii=True] writes a string between double quotes,
    keeps the printable ASCII characters other than the double quote and
    the backslash, and escapes every other code point. *)

Record message := { role : pystr; content : pystr }.

Definition hexdigit (d : N) : N :=
  if (d <? 10)%N then (48 + d)%N else (87 + d)%N.

(** ['{0:04x}'.format(n)] for [n < 0x10000]. *)
Definition hex4 (n : N) : pystr :=
  [ hexdigit (n / 4096 mod 16); hexdigit (n / 256 mod 16);
    hexdigit (n / 16 mod 16); hexdigit (n mod 16) ]%N.

Definition u_escape (n : N) : pystr := lit "\u" ++ hex4 n.

Definition escape_char (c : N) : pystr :=
  if (c =? 92)%N then lit "\\"
  else if (c =? 34)%N then lit "\" ++ dq
  else if (c =? 8)%N then lit "\b"
  else if (c =? 12)%N then lit "\f"
  else if (c =? 10)%N then lit "\n"
  else if (c =? 13)%N then lit "\r"
  else if (c =? 9)%N then lit "\t"
  else if ((32 <=? c) && (c <=? 126))%N then [c]
  else if (c <? 65536)%N then u_escape c
  else
    let n := (c - 65536)%N in
    u_escape (N.lor 55296 (N.land (N.shiftr n 10) 1023))
    ++ u_escape (N.lor 56320 (N.land n 1023)).

Definition encode_basestring_ascii (s : pystr) : pystr :=
  dq ++ flat_map escape_char s ++ dq.

(** One dictionary of the history, at nesting level 1 of [indent=2]. *)
Definition dumps_message (m : message) : pystr :=
  lit "{" ++ nl
  ++ lit "    " ++ q "role" ++ lit ": " ++ encode_basestring_ascii (role m)
  ++ lit "," ++ nl
  ++ lit "    " ++ q "content" ++ lit ": "
  ++ encode_basestring_ascii (content m) ++ nl
  ++ lit "  }".

Definition json_dumps_indent2 (history : list message) : pystr :=
  match history with
  | [] => lit "[]"
  | _ :: _ =>
      lit "[" ++ nl
      ++ join (lit "," ++ nl) (map (fun m => lit "  " ++ dumps_message m) history)
      ++ nl ++ lit "]"
  end.

(* ================================================================= *)
(** ** The request record and the prompt template *)

(** The dictionary [inputs] built by [main]; it always has these keys. *)
Record Inputs := {
  bot_type : pystr;
  system_prompt : pystr;
  conversation_history : list message;
  defective_user_message : pystr;
  defective_agent_response : pystr;
  defective_description : pystr;
  agent_interpretation : pystr;
  expected_behavior : pystr;
  behavioral_guidelines : pystr;
  provider : pystr;
  model : pystr
}.

(** The lines of the f-string [analysis_prompt] of [analyze_prompt]; the
    text opens with a line break and ends with eight spaces. *)
Definition prompt_lines (inputs : Inputs) : list pystr :=
  [ [];
    lit "You are an AI expert specializing in debugging and analyzing conversational agent prompts.";
    [];
    lit "Given the following inputs:";
    [];
    lit "- **Bot Type**: " ++ bot_type inputs;
    lit "- **System Prompt**: " ++ system_prompt inputs;
    lit "- **Conversation History**: "
      ++ json_dumps_indent2 (conversation_history inputs);
    lit "- **Defective User Message**: " ++ defective_user_message inputs;
    lit "- **Defective Agent Response**: " ++ defective_agent_response inputs;
    lit "- **Issue Description**: " ++ defective_description inputs;
    lit "- **Agent's Interpretation**: " ++ agent_interpretation inputs;
    lit "- **Expected Behavior**: " ++ expected_behavior inputs;
    lit "- **Behavioral Guidelines**: " ++ behavioral_guidelines inputs;
    [];
    lit "### Tasks:";
    lit "1. **Error Source Analysis**: Identify if the issue originates from the system prompt, guidelines, or model behavior.";
    lit "2. **Suggestions for Improvements**: Provide modifications to enhance the system prompt and guidelines.";
    lit "3. **Agent Interpretation Shift**: Explain how the agent's reasoning may change with the new modifications.";
    [];
    lit "Output should be in JSON format:";
    lit "{";
    lit "    " ++ q "error_analysis" ++ lit ": { " ++ q "system_prompt"
      ++ lit ": " ++ q "..." ++ lit ", " ++ q "guidelines" ++ lit ": "
      ++ q "..." ++ lit " },";
    lit "    " ++ q "suggestions" ++ lit ": { " ++ q "system_prompt"
      ++ lit ": " ++ q "..." ++ lit ", " ++ q "guidelines" ++ lit ": "
      ++ q "..." ++ lit " },";
    lit "    " ++ q "interpretation_change" ++ lit ": " ++ q "...";
    lit "}";
    lit "        " ].

Definition analysis_prompt (inputs : Inputs) : pystr :=
  join nl (prompt_lines inputs).

(* ================================================================= *)
(** ** Exceptions, JSON values and the effects of the program *)

(** The exception classes the program can meet.  [OtherException] stands
    for any other class derived from [Exception] (the provider clients'
    API errors, for instance); [BaseExceptionOnly] for the classes derived
    from [BaseException] alone, such as [KeyboardInterrupt]. *)
Inductive exn_class :=
| KeyError
| AttributeError
| IndexError
| TypeError
| JSONDecodeError
| OtherException (name : string)
| BaseExceptionOnly (name : string).

(** [exn_str] is [str(e)], what [f"{e}"] renders. *)
Record exn := { exn_cls : exn_class; exn_str : pystr }.

(** [except KeyError] and [except Exception]. *)
Definition isinstance_KeyError (e : exn) : bool :=
  match exn_cls e with KeyError => true | _ => false end.

Definition isinstance_Exception (e : exn) : bool :=
  match exn_cls e with BaseExceptionOnly _ => false | _ => true end.

Inductive result (A : Type) :=
| Ok (a : A)
| Raised (e : exn).
Arguments Ok {A} a.
Arguments Raised {A} e.

(** What [json.loads] can return.  A number with a fraction or an
    exponent is kept as its text. *)
Inductive json :=
| JNull
| JBool (b : bool)
| JInt (z : Z)
| JFloat (text : pystr)
| JStr (s : pystr)
| JList (items : list json)
| JDict (items : list (pystr * json)).

Module anthropic.
(** [anthropic.Anthropic(api_key=...)]. *)
Record Client := { api_key : pystr }.
(** The keyword arguments of [messages.create]. *)
Record request := {
  model : pystr;
  max_tokens : Z;
  messages : list message
}.
(** An item of [response.content]: a text block has a [text]
    attribute, a block of another class has none. *)
Inductive block :=
| TextBlock (text : pystr)
| OtherBlock (cls : pystr).
Definition response := list block.
End anthropic.

Module openai.
(** The keyword arguments of [ChatCompletion.create]. *)
Record request := {
  model : pystr;
  messages : list message;
  max_tokens : Z;
  temperature : Q
}.
(** An item of [response.choices], reduced to [message.content], which
    the API may leave [None]. *)
Record choice := { message_content : option pystr }.
Definition response := list choice.
End openai.

Inductive event :=
| StError (msg : pystr)
| StWarning (msg : pystr)
| StJson (v : json)
| AnthropicCreate (client : anthropic.Client) (req : anthropic.request)
| OpenAICreate (key : option pystr) (req : openai.request).

(** The mutable state the program touches: the attribute
    [self.anthropic_client] ([None] while it does not exist) and the
    module global [openai.api_key]. *)
Record Proc := {
  anthropic_client : option anthropic.Client;
  openai_api_key : option pystr
}.

(** A computation: from a state to a result or an exception, the new
    state and the events it produced. *)
Record Run (A : Type) := mkRun {
  value : result A;
  final : Proc;
  trace : list event
}.
Arguments mkRun {A} value final trace.
Arguments value {A} r.
Arguments final {A} r.
Arguments trace {A} r.

Definition M (A : Type) := Proc -> Run A.

Definition ret {A} (a : A) : M A := fun s => mkRun (Ok a) s [].

Definition bind {A B} (m : M A) (f : A -> M B) : M B :=
  fun s =>
    let r := m s in
    match value r with
    | Ok a => let r' := f a (final r) in
              mkRun (value r') (final r') (trace r ++ trace r')
    | Raised e => mkRun (Raised e) (final r) (trace r)
    end.

Definition raise {A} (e : exn) : M A := fun s => mkRun (Raised e) s [].

Definition lift {A} (r : result A) : M A := fun s => mkRun r s [].

Definition emit (ev : event) : M unit := fun s => mkRun (Ok tt) s [ev].

Definition get : M Proc := fun s => mkRun (Ok s) s [].

Definition put (s' : Proc) : M unit := fun _ => mkRun (Ok tt) s' [].

(** [try: body / except <catches> as e: handler e]. *)
Definition try_except {A} (body : M A) (catches : exn -> bool)
    (handler : exn -> M A) : M A :=
  fun s =>
    let r := body s in
    match value r with
    | Ok _ => r
    | Raised e =>
        if catches e then
          let r' := handler e (final r) in
          mkRun (value r') (final r') (trace r ++ trace r')
        else r
    end.

Declare Scope py_scope.
Delimit Scope py_scope with py.
Notation "x <- m ;; k" := (bind m (fun x => k))
  (at level 61, m at next level, right associativity) : py_scope.
Notation "m ;; k" := (bind m (fun _ => k))
  (at level 61, right associativity) : py_scope.
Open Scope py_scope.

(** A surrogate code point.  A [str] that holds one has no UTF-8
    encoding, and Streamlit, which sends the text of an element to the
    browser as UTF-8, raises [UnicodeEncodeError] on it. *)
Definition is_surrogate (c : N) : bool :=
  ((55296 <=? c) && (c <=? 57343))%N.

Definition has_surrogate (s : pystr) : bool := existsb is_surrogate s.

(** The error of the encoder.  Its text, which names the character and
    its position, is abridged: the program never reads it. *)
Definition unicode_encode_error : exn :=
  {| exn_cls := OtherException "UnicodeEncodeError";
     exn_str := lit "'utf-8' codec can't encode character: surrogates not allowed" |}.

(** [st.error(msg)] and [st.warning(msg)]: the notice is shown, unless
    the text cannot be encoded. *)
Definition st_error (msg : pystr) : M unit :=
  if has_surrogate msg then raise unicode_encode_error
  else emit (StError msg).

Definition st_warning (msg : pystr) : M unit :=
  if has_surrogate msg then raise unicode_encode_error
  else emit (StWarning msg).

(** [st.json(v)]: a [str] is taken as the JSON text itself and sent as
    it is; a value of another type is serialized by [json.dumps], which
    escapes every character that is not ASCII. *)
Definition st_json (v : json) : M unit :=
  match v with
  | JStr s =>
      if has_surrogate s then raise unicode_encode_error
      else emit (StJson v)
  | _ => emit (StJson v)
  end.

(** [d[key]] on a dictionary kept as an association list. *)
Fixpoint dict_get {V} (d : list (pystr * V)) (key : pystr) : option V :=
  match d with
  | [] => None
  | (k, v) :: d' => if pystr_eqb k key then Some v else dict_get d' key
  end.

Definition keys {V} (d : list (pystr * V)) : list pystr := map fst d.

(** [repr] of a key made of printable characters, as [KeyError] shows
    it: between double quotes when the key holds an apostrophe and no
    double quote, between apostrophes otherwise; the backslash and the
    enclosing quote are escaped.  (The keys this program looks up are
    the names of the two secrets and the provider and model names.) *)
Definition repr_char (quote c : N) : pystr :=
  if ((c =? 92) || (c =? quote))%N then [92%N; c] else [c].

Definition repr_key (key : pystr) : pystr :=
  let quote :=
    if existsb (N.eqb 39) key && negb (existsb (N.eqb 34) key)
    then 34%N else 39%N in
  [quote] ++ flat_map (repr_char quote) key ++ [quote].

Definition getitem {V} (d : list (pystr * V)) (key : pystr) : M V :=
  match dict_get d key with
  | Some v => ret v
  | None => raise {| exn_cls := KeyError; exn_str := repr_key key |}
  end.

(** [xs[0]]. *)
Definition first_item {A} (xs : list A) : M A :=
  match xs with
  | x :: _ => ret x
  | [] => raise {| exn_cls := IndexError;
                   exn_str := lit "list index out of range" |}
  end.

(** [self.model_providers], in insertion order. *)
Definition anthropic_models : list (pystr * pystr) :=
  [ (lit "claude-3-opus-20240229", lit "Claude 3 Opus");
    (lit "claude-3-sonnet-20240229", lit "Claude 3 Sonnet");
    (lit "claude-3-haiku-20240307", lit "Claude 3 Haiku") ].

Definition openai_models : list (pystr * pystr) :=
  [ (lit "gpt-4o", lit "GPT-4o");
    (lit "gpt-4", lit "GPT-4");
    (lit "gpt-3.5-turbo", lit "GPT-3.5 Turbo") ].

Definition model_providers : list (pystr * list (pystr * pystr)) :=
  [ (lit "Anthropic", anthropic_models); (lit "OpenAI", openai_models) ].

(** The state before [PromptDebugger()] runs: no client attribute yet;
    [openai.api_key] has whatever value the module start gave it. *)
Definition fresh (openai_default : option pystr) : Proc :=
  {| anthropic_client := None; openai_api_key := openai_default |}.

(* ================================================================= *)
(** ** The form *)

Module form.
(** The widget values of one script run.  A select box is given by the
    index the user picked; [user_message i] and [agent_response i] are
    the text areas labelled [User Message i+1] and [Agent Response i+1];
    [num_exchanges] is a number input with [min_value=1]. *)
Record state := {
  bot_type : nat;
  provider : nat;
  model : nat;
  system_prompt : pystr;
  behavioral_guidelines : pystr;
  num_exchanges : positive;
  user_message : nat -> pystr;
  agent_response : nat -> pystr;
  defective_user_message : pystr;
  defective_agent_response : pystr;
  defective_description : pystr;
  agent_interpretation : pystr;
  expected_behavior : pystr;
  analyze_clicked : bool
}.
End form.

(** [st.selectbox(label, options)]: one of the options, the first one
    unless the user picked another.  The option lists of this program
    are never empty. *)
Definition selectbox (options : list pystr) (choice : nat) : pystr :=
  nth choice options (hd [] options).

(** One round of the loop [for i in range(num_exchanges)] of [main]. *)
Definition exchange_step (f : form.state) (history : list message) (i : nat)
    : list message :=
  let user_msg := form.user_message f i in
  let agent_msg := form.agent_response f i in
  let history :=
    if truthy user_msg
    then history ++ [ {| role := lit "user"; content := user_msg |} ]
    else history in
  if truthy agent_msg
  then history ++ [ {| role := lit "assistant"; content := agent_msg |} ]
  else history.

Definition collect_history (f : form.state) : list message :=
  fold_left (exchange_step f)
            (seq 0 (Pos.to_nat (form.num_exchanges f))) [].

(** [st.secrets], the process-wide configuration: the entries of the
    secrets file, when there is one. *)
Inductive secrets_source :=
| NoSecretsFile
| SecretsFile (entries : list (pystr * pystr)).

(** A list of entries stands for the secrets file that holds them. *)
#[warning="-uniform-inheritance"]
Coercion SecretsFile : list >-> secrets_source.

(** What the lookup raises when no secrets file exists:
    [FileNotFoundError], [StreamlitSecretNotFoundError] in later
    releases of Streamlit.  Neither is a [KeyError]; the text, which
    lists the places searched, is abridged. *)
Definition secrets_not_found : exn :=
  {| exn_cls := OtherException "StreamlitSecretNotFoundError";
     exn_str := lit "No secrets found." |}.

(** The [KeyError] of a key that the secrets file lacks.  Its text goes
    on with a hint on where to add the key, left out here: the program
    never reads it. *)
Definition missing_secret (key : pystr) : exn :=
  {| exn_cls := KeyError;
     exn_str := repr_key (lit "st.secrets has no key " ++ dq ++ key ++ dq
                          ++ lit ".") |}.

(** [st.secrets[key]]. *)
Definition secrets_getitem (secrets : secrets_source) (key : pystr)
    : M pystr :=
  match secrets with
  | NoSecretsFile => raise secrets_not_found
  | SecretsFile entries =>
      match dict_get entries key with
      | Some v => ret v
      | None => raise (missing_secret key)
      end
  end.

Section Program.

Variable secrets : secrets_source.

(** The behaviour of the two provider clients and of [json.loads]:
    each returns or raises. *)
Variable messages_create :
  anthropic.Client -> anthropic.request -> result anthropic.response.
Variable ChatCompletion_create :
  option pystr -> openai.request -> result openai.response.
Variable json_loads : pystr -> result json.

(** *** [PromptDebugger.__init__] *)

Definition PromptDebugger_init : M unit :=
  try_except
    (k <- secrets_getitem secrets (lit "ANTHROPIC_API_KEY") ;;
     s <- get ;;
     put {| anthropic_client := Some {| anthropic.api_key := k |};
            openai_api_key := openai_api_key s |} ;;
     k' <- secrets_getitem secrets (lit "OPENAI_API_KEY") ;;
     s' <- get ;;
     put {| anthropic_client := anthropic_client s';
            openai_api_key := Some k' |})
    isinstance_KeyError
    (fun _ => st_error (lit "Missing API keys in Streamlit secrets.")).

(** *** [PromptDebugger.analyze_prompt] *)

(** [self.anthropic_client]. *)
Definition self_anthropic_client : M anthropic.Client :=
  s <- get ;;
  match anthropic_client s with
  | Some c => ret c
  | None =>
      raise {| exn_cls := AttributeError;
               exn_str := lit "'PromptDebugger' object has no attribute 'anthropic_client'" |}
  end.

Definition anthropic_messages_create (c : anthropic.Client)
    (req : anthropic.request) : M anthropic.response :=
  emit (AnthropicCreate c req) ;; lift (messages_create c req).

Definition openai_ChatCompletion_create (req : openai.request)
    : M openai.response :=
  s <- get ;;
  emit (OpenAICreate (openai_api_key s) req) ;;
  lift (ChatCompletion_create (openai_api_key s) req).

(** [block.text]. *)
Definition block_text (b : anthropic.block) : M pystr :=
  match b with
  | anthropic.TextBlock t => ret t
  | anthropic.OtherBlock cls =>
      raise {| exn_cls := AttributeError;
               exn_str := lit "'" ++ cls
                          ++ lit "' object has no attribute 'text'" |}
  end.

(** [json.loads(x)] where [x] may be [None]. *)
Definition json_loads_obj (x : option pystr) : M json :=
  match x with
  | Some text => lift (json_loads text)
  | None =>
      raise {| exn_cls := TypeError;
               exn_str := lit "the JSON object must be str, bytes or bytearray, not NoneType" |}
  end.

Definition analyze_prompt (inputs : Inputs) : M json :=
  let analysis_prompt := analysis_prompt inputs in
  try_except
    (if pystr_eqb (provider inputs) (lit "Anthropic") then
       client <- self_anthropic_client ;;
       response <- anthropic_messages_create client
         {| anthropic.model := model inputs;
            anthropic.max_tokens := 4000;
            anthropic.messages :=
              [ {| role := lit "user"; content := analysis_prompt |} ] |} ;;
       block <- first_item response ;;
       text <- block_text block ;;
       json_loads_obj (Some text)
     else
       response <- openai_ChatCompletion_create
         {| openai.model := model inputs;
            openai.messages :=
              [ {| role := lit "system";
                   content := lit "You are an expert AI debugger." |};
                {| role := lit "user"; content := analysis_prompt |} ];
            openai.max_tokens := 4000;
            openai.temperature := 0.2 |} ;;
       choice <- first_item response ;;
       json_loads_obj (openai.message_content choice))
    isinstance_Exception
    (fun e => st_error (lit "Analysis Error: " ++ exn_str e) ;;
              ret (JDict [])).


(** *** [main]: one run of the script on the current form *)

(** The warning text of [main]: U+26A0, U+FE0F, then plain characters. *)
Definition fill_in_warning : pystr :=
  [9888%N; 65039%N] ++ lit " Please fill in all required fields.".

(** [PromptDebugger()] followed by the body of [main]. *)
Definition main (f : form.state) : M unit :=
  PromptDebugger_init ;;
  let bot_type := selectbox [lit "Text Bot"; lit "Voice Bot"] (form.bot_type f) in
  let provider := selectbox (keys model_providers) (form.provider f) in
  models <- getitem model_providers provider ;;
  let model := selectbox (keys models) (form.model f) in
  let system_prompt := form.system_prompt f in
  let behavioral_guidelines := form.behavioral_guidelines f in
  let conversation_history := collect_history f in
  let defective_user_message := form.defective_user_message f in
  let defective_agent_response := form.defective_agent_response f in
  let defective_description := form.defective_description f in
  let agent_interpretation := form.agent_interpretation f in
  let expected_behavior := form.expected_behavior f in
  if form.analyze_clicked f then
    if negb (forallb truthy
               [ system_prompt; defective_user_message;
                 defective_agent_response; defective_description;
                 agent_interpretation; expected_behavior;
                 behavioral_guidelines ])
    then st_warning fill_in_warning
    else
      let inputs :=
        {| bot_type := bot_type;
           system_prompt := system_prompt;
           conversation_history := conversation_history;
           defective_user_message := defective_user_message;
           defective_agent_response := defective_agent_response;
           defective_description := defective_description;
           agent_interpretation := agent_interpretation;
           expected_behavior := expected_behavior;
           behavioral_guidelines := behavioral_guidelines;
           provider := provider;
           model := model |} in
      analysis <- analyze_prompt inputs ;;
      st_json analysis
  else ret tt.

End Program.

(* ================================================================= *)
(** ** A model of the standard library's [json.loads]

    The decoder of the [json] package, on text: white space, the three
    constants, numbers, strings with their escapes, arrays and objects
    (a repeated key keeps its first position and its last value).  Two
    limits of the interpreter are not modelled, the recursion limit and
    the limit on the number of digits of an integer; the nesting budget
    of [loads] is twice the length of the text plus two, which no text
    exhausts ([loads_within_budget] below): a nested value takes two
    steps of the scanner and at least one character.  Errors
    carry the message, line, column and offset CPython reports.  The
    results on [analyze_prompt] below hold for every behaviour of
    [json.loads]; this model serves the concrete scenarios and the proof
    that the serialized history can be read back. *)

Module json_decoder.

Inductive scanned (A : Type) :=
| Scanned (a : A) (rest : pystr) (idx : nat)
| StopIteration (idx : nat)
| DecodeError (msg : string) (pos : nat)
| TooDeep.
Arguments Scanned {A} a rest idx.
Arguments StopIteration {A} idx.
Arguments DecodeError {A} msg pos.
Arguments TooDeep {A}.

Definition is_ws (c : N) : bool :=
  ((c =? 32) || (c =? 9) || (c =? 10) || (c =? 13))%N.

Fixpoint skip_ws (s : pystr) (idx : nat) : pystr * nat :=
  match s with
  | c :: s' => if is_ws c then skip_ws s' (S idx) else (s, idx)
  | [] => (s, idx)
  end.

(** [s] without the prefix [p], when it starts with it. *)
Fixpoint strip_prefix (p s : pystr) : option pystr :=
  match p, s with
  | [], _ => Some s
  | _ :: _, [] => None
  | a :: p', b :: s' => if (a =? b)%N then strip_prefix p' s' else None
  end.

Definition is_digit (c : N) : bool := ((48 <=? c) && (c <=? 57))%N.

Fixpoint span_digits (s : pystr) : pystr * pystr :=
  match s with
  | c :: s' =>
      if is_digit c
      then let (ds, rest) := span_digits s' in (c :: ds, rest)
      else ([], s)
  | [] => ([], [])
  end.

Definition int_of_digits (ds : pystr) : Z :=
  fold_left (fun acc d => (10 * acc + (Z.of_N d - 48))%Z) ds 0%Z.

(** The integer part of a number: [0], or a non-zero digit and digits. *)
Definition match_integer (s : pystr) : option (pystr * pystr) :=
  match s with
  | c :: s' =>
      if (c =? 48)%N then Some ([c], s')
      else if is_digit c then
        let (ds, rest) := span_digits s' in Some (c :: ds, rest)
      else None
  | [] => None
  end.

(** The fraction: a point followed by at least one digit. *)
Definition match_fraction (s : pystr) : pystr * pystr :=
  match s with
  | 46%N :: s' =>
      match span_digits s' with
      | ([], _) => ([], s)
      | (ds, rest) => (46%N :: ds, rest)
      end
  | _ => ([], s)
  end.

(** The exponent: [e] or [E], an optional sign, at least one digit. *)
Definition match_exponent (s : pystr) : pystr * pystr :=
  match s with
  | e :: s' =>
      if ((e =? 101) || (e =? 69))%N then
        let (sign, s'') :=
          match s' with
          | c :: t => if ((c =? 43) || (c =? 45))%N then ([c], t) else ([], s')
          | [] => ([], s')
          end in
        match span_digits s'' with
        | ([], _) => ([], s)
        | (ds, rest) => (e :: sign ++ ds, rest)
        end
      else ([], s)
  | [] => ([], s)
  end.

Definition match_number (s : pystr) (idx : nat) : option (scanned json) :=
  let (neg, s1) :=
    match s with
    | 45%N :: t => (true, t)
    | _ => (false, s)
    end in
  match match_integer s1 with
  | None => None
  | Some (int, s2) =>
      let (frac, s3) := match_fraction s2 in
      let (exp, s4) := match_exponent s3 in
      let text := (if neg then [45%N] else []) ++ int ++ frac ++ exp in
      let v :=
        match frac, exp with
        | [], [] =>
            JInt (if neg then - int_of_digits int else int_of_digits int)%Z
        | _, _ => JFloat text
        end in
      Some (Scanned v s4 (idx + List.length text))
  end.

Definition hex_value (c : N) : option N :=
  if is_digit c then Some (c - 48)%N
  else if ((97 <=? c) && (c <=? 102))%N then Some (c - 87)%N
  else if ((65 <=? c) && (c <=? 70))%N then Some (c - 55)%N
  else None.

Definition decode_hex4 (a b c d : N) : option N :=
  match hex_value a, hex_value b, hex_value c, hex_value d with
  | Some x, Some y, Some z, Some w => Some (((x * 16 + y) * 16 + z) * 16 + w)%N
  | _, _, _, _ => None
  end.

Definition is_high_surrogate (u : N) : bool :=
  ((55296 <=? u) && (u <=? 56319))%N.
Definition is_low_surrogate (u : N) : bool :=
  ((56320 <=? u) && (u <=? 57343))%N.
Definition join_surrogates (u u2 : N) : N :=
  (65536 + N.lor (N.shiftl (u - 55296) 10) (u2 - 56320))%N.

(** The character a one-letter escape stands for. *)
Definition simple_escape (esc : N) : option N :=
  if (esc =? 34)%N then Some 34%N
  else if (esc =? 92)%N then Some 92%N
  else if (esc =? 47)%N then Some 47%N
  else if (esc =? 98)%N then Some 8%N
  else if (esc =? 102)%N then Some 12%N
  else if (esc =? 110)%N then Some 10%N
  else if (esc =? 114)%N then Some 13%N
  else if (esc =? 116)%N then Some 9%N
  else None.

Definition cons_char (c : N) (r : scanned pystr) : scanned pystr :=
  match r with
  | Scanned cs rest idx => Scanned (c :: cs) rest idx
  | other => other
  end.

(** The body of a string, from just after its opening quote at index
    [begin]; [idx] is the index of the first character of [s]. *)
Fixpoint scanstring (s : pystr) (idx begin : nat) : scanned pystr :=
  match s with
  | [] => DecodeError "Unterminated string starting at" begin
  | c :: s1 =>
      if (c =? 34)%N then Scanned [] s1 (S idx)
      else if (c =? 92)%N then
        match s1 with
        | [] => DecodeError "Unterminated string starting at" begin
        | esc :: s2 =>
            if (esc =? 117)%N then
              match s2 with
              | a :: b :: c' :: d :: s3 =>
                  match decode_hex4 a b c' d with
                  | None => DecodeError "Invalid \uXXXX escape" (S idx)
                  | Some u =>
                      let single := cons_char u (scanstring s3 (idx + 6) begin) in
                      if is_high_surrogate u then
                        match s3 with
                        | x :: y :: a2 :: b2 :: c2 :: d2 :: s4 =>
                            if ((x =? 92) && (y =? 117))%N then
                              match decode_hex4 a2 b2 c2 d2 with
                              | None =>
                                  DecodeError "Invalid \uXXXX escape" (idx + 7)
                              | Some u2 =>
                                  if is_low_surrogate u2
                                  then cons_char (join_surrogates u u2)
                                         (scanstring s4 (idx + 12) begin)
                                  else single
                              end
                            else single
                        | _ => single
                        end
                      else single
                  end
              | _ => DecodeError "Invalid \uXXXX escape" (S idx)
              end
            else
              match simple_escape esc with
              | Some ch => cons_char ch (scanstring s2 (idx + 2) begin)
              | None => DecodeError "Invalid \escape" idx
              end
        end
      else if (c <? 32)%N then DecodeError "Invalid control character at" idx
      else cons_char c (scanstring s1 (S idx) begin)
  end.

(** [d[key] = v] on an association list. *)
Fixpoint dict_set {V} (d : list (pystr * V)) (key : pystr) (v : V)
    : list (pystr * V) :=
  match d with
  | [] => [(key, v)]
  | (k, w) :: d' =>
      if pystr_eqb k key then (k, v) :: d' else (k, w) :: dict_set d' key v
  end.

Definition constant (name : string) (v : json) (s : pystr) (idx : nat)
    : option (scanned json) :=
  match strip_prefix (lit name) s with
  | Some rest => Some (Scanned v rest (idx + String.length name))
  | None => None
  end.

Definition first_of {A} (x y : option A) : option A :=
  match x with Some _ => x | None => y end.

(** A value other than a string, an array or an object at the head of
    [s]. *)
Definition scan_atom (s : pystr) (idx : nat) : scanned json :=
  let tries :=
    first_of (constant "null" JNull s idx)
    (first_of (constant "true" (JBool true) s idx)
    (first_of (constant "false" (JBool false) s idx)
    (first_of (match_number s idx)
    (first_of (constant "NaN" (JFloat (lit "NaN")) s idx)
    (first_of (constant "Infinity" (JFloat (lit "Infinity")) s idx)
              (constant "-Infinity" (JFloat (lit "-Infinity")) s idx)))))) in
  match tries with
  | Some r => r
  | None => StopIteration idx
  end.

Fixpoint scan_once (fuel : nat) (s : pystr) (idx : nat) : scanned json :=
  match fuel with
  | O => TooDeep
  | S fuel' =>
      match s with
      | [] => StopIteration idx
      | c :: s' =>
          if (c =? 34)%N then
            match scanstring s' (S idx) idx with
            | Scanned text rest idx' => Scanned (JStr text) rest idx'
            | StopIteration i => StopIteration i
            | DecodeError msg pos => DecodeError msg pos
            | TooDeep => TooDeep
            end
          else if (c =? 123)%N then
            let (s1, i1) := skip_ws s' (S idx) in
            match s1 with
            | 125%N :: rest => Scanned (JDict []) rest (S i1)
            | _ => object_items fuel' [] s1 i1
            end
          else if (c =? 91)%N then
            let (s1, i1) := skip_ws s' (S idx) in
            match s1 with
            | 93%N :: rest => Scanned (JList []) rest (S i1)
            | _ => array_items fuel' [] s1 i1
            end
          else scan_atom s idx
      end
  end

(** The pairs of an object, from the opening quote of a key on. *)
with object_items (fuel : nat) (acc : list (pystr * json)) (s : pystr)
    (idx : nat) : scanned json :=
  match fuel with
  | O => TooDeep
  | S fuel' =>
      match s with
      | 34%N :: s1 =>
          match scanstring s1 (S idx) idx with
          | Scanned key s2 i2 =>
              let (s3, i3) := skip_ws s2 i2 in
              match s3 with
              | 58%N :: s4 =>
                  let (s5, i5) := skip_ws s4 (S i3) in
                  match scan_once fuel' s5 i5 with
                  | Scanned v s6 i6 =>
                      let acc' := dict_set acc key v in
                      let (s7, i7) := skip_ws s6 i6 in
                      match s7 with
                      | 125%N :: rest => Scanned (JDict acc') rest (S i7)
                      | 44%N :: s8 =>
                          let (s9, i9) := skip_ws s8 (S i7) in
                          object_items fuel' acc' s9 i9
                      | _ => DecodeError "Expecting ',' delimiter" i7
                      end
                  | other => other
                  end
              | _ => DecodeError "Expecting ':' delimiter" i3
              end
          | StopIteration i => StopIteration i
          | DecodeError msg pos => DecodeError msg pos
          | TooDeep => TooDeep
          end
      | _ =>
          DecodeError "Expecting property name enclosed in double quotes" idx
      end
  end

(** The items of an array, from the first character of an item on. *)
with array_items (fuel : nat) (acc : list json) (s : pystr) (idx : nat)
    : scanned json :=
  match fuel with
  | O => TooDeep
  | S fuel' =>
      match scan_once fuel' s idx with
      | Scanned v s1 i1 =>
          let acc' := acc ++ [v] in
          let (s2, i2) := skip_ws s1 i1 in
          match s2 with
          | 93%N :: rest => Scanned (JList acc') rest (S i2)
          | 44%N :: s3 =>
              let (s4, i4) := skip_ws s3 (S i2) in
              array_items fuel' acc' s4 i4
          | _ => DecodeError "Expecting ',' delimiter" i2
          end
      | other => other
      end
  end.

(** [str(n)] for a natural number. *)
Definition decimal (n : nat) : pystr :=
  lit (NilEmpty.string_of_uint (Nat.to_uint n)).

(** The characters of [s] after its last line break. *)
Definition last_line (s : pystr) : pystr :=
  fold_left (fun line c => if (c =? 10)%N then [] else line ++ [c]) s [].

(** The text of a [JSONDecodeError]:
    [msg: line L column C (char pos)]. *)
Definition errmsg (msg : string) (doc : pystr) (pos : nat) : pystr :=
  let before := firstn pos doc in
  let lineno := S (count_occ N.eq_dec before 10%N) in
  let colno := S (List.length (last_line before)) in
  lit msg ++ lit ": line " ++ decimal lineno ++ lit " column "
  ++ decimal colno ++ lit " (char " ++ decimal pos ++ lit ")".

Definition decode_error (msg : string) (doc : pystr) (pos : nat) : exn :=
  {| exn_cls := JSONDecodeError; exn_str := errmsg msg doc pos |}.

Definition recursion_error : exn :=
  {| exn_cls := OtherException "RecursionError";
     exn_str := lit "maximum recursion depth exceeded while decoding a JSON document" |}.

Definition loads (doc : pystr) : result json :=
  match doc with
  | 65279%N :: _ =>
      Raised (decode_error "Unexpected UTF-8 BOM (decode using utf-8-sig)" doc 0)
  | _ =>
      let (s, idx) := skip_ws doc 0 in
      match scan_once (S (S (2 * List.length doc))) s idx with
      | Scanned v rest idx' =>
          match skip_ws rest idx' with
          | ([], _) => Ok v
          | (_ :: _, e) => Raised (decode_error "Extra data" doc e)
          end
      | StopIteration i => Raised (decode_error "Expecting value" doc i)
      | DecodeError msg pos => Raised (decode_error msg doc pos)
      | TooDeep => Raised recursion_error
      end
  end.

End json_decoder.

(* ================================================================= *)
(** ** Reading a trace *)

Definition is_anthropic_call (ev : event) : bool :=
  match ev with AnthropicCreate _ _ => true | _ => false end.

Definition is_openai_call (ev : event) : bool :=
  match ev with OpenAICreate _ _ => true | _ => false end.

Definition is_provider_call (ev : event) : bool :=
  is_anthropic_call ev || is_openai_call ev.

Definition is_display (ev : event) : bool :=
  match ev with StJson _ => true | _ => false end.

(** The provider calls of a trace, in order. *)
Definition provider_calls (t : list event) : list event :=
  filter is_provider_call t.

(** The user-role contents sent to a provider by the calls of a trace. *)
Definition sent_prompts (t : list event) : list pystr :=
  flat_map
    (fun ev =>
       let msgs :=
         match ev with
         | AnthropicCreate _ req => anthropic.messages req
         | OpenAICreate _ req => openai.messages req
         | _ => []
         end in
       map content (filter (fun m => pystr_eqb (role m) (lit "user")) msgs))
    t.

(** The entries one exchange contributes to the history. *)
Definition exchange_entries (f : form.state) (i : nat) : list message :=
  (if truthy (form.user_message f i)
   then [ {| role := lit "user"; content := form.user_message f i |} ]
   else [])
  ++ (if truthy (form.agent_response f i)
      then [ {| role := lit "assistant"; content := form.agent_response f i |} ]
      else []).

(** The dictionary [inputs] that [main] hands to [analyze_prompt]. *)
Definition main_inputs (f : form.state) : Inputs :=
  let provider := selectbox (keys model_providers) (form.provider f) in
  {| bot_type := selectbox [lit "Text Bot"; lit "Voice Bot"] (form.bot_type f);
     system_prompt := form.system_prompt f;
     conversation_history := collect_history f;
     defective_user_message := form.defective_user_message f;
     defective_agent_response := form.defective_agent_response f;
     defective_description := form.defective_description f;
     agent_interpretation := form.agent_interpretation f;
     expected_behavior := form.expected_behavior f;
     behavioral_guidelines := form.behavioral_guidelines f;
     provider := provider;
     model :=
       selectbox
         (keys (match dict_get model_providers provider with
                | Some models => models
                | None => []
                end))
         (form.model f) |}.

(** The seven fields [main] requires before it dispatches. *)
Definition required_fields (f : form.state) : list pystr :=
  [ form.system_prompt f; form.defective_user_message f;
    form.defective_agent_response f; form.defective_description f;
    form.agent_interpretation f; form.expected_behavior f;
    form.behavioral_guidelines f ].

(** What [analyze_prompt] makes of the result of its [try] body. *)
Definition settle (s : Proc) (calls : list event) (r : result json)
    : Run json :=
  match r with
  | Ok v => mkRun (Ok v) s calls
  | Raised e =>
      if isinstance_Exception e
      then
        if has_surrogate (lit "Analysis Error: " ++ exn_str e)
        then mkRun (Raised unicode_encode_error) s calls
        else mkRun (Ok (JDict [])) s
               (calls ++ [StError (lit "Analysis Error: " ++ exn_str e)])
      else mkRun (Raised e) s calls
  end.

(** The requests of the two call sites, as the interface describes them. *)
Definition anthropic_request (inputs : Inputs) : anthropic.request :=
  {| anthropic.model := model inputs;
     anthropic.max_tokens := 4000;
     anthropic.messages :=
       [ {| role := lit "user"; content := analysis_prompt inputs |} ] |}.

Definition openai_request (inputs : Inputs) : openai.request :=
  {| openai.model := model inputs;
     openai.messages :=
       [ {| role := lit "system";
            content := lit "You are an expert AI debugger." |};
         {| role := lit "user"; content := analysis_prompt inputs |} ];
     openai.max_tokens := 4000;
     openai.temperature := 0.2 |}.

Definition no_attribute_anthropic_client : exn :=
  {| exn_cls := AttributeError;
     exn_str := lit "'PromptDebugger' object has no attribute 'anthropic_client'" |}.

Definition index_error : exn :=
  {| exn_cls := IndexError; exn_str := lit "list index out of range" |}.

(** What the text of the first block of an Anthropic reply gives. *)
Definition anthropic_parse (json_loads : pystr -> result json)
    (reply : result anthropic.response) : result json :=
  match reply with
  | Raised e => Raised e
  | Ok [] => Raised index_error
  | Ok (anthropic.TextBlock text :: _) => json_loads text
  | Ok (anthropic.OtherBlock cls :: _) =>
      Raised {| exn_cls := AttributeError;
                exn_str := lit "'" ++ cls
                           ++ lit "' object has no attribute 'text'" |}
  end.

(** What the content of the first choice of an OpenAI reply gives. *)
Definition openai_parse (json_loads : pystr -> result json)
    (reply : result openai.response) : result json :=
  match reply with
  | Raised e => Raised e
  | Ok [] => Raised index_error
  | Ok ({| openai.message_content := Some text |} :: _) => json_loads text
  | Ok ({| openai.message_content := None |} :: _) =>
      Raised {| exn_cls := TypeError;
                exn_str := lit "the JSON object must be str, bytes or bytearray, not NoneType" |}
  end.

(* ================================================================= *)
(** ** Test doubles and scenario data *)

(** A provider that answers every request with one text. *)
Definition mock_anthropic (text : pystr)
    : anthropic.Client -> anthropic.request -> result anthropic.response :=
  fun _ _ => Ok [ anthropic.TextBlock text ].

(** A provider that rejects a call made without a key and answers the
    others with one text. *)
Definition authentication_error : exn :=
  {| exn_cls := OtherException "AuthenticationError";
     exn_str := lit "No API key provided." |}.

Definition mock_openai (text : pystr)
    : option pystr -> openai.request -> result openai.response :=
  fun key _ =>
    match key with
    | None => Raised authentication_error
    | Some _ => Ok [ {| openai.message_content := Some text |} ]
    end.

(** The request of the end-to-end scenario: every text field is [x],
    the history is empty. *)
Definition scenario_request (bot : pystr) : Inputs :=
  {| bot_type := bot;
     system_prompt := lit "x";
     conversation_history := [];
     defective_user_message := lit "x";
     defective_agent_response := lit "x";
     defective_description := lit "x";
     agent_interpretation := lit "x";
     expected_behavior := lit "x";
     behavioral_guidelines := lit "x";
     provider := lit "Anthropic";
     model := lit "claude-3-haiku-20240307" |}.

(** The mocked reply of the scenario and the structure it denotes. *)
Definition scenario_reply : pystr :=
  lit "{" ++ q "error_analysis" ++ lit ":{" ++ q "system_prompt" ++ lit ":"
  ++ q "a" ++ lit "," ++ q "guidelines" ++ lit ":" ++ q "b" ++ lit "},"
  ++ q "suggestions" ++ lit ":{" ++ q "system_prompt" ++ lit ":" ++ q "c"
  ++ lit "," ++ q "guidelines" ++ lit ":" ++ q "d" ++ lit "},"
  ++ q "interpretation_change" ++ lit ":" ++ q "e" ++ lit "}".

Definition scenario_result : json :=
  JDict
    [ (lit "error_analysis",
        JDict [ (lit "system_prompt", JStr (lit "a"));
                (lit "guidelines", JStr (lit "b")) ]);
      (lit "suggestions",
        JDict [ (lit "system_prompt", JStr (lit "c"));
                (lit "guidelines", JStr (lit "d")) ]);
      (lit "interpretation_change", JStr (lit "e")) ].

(** The description of the required JSON shape that closes the template. *)
Definition json_shape_description : pystr :=
  join nl
    [ lit "Output should be in JSON format:";
      lit "{";
      lit "    " ++ q "error_analysis" ++ lit ": { " ++ q "system_prompt"
        ++ lit ": " ++ q "..." ++ lit ", " ++ q "guidelines" ++ lit ": "
        ++ q "..." ++ lit " },";
      lit "    " ++ q "suggestions" ++ lit ": { " ++ q "system_prompt"
        ++ lit ": " ++ q "..." ++ lit ", " ++ q "guidelines" ++ lit ": "
        ++ q "..." ++ lit " },";
      lit "    " ++ q "interpretation_change" ++ lit ": " ++ q "...";
      lit "}" ].

(** A process in which both credentials were configured. *)
Definition configured : Proc :=
  {| anthropic_client := Some {| anthropic.api_key := lit "sk-ant" |};
     openai_api_key := Some (lit "sk-oai") |}.

(** A well-formed request: non-empty texts, a provider of the catalog
    and one of its models. *)
Definition valid_request (inputs : Inputs) : Prop :=
  In (bot_type inputs) [lit "Text Bot"; lit "Voice Bot"]
  /\ Forall (fun s => s <> [])
       [ system_prompt inputs; behavioral_guidelines inputs;
         defective_user_message inputs; defective_agent_response inputs;
         defective_description inputs; agent_interpretation inputs;
         expected_behavior inputs ]
  /\ Forall (fun m => In (role m) [lit "user"; lit "assistant"])
       (conversation_history inputs)
  /\ exists models,
       dict_get model_providers (provider inputs) = Some models
       /\ In (model inputs) (keys models).

(* ================================================================= *)
(** ** Auxiliary definitions for the proofs *)

(** The notice of [__init__] when a key is missing. *)
Definition missing_keys_notice : event :=
  StError (lit "Missing API keys in Streamlit secrets.").

(** The pieces of fixed text between the fields of the template. *)
Definition template_head : pystr :=
  join nl
    [ [];
      lit "You are an AI expert specializing in debugging and analyzing conversational agent prompts.";
      [];
      lit "Given the following inputs:";
      [];
      lit "- **Bot Type**: " ].

Definition template_tail : pystr :=
  join nl
    [ [];
      [];
      lit "### Tasks:";
      lit "1. **Error Source Analysis**: Identify if the issue originates from the system prompt, guidelines, or model behavior.";
      lit "2. **Suggestions for Improvements**: Provide modifications to enhance the system prompt and guidelines.";
      lit "3. **Agent Interpretation Shift**: Explain how the agent's reasoning may change with the new modifications.";
      [];
      json_shape_description;
      lit "        " ].

(** The two halves of a code point above the basic plane. *)
Definition high_half (c : N) : N :=
  N.lor 55296 (N.land (N.shiftr (c - 65536) 10) 1023).
Definition low_half (c : N) : N :=
  N.lor 56320 (N.land (c - 65536) 1023).

(** A Unicode scalar value: a code point that is not a surrogate. *)
Definition scalar (c : N) : Prop :=
  (c < 55296 \/ 57343 < c < 1114112)%N.

(** The value [json.loads] builds for a serialized message. *)
Definition message_json (m : message) : json :=
  JDict [ (lit "role", JStr (role m)); (lit "content", JStr (content m)) ].

(** Messages and histories whose strings hold scalar values only. *)
Definition wf_message (m : message) : Prop :=
  Forall scalar (role m) /\ Forall scalar (content m).

(** The items of a serialized history, after the opening bracket and
    the indentation of the first item. *)
Fixpoint items_text (m : message) (history : list message) : pystr :=
  match history with
  | [] => dumps_message m ++ nl ++ lit "]"
  | m' :: history' =>
      dumps_message m ++ lit "," ++ nl ++ lit "  " ++ items_text m' history'
  end.

Definition wf_history (history : list message) : Prop :=
  Forall wf_message history.

(** The same, as a test. *)
Definition is_scalar (c : N) : bool :=
  ((c <? 55296) || ((57343 <? c) && (c <? 1114112)))%N.

Definition is_wf_history (history : list message) : bool :=
  forallb
    (fun m => forallb is_scalar (role m) && forallb is_scalar (content m))
    history.

(** [inputs] with another provider and model. *)
Definition with_routing (inputs : Inputs) (p m : pystr) : Inputs :=
  {| bot_type := bot_type inputs;
     system_prompt := system_prompt inputs;
     conversation_history := conversation_history inputs;
     defective_user_message := defective_user_message inputs;
     defective_agent_response := defective_agent_response inputs;
     defective_description := defective_description inputs;
     agent_interpretation := agent_interpretation inputs;
     expected_behavior := expected_behavior inputs;
     behavioral_guidelines := behavioral_guidelines inputs;
     provider := p;
     model := m |}.

(** A user message that holds a quotation. *)
Definition quoting_message : message :=
  {| role := lit "user"; content := lit "Say " ++ q "hi" |}.

(** A well-formed request for OpenAI with that message as history. *)
Definition openai_sample_request : Inputs :=
  {| bot_type := lit "Text Bot";
     system_prompt := lit "Be brief.";
     conversation_history := [ quoting_message ];
     defective_user_message := lit "Hello";
     defective_agent_response := lit "Goodbye";
     defective_description := lit "Wrong greeting";
     agent_interpretation := lit "Farewell";
     expected_behavior := lit "Greeting";
     behavioral_guidelines := lit "Be polite.";
     provider := lit "OpenAI";
     model := lit "gpt-4o" |}.

(** A request for Anthropic that names a model of the other provider. *)
Definition unlisted_request : Inputs :=
  {| bot_type := lit "Text Bot";
     system_prompt := lit "x";
     conversation_history := [];
     defective_user_message := lit "x";
     defective_agent_response := lit "x";
     defective_description := lit "x";
     agent_interpretation := lit "x";
     expected_behavior := lit "x";
     behavioral_guidelines := lit "x";
     provider := lit "Anthropic";
     model := lit "gpt-4" |}.

(** Secrets that hold the Anthropic key only. *)
Definition only_anthropic_secrets : list (pystr * pystr) :=
  [ (lit "ANTHROPIC_API_KEY", lit "sk-ant") ].

(** A form with the seven required fields filled, one exchange left
    empty, and the button pressed. *)
Definition filled_form : form.state :=
  {| form.bot_type := 0;
     form.provider := 0;
     form.model := 2;
     form.system_prompt := lit "x";
     form.behavioral_guidelines := lit "x";
     form.num_exchanges := 1%positive;
     form.user_message := fun _ => [];
     form.agent_response := fun _ => [];
     form.defective_user_message := lit "x";
     form.defective_agent_response := lit "x";
     form.defective_description := lit "x";
     form.agent_interpretation := lit "x";
     form.expected_behavior := lit "x";
     form.analyze_clicked := true |}.

(** The same form with the system prompt left empty. *)
Definition blank_form : form.state :=
  {| form.bot_type := 0;
     form.provider := 0;
     form.model := 2;
     form.system_prompt := [];
     form.behavioral_guidelines := lit "x";
     form.num_exchanges := 1%positive;
     form.user_message := fun _ => [];
     form.agent_response := fun _ => [];
     form.defective_user_message := lit "x";
     form.defective_agent_response := lit "x";
     form.defective_description := lit "x";
     form.agent_interpretation := lit "x";
     form.expected_behavior := lit "x";
     form.analyze_clicked := true |}.

(** A form whose two exchanges hold a question, no answer, no second
    question and a second answer. *)
Definition talk_form : form.state :=
  {| form.bot_type := 1;
     form.provider := 1;
     form.model := 0;
     form.system_prompt := lit "x";
     form.behavioral_guidelines := lit "x";
     form.num_exchanges := 2%positive;
     form.user_message := fun i => if Nat.eqb i 0 then lit "hi" else [];
     form.agent_response := fun i => if Nat.eqb i 1 then lit "yo" else [];
     form.defective_user_message := lit "x";
     form.defective_agent_response := lit "x";
     form.defective_description := lit "x";
     form.agent_interpretation := lit "x";
     form.expected_behavior := lit "x";
     form.analyze_clicked := false |}.

(** [analyze_prompt] and [main] with the test doubles, both providers
    answering with the text [reply], and the decoder model. *)
Definition mock_analyze (reply : pystr) : Inputs -> M json :=
  analyze_prompt (mock_anthropic reply) (mock_openai reply)
    json_decoder.loads.

Definition mock_main (secrets : secrets_source) (reply : pystr)
    : form.state -> M unit :=
  main secrets (mock_anthropic reply) (mock_openai reply) json_decoder.loads.

(** The client that [configured] holds, and a process in which the
    constructor found the Anthropic key only. *)
Definition sample_client : anthropic.Client :=
  {| anthropic.api_key := lit "sk-ant" |}.

Definition half_configured (key : option pystr) : Proc :=
  {| anthropic_client := Some sample_client; openai_api_key := key |}.

(** The error [json.loads] raises on the text [not json]. *)
Definition not_json_error : exn :=
  json_decoder.decode_error "Expecting value" (lit "not json") 0.

(* ================================================================= *)
(** ** Further definitions: the model labels and more test doubles *)

(** The [format_func] of the model select box of [main]:
    [lambda x: debugger.model_providers[provider][x]]. *)
Definition format_func (provider x : pystr) : M pystr :=
  models <- getitem model_providers provider ;;
  getitem models x.

(** Secrets with both keys, and with the OpenAI key only. *)
Definition both_secrets : list (pystr * pystr) :=
  [ (lit "ANTHROPIC_API_KEY", lit "sk-ant");
    (lit "OPENAI_API_KEY", lit "sk-oai") ].

Definition only_openai_secrets : list (pystr * pystr) :=
  [ (lit "OPENAI_API_KEY", lit "sk-oai") ].

(** An API error of a provider client, and an interrupt, which is not
    an [Exception]. *)
Definition rate_limit_error : exn :=
  {| exn_cls := OtherException "RateLimitError";
     exn_str := lit "Rate limit reached" |}.

Definition keyboard_interrupt : exn :=
  {| exn_cls := BaseExceptionOnly "KeyboardInterrupt"; exn_str := [] |}.

(** Providers that raise, and providers that answer with nothing. *)
Definition failing_anthropic (e : exn)
    : anthropic.Client -> anthropic.request -> result anthropic.response :=
  fun _ _ => Raised e.

Definition failing_openai (e : exn)
    : option pystr -> openai.request -> result openai.response :=
  fun _ _ => Raised e.

Definition silent_anthropic
    : anthropic.Client -> anthropic.request -> result anthropic.response :=
  fun _ _ => Ok [].

Definition silent_openai
    : option pystr -> openai.request -> result openai.response :=
  fun _ _ => Ok [].

(** A printable ASCII character or a line break. *)
Definition plain_ascii (c : N) : Prop :=
  (c = 10 \/ 32 <= c <= 126)%N.

(** The number of [st.error] notices of a trace. *)
Definition is_error_notice (ev : event) : bool :=
  match ev with StError _ => true | _ => false end.

Definition is_plain_ascii (c : N) : bool :=
  ((c =? 10) || ((32 <=? c) && (c <=? 126)))%N.

(** [inputs] with another conversation history. *)
Definition with_history (inputs : Inputs) (history : list message) : Inputs :=
  {| bot_type := bot_type inputs;
     system_prompt := system_prompt inputs;
     conversation_history := history;
     defective_user_message := defective_user_message inputs;
     defective_agent_response := defective_agent_response inputs;
     defective_description := defective_description inputs;
     agent_interpretation := agent_interpretation inputs;
     expected_behavior := expected_behavior inputs;
     behavioral_guidelines := behavioral_guidelines inputs;
     provider := provider inputs;
     model := model inputs |}.

(** The two entries of an exchange whose texts are both filled. *)
Definition full_exchange (f : form.state) (i : nat) : list message :=
  [ {| role := lit "user"; content := form.user_message f i |};
    {| role := lit "assistant"; content := form.agent_response f i |} ].

(** A form with two exchanges, every text filled, the button not
    pressed. *)
Definition chat_form : form.state :=
  {| form.bot_type := 1;
     form.provider := 1;
     form.model := 0;
     form.system_prompt := lit "x";
     form.behavioral_guidelines := lit "x";
     form.num_exchanges := 2%positive;
     form.user_message := fun _ => lit "hi";
     form.agent_response := fun _ => lit "yo";
     form.defective_user_message := lit "x";
     form.defective_agent_response := lit "x";
     form.defective_description := lit "x";
     form.agent_interpretation := lit "x";
     form.expected_behavior := lit "x";
     form.analyze_clicked := false |}.

(** A result of the scanner on a text of [n] characters: what it leaves
    is shorter than the text, and, given [enough] budget, the nesting
    budget was not exhausted. *)
Definition scans_within {A} (r : json_decoder.scanned A) (n : nat)
    (enough : Prop) : Prop :=
  (forall a rest i,
     r = json_decoder.Scanned a rest i -> List.length rest < n)
  /\ (enough -> r <> json_decoder.TooDeep).

(** Whether [st.json] can show a value: every value but a [str] that
    holds a surrogate. *)
Definition displayable (v : json) : bool :=
  match v with
  | JStr s => negb (has_surrogate s)
  | _ => true
  end.

(** An API error whose message quotes a text with a lone surrogate. *)
Definition unencodable_error : exn :=
  {| exn_cls := OtherException "BadRequestError";
     exn_str := lit "Invalid input: " ++ [55296%N] |}.

(** A reply that is a JSON string with the escape of a lone surrogate,
    and the string it denotes. *)
Definition surrogate_reply : pystr := dq ++ lit "\ud800" ++ dq.

Definition surrogate_string : json := JStr [55296%N].

(** A value built without [NaN], [Infinity] and [-Infinity], the three
    constants that Python's decoder reads beyond the grammar of JSON
    (RFC 8259, section 6, excludes them). *)
Definition standard_float (text : pystr) : bool :=
  negb (pystr_eqb text (lit "NaN") || pystr_eqb text (lit "Infinity")
        || pystr_eqb text (lit "-Infinity")).

Fixpoint standard_json (v : json) : bool :=
  match v with
  | JFloat text => standard_float text
  | JList items => forallb standard_json items
  | JDict items =>
      forallb (fun kv => let (_, w) := kv : pystr * json in standard_json w)
        items
  | _ => true
  end.

(** A text is valid JSON when the decoder accepts it without reading
    one of those constants. *)
Definition valid_json (doc : pystr) : bool :=
  match json_decoder.loads doc with
  | Ok v => standard_json v
  | Raised _ => false
  end.

Arguments lit : simpl never.
Arguments analysis_prompt : simpl never.

(* ================================================================= *)
(** ** Substrings *)

Lemma is_prefix_true (s t : pystr) :
  is_prefix s t = true <-> exists post, t = s ++ post.
Proof.
  revert t; induction s as [|a s IH]; intros t; simpl.
  - split; [intros _; now exists t | reflexivity].
  - destruct t as [|b t].
    + split; [discriminate | intros [post H]; discriminate].
    + rewrite andb_true_iff, N.eqb_eq, IH. split.
      * intros [-> [post ->]]. now exists post.
      * intros [post H]. injection H as -> ->. split; [reflexivity | now exists post].
Qed.

Lemma is_substring_true (s t : pystr) :
  is_substring s t = true <-> substring s t.
Proof.
  unfold substring. induction t as [|b t IH]; simpl.
  - rewrite is_prefix_true. split.
    + intros [post H]. exists [], post. exact H.
    + intros [pre [post H]]. symmetry in H.
      apply app_eq_nil in H as [_ H]. apply app_eq_nil in H as [-> ->].
      now exists [].
  - rewrite orb_true_iff, is_prefix_true, IH. split.
    + intros [[post H] | [pre [post H]]].
      * exists [], post. exact H.
      * exists (b :: pre), post. simpl. now rewrite H.
    + intros [[|c pre] [post H]].
      * left. exists post. exact H.
      * right. injection H as _ H. exists pre, post. exact H.
Qed.

Lemma substring_refl (s : pystr) : substring s s.
Proof. exists [], []. now rewrite app_nil_r. Qed.

Lemma substring_app_l (s a b : pystr) : substring s a -> substring s (a ++ b).
Proof.
  intros [pre [post ->]]. exists pre, (post ++ b).
  now rewrite <- !app_assoc.
Qed.

Lemma substring_app_r (s a b : pystr) : substring s b -> substring s (a ++ b).
Proof.
  intros [pre [post ->]]. exists (a ++ pre), post.
  now rewrite <- !app_assoc.
Qed.

Lemma substring_trans (s t u : pystr) :
  substring s t -> substring t u -> substring s u.
Proof.
  intros [p1 [q1 ->]] [p2 [q2 ->]]. exists (p2 ++ p1), (q1 ++ q2).
  now rewrite <- !app_assoc.
Qed.

Lemma substring_join (sep s : pystr) (parts : list pystr) :
  In s parts -> substring s (join sep parts).
Proof.
  induction parts as [|p ps IH]; [contradiction|].
  intros [-> | Hin].
  - destruct ps; simpl; [apply substring_refl|].
    apply substring_app_l, substring_refl.
  - destruct ps as [|p' ps]; [contradiction|].
    change (join sep (p :: p' :: ps)) with (p ++ sep ++ join sep (p' :: ps)).
    now apply substring_app_r, substring_app_r, IH.
Qed.

Create HintDb substr.
#[local] Hint Resolve substring_refl substring_app_l substring_app_r : substr.

(** A field written at the end of a line of the template is in the text. *)
Lemma substring_prompt_line (inputs : Inputs) (label field : pystr) :
  In (label ++ field) (prompt_lines inputs) ->
  substring field (analysis_prompt inputs).
Proof.
  intros Hin. unfold analysis_prompt.
  apply substring_trans with (label ++ field); auto with substr.
  now apply substring_join.
Qed.

(* ================================================================= *)
(** ** The runs of [analyze_prompt] *)

Section Runs.

(** The entries of the secrets file. *)
Variable secrets : list (pystr * pystr).
Variable messages_create :
  anthropic.Client -> anthropic.request -> result anthropic.response.
Variable ChatCompletion_create :
  option pystr -> openai.request -> result openai.response.
Variable json_loads : pystr -> result json.

Local Abbreviation analyze := (analyze_prompt messages_create ChatCompletion_create json_loads).

Lemma pystr_eqb_eq (s t : pystr) : pystr_eqb s t = true <-> s = t.
Proof.
  unfold pystr_eqb. destruct (pystr_eq_dec s t); split; congruence.
Qed.

Lemma pystr_eqb_neq (s t : pystr) : pystr_eqb s t = false <-> s <> t.
Proof.
  unfold pystr_eqb. destruct (pystr_eq_dec s t); split; congruence.
Qed.

Ltac split_run :=
  repeat first
    [ reflexivity
    | match goal with
      | |- context [isinstance_Exception ?e] =>
          destruct (isinstance_Exception e); cbn
      | |- context [match ?x with _ => _ end] => destruct x; cbn
      end ].

Ltac run_steps :=
  unfold bind, self_anthropic_client, anthropic_messages_create,
    openai_ChatCompletion_create, first_item, block_text, json_loads_obj,
    emit, lift, get, ret, raise; cbn.

(** The [except Exception] clause of [analyze_prompt], run after a
    [try] body that left the state as it was. *)
Lemma try_except_settle (body : M json) (s : Proc) (calls : list event)
    (r : result json) :
  body s = mkRun r s calls ->
  try_except body isinstance_Exception
    (fun e => st_error (lit "Analysis Error: " ++ exn_str e) ;;
              ret (JDict [])) s
  = settle s calls r.
Proof.
  intros Hb. unfold try_except, settle. rewrite Hb. cbn.
  destruct r as [v|e]; [reflexivity|].
  destruct (isinstance_Exception e); [|reflexivity].
  unfold st_error, bind, ret, raise, emit.
  destruct (has_surrogate (lit "Analysis Error: " ++ exn_str e));
    cbn; [now rewrite app_nil_r | reflexivity].
Qed.

Lemma analyze_prompt_no_client (inputs : Inputs) (s : Proc) :
  provider inputs = lit "Anthropic" ->
  anthropic_client s = None ->
  analyze inputs s = settle s [] (Raised no_attribute_anthropic_client).
Proof.
  intros Hp Hc. unfold analyze_prompt.
  apply pystr_eqb_eq in Hp. rewrite Hp.
  apply try_except_settle.
  run_steps. rewrite Hc. reflexivity.
Qed.

Lemma analyze_prompt_anthropic (inputs : Inputs) (s : Proc)
    (c : anthropic.Client) :
  provider inputs = lit "Anthropic" ->
  anthropic_client s = Some c ->
  analyze inputs s
  = settle s [AnthropicCreate c (anthropic_request inputs)]
      (anthropic_parse json_loads (messages_create c (anthropic_request inputs))).
Proof.
  intros Hp Hc. unfold analyze_prompt.
  apply pystr_eqb_eq in Hp. rewrite Hp.
  apply try_except_settle.
  run_steps. rewrite Hc. cbn.
  fold (anthropic_request inputs).
  destruct (messages_create c (anthropic_request inputs)) as [[|[text|cls] more]|e];
    cbn; split_run.
Qed.

Lemma analyze_prompt_openai (inputs : Inputs) (s : Proc) :
  provider inputs <> lit "Anthropic" ->
  analyze inputs s
  = settle s [OpenAICreate (openai_api_key s) (openai_request inputs)]
      (openai_parse json_loads
         (ChatCompletion_create (openai_api_key s) (openai_request inputs))).
Proof.
  intros Hp. unfold analyze_prompt.
  apply pystr_eqb_neq in Hp. rewrite Hp.
  apply try_except_settle.
  run_steps. fold (openai_request inputs).
  destruct (ChatCompletion_create (openai_api_key s) (openai_request inputs))
    as [[|[[text|]] more]|e]; cbn; split_run.
Qed.

(** [settle] keeps the calls already made and adds notices only. *)
Lemma settle_provider_calls s calls r :
  provider_calls (trace (settle s calls r)) = provider_calls calls.
Proof.
  destruct r as [v|e]; cbn; [reflexivity|].
  destruct (isinstance_Exception e); cbn; [|reflexivity].
  destruct (has_surrogate (lit "Analysis Error: " ++ exn_str e)); cbn;
    [reflexivity|].
  unfold provider_calls. rewrite filter_app. cbn. apply app_nil_r.
Qed.

Lemma settle_trace_cases s calls r :
  trace (settle s calls r) = calls
  \/ exists msg, trace (settle s calls r) = calls ++ [StError msg].
Proof.
  destruct r as [v|e]; cbn; [now left|].
  destruct (isinstance_Exception e); cbn; [|now left].
  destruct (has_surrogate (lit "Analysis Error: " ++ exn_str e)); cbn;
    [now left | right; eauto].
Qed.

(** The three cases of a run, by provider and client. *)
Lemma analyze_prompt_cases (inputs : Inputs) (s : Proc) :
  (provider inputs = lit "Anthropic" /\ anthropic_client s = None
   /\ analyze inputs s = settle s [] (Raised no_attribute_anthropic_client))
  \/ (exists c, provider inputs = lit "Anthropic" /\ anthropic_client s = Some c
      /\ analyze inputs s
         = settle s [AnthropicCreate c (anthropic_request inputs)]
             (anthropic_parse json_loads
                (messages_create c (anthropic_request inputs))))
  \/ (provider inputs <> lit "Anthropic"
      /\ analyze inputs s
         = settle s [OpenAICreate (openai_api_key s) (openai_request inputs)]
             (openai_parse json_loads
                (ChatCompletion_create (openai_api_key s)
                   (openai_request inputs)))).
Proof.
  destruct (pystr_eq_dec (provider inputs) (lit "Anthropic")) as [Hp|Hp].
  - destruct (anthropic_client s) as [c|] eqn:Hc.
    + right; left. exists c. auto using analyze_prompt_anthropic.
    + left. auto using analyze_prompt_no_client.
  - right; right. auto using analyze_prompt_openai.
Qed.

Lemma settle_trace_Forall (P : event -> Prop) s calls r :
  Forall P calls ->
  (forall msg, P (StError msg)) ->
  Forall P (trace (settle s calls r)).
Proof.
  intros Hc He.
  destruct (settle_trace_cases s calls r) as [-> | [msg ->]]; [exact Hc|].
  apply Forall_app. split; [exact Hc | constructor; auto].
Qed.

Lemma has_surrogate_app (a b : pystr) :
  has_surrogate (a ++ b) = has_surrogate a || has_surrogate b.
Proof. apply existsb_app. Qed.

(** The fixed opening of the notice is plain: the notice can be shown
    when the message of the cause can. *)
Lemma has_surrogate_notice (m : pystr) :
  has_surrogate (lit "Analysis Error: " ++ m) = has_surrogate m.
Proof. rewrite has_surrogate_app. reflexivity. Qed.

Lemma settle_value_Exception s calls e :
  isinstance_Exception e = true ->
  has_surrogate (exn_str e) = false ->
  settle s calls (Raised e)
  = mkRun (Ok (JDict [])) s
      (calls ++ [StError (lit "Analysis Error: " ++ exn_str e)]).
Proof.
  intros H H'. unfold settle. now rewrite H, has_surrogate_notice, H'.
Qed.

Lemma settle_value_unencodable s calls e :
  isinstance_Exception e = true ->
  has_surrogate (exn_str e) = true ->
  settle s calls (Raised e) = mkRun (Raised unicode_encode_error) s calls.
Proof.
  intros H H'. unfold settle. now rewrite H, has_surrogate_notice, H'.
Qed.

(** C3. Dispatch with provider ["Anthropic"] takes the Anthropic path
    and that path only: its one provider call is [messages.create] on
    the client of the object, with the request built from [inputs], and
    no event of the run is a call of OpenAI; while the client attribute
    is missing, the path stops at the attribute lookup and the run
    reports that attribute.  Dispatch with provider ["OpenAI"] takes the
    OpenAI path and that path only: its one provider call is
    [ChatCompletion.create] with the request built from [inputs], and no
    event of the run is a call of Anthropic.  This holds whatever the
    request, the state and the providers' behaviour. *)
Theorem dispatch_routes_to_selected_provider (inputs : Inputs) (s : Proc) :
  (provider inputs = lit "Anthropic" ->
   provider_calls (trace (analyze inputs s))
   = match anthropic_client s with
     | Some c => [AnthropicCreate c (anthropic_request inputs)]
     | None => []
     end
   /\ (anthropic_client s = None ->
       trace (analyze inputs s)
       = [StError (lit "Analysis Error: "
                   ++ lit "'PromptDebugger' object has no attribute 'anthropic_client'")])
   /\ Forall (fun ev => is_openai_call ev = false) (trace (analyze inputs s)))
  /\ (provider inputs = lit "OpenAI" ->
      provider_calls (trace (analyze inputs s))
      = [OpenAICreate (openai_api_key s) (openai_request inputs)]
      /\ Forall (fun ev => is_anthropic_call ev = false)
           (trace (analyze inputs s))).
Proof.
  split; intros Hp.
  - destruct (anthropic_client s) as [c|] eqn:Hc.
    + rewrite (analyze_prompt_anthropic inputs s c Hp Hc).
      split; [apply settle_provider_calls|].
      split; [discriminate|].
      apply settle_trace_Forall; [repeat constructor | reflexivity].
    + rewrite (analyze_prompt_no_client inputs s Hp Hc).
      split; [apply settle_provider_calls|].
      split; [reflexivity|].
      apply settle_trace_Forall; [constructor | reflexivity].
  - assert (Hn : provider inputs <> lit "Anthropic").
    { rewrite Hp. intros H. apply (f_equal (@List.length N)) in H.
      vm_compute in H. discriminate. }
    rewrite (analyze_prompt_openai inputs s Hn).
    split; [apply settle_provider_calls|].
    apply settle_trace_Forall; [repeat constructor | reflexivity].
Qed.

(** C8. Every call that [analyze_prompt] makes has the documented
    shape: on the Anthropic path one user message holding the rendered
    instruction and [max_tokens=4000]; on the OpenAI path the system
    message [You are an expert AI debugger.] followed by the rendered
    instruction as user message, [max_tokens=4000] and
    [temperature=0.2].  A run makes exactly one such call, on the path
    of its provider (none on the Anthropic path while the client is
    missing). *)
Theorem provider_requests_have_the_documented_shape
    (inputs : Inputs) (s : Proc) :
  Forall
    (fun ev =>
       match ev with
       | AnthropicCreate _ req =>
           anthropic.messages req
           = [ {| role := lit "user"; content := analysis_prompt inputs |} ]
           /\ anthropic.max_tokens req = 4000%Z
           /\ anthropic.model req = model inputs
       | OpenAICreate _ req =>
           openai.messages req
           = [ {| role := lit "system";
                  content := lit "You are an expert AI debugger." |};
               {| role := lit "user"; content := analysis_prompt inputs |} ]
           /\ openai.max_tokens req = 4000%Z
           /\ openai.temperature req = 0.2%Q
           /\ openai.model req = model inputs
       | _ => True
       end)
    (trace (analyze inputs s))
  /\ provider_calls (trace (analyze inputs s))
     = if pystr_eqb (provider inputs) (lit "Anthropic") then
         match anthropic_client s with
         | Some c => [AnthropicCreate c (anthropic_request inputs)]
         | None => []
         end
       else [OpenAICreate (openai_api_key s) (openai_request inputs)].
Proof.
  destruct (analyze_prompt_cases inputs s)
    as [(Hp & Hc & ->) | [(c & Hp & Hc & ->) | (Hp & ->)]].
  - split.
    + apply settle_trace_Forall; [constructor | exact (fun _ => I)].
    + rewrite settle_provider_calls, Hc.
      apply pystr_eqb_eq in Hp. now rewrite Hp.
  - split.
    + apply settle_trace_Forall; [|exact (fun _ => I)].
      constructor; [|constructor]. cbn. auto.
    + rewrite settle_provider_calls, Hc.
      apply pystr_eqb_eq in Hp. now rewrite Hp.
  - split.
    + apply settle_trace_Forall; [|exact (fun _ => I)].
      constructor; [|constructor]. cbn. auto.
    + rewrite settle_provider_calls.
      apply pystr_eqb_neq in Hp. now rewrite Hp.
Qed.

(** The instruction a run sends, if it sends one. *)
Lemma sent_prompts_analyze (inputs : Inputs) (s : Proc) (p : pystr) :
  In p (sent_prompts (trace (analyze inputs s))) ->
  p = analysis_prompt inputs.
Proof.
  assert (Hs : forall st calls r,
             sent_prompts (trace (settle st calls r)) = sent_prompts calls).
  { intros st calls r.
    destruct (settle_trace_cases st calls r) as [-> | [msg ->]];
      [reflexivity|].
    unfold sent_prompts. rewrite flat_map_app. cbn. apply app_nil_r. }
  assert (Hu : pystr_eqb (lit "user") (lit "user") = true)
    by now apply pystr_eqb_eq.
  assert (Hy : pystr_eqb (lit "system") (lit "user") = false)
    by (apply pystr_eqb_neq; intros H;
        apply (f_equal (@List.length N)) in H; vm_compute in H; discriminate).
  destruct (analyze_prompt_cases inputs s)
    as [(Hp & Hc & ->) | [(c & Hp & Hc & ->) | (Hp & ->)]];
    rewrite Hs; cbn; rewrite ?Hu, ?Hy; cbn; intuition.
Qed.

(* ================================================================= *)
(** ** The runs of [PromptDebugger.__init__] and of [main] *)

Local Abbreviation init := (PromptDebugger_init (SecretsFile secrets)).
Local Abbreviation main_run :=
  (main (SecretsFile secrets) messages_create ChatCompletion_create
     json_loads).

Ltac init_steps :=
  unfold PromptDebugger_init, try_except, bind, secrets_getitem,
    emit, get, put, ret, raise; cbn.

Lemma init_without_anthropic_key (s : Proc) :
  dict_get secrets (lit "ANTHROPIC_API_KEY") = None ->
  init s = mkRun (Ok tt) s [missing_keys_notice].
Proof. intros H. init_steps. rewrite H. reflexivity. Qed.

Lemma init_without_openai_key (s : Proc) (k : pystr) :
  dict_get secrets (lit "ANTHROPIC_API_KEY") = Some k ->
  dict_get secrets (lit "OPENAI_API_KEY") = None ->
  init s
  = mkRun (Ok tt)
      {| anthropic_client := Some {| anthropic.api_key := k |};
         openai_api_key := openai_api_key s |}
      [missing_keys_notice].
Proof. intros H H'. init_steps. rewrite H. cbn. rewrite H'. reflexivity. Qed.

Lemma init_with_both_keys (s : Proc) (k k' : pystr) :
  dict_get secrets (lit "ANTHROPIC_API_KEY") = Some k ->
  dict_get secrets (lit "OPENAI_API_KEY") = Some k' ->
  init s
  = mkRun (Ok tt)
      {| anthropic_client := Some {| anthropic.api_key := k |};
         openai_api_key := Some k' |}
      [].
Proof. intros H H'. init_steps. rewrite H. cbn. rewrite H'. reflexivity. Qed.

(** With a secrets file, the constructor does not raise and calls no
    provider. *)
Lemma init_returns (s : Proc) :
  value (init s) = Ok tt
  /\ (trace (init s) = [] \/ trace (init s) = [missing_keys_notice]).
Proof.
  destruct (dict_get secrets (lit "ANTHROPIC_API_KEY")) as [k|] eqn:H.
  - destruct (dict_get secrets (lit "OPENAI_API_KEY")) as [k'|] eqn:H'.
    + rewrite (init_with_both_keys s k k' H H'). auto.
    + rewrite (init_without_openai_key s k H H'). auto.
  - rewrite (init_without_anthropic_key s H). auto.
Qed.

Lemma init_provider_calls (s : Proc) : provider_calls (trace (init s)) = [].
Proof. destruct (init_returns s) as [_ [-> | ->]]; reflexivity. Qed.

(** The provider select box yields one of the two catalog keys. *)
Lemma selectbox_provider (n : nat) :
  (selectbox (keys model_providers) n = lit "Anthropic"
   /\ dict_get model_providers (selectbox (keys model_providers) n)
      = Some anthropic_models)
  \/ (selectbox (keys model_providers) n = lit "OpenAI"
      /\ dict_get model_providers (selectbox (keys model_providers) n)
         = Some openai_models).
Proof.
  destruct n as [|[|[|n]]]; [left | right | left | left];
    split; reflexivity.
Qed.

(** A select box over a non-empty list yields one of its options. *)
Lemma selectbox_In (options : list pystr) (n : nat) :
  options <> [] -> In (selectbox options n) options.
Proof.
  intros Hne. unfold selectbox.
  destruct (Nat.lt_ge_cases n (List.length options)) as [Hlt|Hge].
  - now apply nth_In.
  - rewrite nth_overflow by exact Hge.
    destruct options; [contradiction | now left].
Qed.

Lemma forallb_truthy (l : list pystr) :
  forallb truthy l = true <-> ~ In [] l.
Proof.
  induction l as [|x l IH]; cbn; [tauto|].
  rewrite andb_true_iff, IH. destruct x; cbn; intuition congruence.
Qed.

(** [main] is the constructor followed by the button's action. *)
Lemma main_unfold (f : form.state) (s : Proc) :
  main_run f s
  = bind init
      (fun _ =>
         if form.analyze_clicked f then
           if negb (forallb truthy (required_fields f))
           then st_warning fill_in_warning
           else bind (analyze (main_inputs f)) st_json
         else ret tt) s.
Proof.
  unfold main, main_inputs, getitem.
  destruct (selectbox_provider (form.provider f)) as [[Hp Hd] | [Hp Hd]];
    rewrite Hd; unfold bind, ret, st_json, st_warning, emit;
    destruct (value (init s)); try reflexivity;
    destruct (form.analyze_clicked f); try reflexivity;
    fold (required_fields f);
    destruct (forallb truthy (required_fields f)); try reflexivity;
    cbn;
    match goal with
    | |- context [analyze ?i ?st] => destruct (analyze i st) as [[v|e] fs tr]
    end; cbn; rewrite ?app_nil_r; reflexivity.
Qed.

(** The trace and the calls of a sequence of two computations. *)
Lemma bind_trace {A B} (m : M A) (k : A -> M B) (s : Proc) :
  trace (bind m k s)
  = trace (m s)
    ++ match value (m s) with
       | Ok a => trace (k a (final (m s)))
       | Raised _ => []
       end.
Proof.
  unfold bind. destruct (value (m s)); cbn; [reflexivity|].
  now rewrite app_nil_r.
Qed.

Lemma provider_calls_app (t u : list event) :
  provider_calls (t ++ u) = provider_calls t ++ provider_calls u.
Proof. apply filter_app. Qed.

(** The trace of [main], by cases on the button and the required
    fields. *)
Lemma main_trace (f : form.state) (s : Proc) :
  trace (main_run f s)
  = trace (init s)
    ++ (if form.analyze_clicked f then
          if forallb truthy (required_fields f) then
            let r := analyze (main_inputs f) (final (init s)) in
            trace r
            ++ match value r with
               | Ok v => trace (st_json v (final r))
               | Raised _ => []
               end
          else [StWarning fill_in_warning]
        else []).
Proof.
  rewrite main_unfold, bind_trace.
  destruct (init_returns s) as [-> _]. f_equal.
  destruct (form.analyze_clicked f); [|reflexivity].
  destruct (forallb truthy (required_fields f)); [|reflexivity].
  cbn. now rewrite bind_trace.
Qed.

(** [st.json] shows the value or raises; it shows nothing else. *)
Lemma st_json_cases (v : json) (s : Proc) :
  st_json v s = mkRun (Ok tt) s [StJson v]
  \/ st_json v s = mkRun (Raised unicode_encode_error) s [].
Proof.
  destruct v; try (now left).
  unfold st_json. destruct (has_surrogate s0); [now right | now left].
Qed.

(** C1 (amended). [analyze_prompt] does not compare the model with the
    catalog: whatever the model of the request, the call of the
    selected provider is made with that model (on the Anthropic path,
    once the client exists).  A model outside the catalog cannot come
    from the form: every call that [main] makes carries a model that is
    a key of the mapping of the provider called. *)
Theorem model_is_passed_through_unchecked (inputs : Inputs) (s : Proc)
    (f : form.state) :
  (forall c,
     provider inputs = lit "Anthropic" ->
     anthropic_client s = Some c ->
     provider_calls (trace (analyze inputs s))
     = [AnthropicCreate c (anthropic_request inputs)]
     /\ anthropic.model (anthropic_request inputs) = model inputs)
  /\ (provider inputs <> lit "Anthropic" ->
      provider_calls (trace (analyze inputs s))
      = [OpenAICreate (openai_api_key s) (openai_request inputs)]
      /\ openai.model (openai_request inputs) = model inputs)
  /\ Forall
       (fun ev =>
          match ev with
          | AnthropicCreate _ req =>
              dict_get model_providers (lit "Anthropic") = Some anthropic_models
              /\ In (anthropic.model req) (keys anthropic_models)
          | OpenAICreate _ req =>
              dict_get model_providers (lit "OpenAI") = Some openai_models
              /\ In (openai.model req) (keys openai_models)
          | _ => True
          end)
       (trace (main_run f s)).
Proof.
  split; [|split].
  - intros c Hp Hc.
    rewrite (analyze_prompt_anthropic inputs s c Hp Hc), settle_provider_calls.
    split; reflexivity.
  - intros Hp.
    rewrite (analyze_prompt_openai inputs s Hp), settle_provider_calls.
    split; reflexivity.
  - rewrite main_trace. apply Forall_app. split.
    { destruct (init_returns s) as [_ [-> | ->]]; repeat constructor. }
    destruct (form.analyze_clicked f); [|constructor].
    destruct (forallb truthy (required_fields f)); [|repeat constructor].
    cbn zeta. apply Forall_app. split.
    2:{ destruct (value _) as [v|e]; [|constructor].
        destruct (st_json_cases v (final (analyze (main_inputs f) (final (init s)))))
          as [-> | ->]; repeat constructor. }
    set (i := main_inputs f). set (s' := final (init s)).
    assert (Hmodel :
              (provider i = lit "Anthropic"
               /\ In (model i) (keys anthropic_models))
              \/ (provider i <> lit "Anthropic"
                  /\ In (model i) (keys openai_models))).
    { subst i. unfold main_inputs. cbn [provider model].
      destruct (selectbox_provider (form.provider f)) as [[Hp Hd] | [Hp Hd]];
        rewrite Hd; [left | right]; (split; [|apply selectbox_In; discriminate]).
      - exact Hp.
      - rewrite Hp. intros H. apply (f_equal (@List.length N)) in H.
        vm_compute in H. discriminate. }
    destruct (analyze_prompt_cases i s')
      as [(Hp & Hc & ->) | [(c & Hp & Hc & ->) | (Hp & ->)]].
    + apply settle_trace_Forall; [constructor | exact (fun _ => I)].
    + apply settle_trace_Forall; [|exact (fun _ => I)].
      constructor; [|constructor]. split; [reflexivity|].
      destruct Hmodel as [[_ H] | [H _]]; [exact H | contradiction].
    + apply settle_trace_Forall; [|exact (fun _ => I)].
      constructor; [|constructor]. split; [reflexivity|].
      destruct Hmodel as [[H _] | [_ H]]; [contradiction | exact H].
Qed.

(** C2 (the code departs from the claim). [PromptDebugger.__init__]
    handles an absent credential in one case only.  With a secrets file
    that holds no key, the lookup raises [KeyError], the constructor
    reports [Missing API keys in Streamlit secrets.] and returns.  With
    no secrets file at all, the lookup raises an error that is not a
    [KeyError]: the [except KeyError] clause does not catch it, the
    constructor raises it, and so does [main], before any notice, form
    or dispatch. *)
Theorem missing_secrets_file_is_not_handled (f : form.state) (s : Proc) :
  PromptDebugger_init (SecretsFile []) s = mkRun (Ok tt) s [missing_keys_notice]
  /\ isinstance_KeyError secrets_not_found = false
  /\ PromptDebugger_init NoSecretsFile s = mkRun (Raised secrets_not_found) s []
  /\ main NoSecretsFile messages_create ChatCompletion_create json_loads f s
     = mkRun (Raised secrets_not_found) s [].
Proof. repeat split. Qed.

(** C6. When one of the seven required fields is empty, a run of [main]
    is the constructor followed by at most the warning: no provider is
    called, nothing is displayed, and the warning is shown when the
    button was pressed.  When the seven fields are filled and the
    button is pressed, [main] dispatches and displays the result, also
    with an empty conversation history. *)
Theorem empty_required_field_blocks_dispatch (f : form.state) (s : Proc) :
  (In [] (required_fields f) ->
   trace (main_run f s)
   = trace (init s)
     ++ (if form.analyze_clicked f then [StWarning fill_in_warning] else [])
   /\ provider_calls (trace (main_run f s)) = []
   /\ filter is_display (trace (main_run f s)) = []
   /\ (form.analyze_clicked f = true ->
       In (StWarning fill_in_warning) (trace (main_run f s))))
  /\ (~ In [] (required_fields f) ->
      form.analyze_clicked f = true ->
      collect_history f = [] ->
      conversation_history (main_inputs f) = []
      /\ main_run f s
         = bind init (fun _ => bind (analyze (main_inputs f)) st_json) s).
Proof.
  split.
  - intros Hempty.
    assert (Hall : forallb truthy (required_fields f) = false).
    { destruct (forallb truthy (required_fields f)) eqn:H; [|reflexivity].
      apply forallb_truthy in H. contradiction. }
    assert (Ht : trace (main_run f s)
                 = trace (init s)
                   ++ (if form.analyze_clicked f
                       then [StWarning fill_in_warning] else [])).
    { rewrite main_trace, Hall. now destruct (form.analyze_clicked f). }
    rewrite Ht. split; [reflexivity|].
    split; [|split].
    + rewrite provider_calls_app, init_provider_calls.
      now destruct (form.analyze_clicked f).
    + rewrite filter_app.
      destruct (init_returns s) as [_ [-> | ->]];
        now destruct (form.analyze_clicked f).
    + intros ->. apply in_or_app. right. now left.
  - intros Hfull Hclick Hhist. split; [exact Hhist|].
    rewrite main_unfold, Hclick.
    apply forallb_truthy in Hfull. now rewrite Hfull.
Qed.

(** The loop of [main] appends the entries of each exchange in turn. *)
Lemma fold_exchange_step (f : form.state) (l : list nat)
    (acc : list message) :
  fold_left (exchange_step f) l acc = acc ++ flat_map (exchange_entries f) l.
Proof.
  revert acc. induction l as [|i l IH]; intros acc; cbn.
  - now rewrite app_nil_r.
  - rewrite IH. unfold exchange_step, exchange_entries.
    destruct (truthy (form.user_message f i)),
             (truthy (form.agent_response f i));
      cbn; rewrite <- ?app_assoc; reflexivity.
Qed.

Lemma collect_history_flat_map (f : form.state) :
  collect_history f
  = flat_map (exchange_entries f)
      (seq 0 (Pos.to_nat (form.num_exchanges f))).
Proof. unfold collect_history. now rewrite fold_exchange_step. Qed.

Lemma truthy_nonempty (x : pystr) : truthy x = true <-> x <> [].
Proof. destruct x; cbn; split; congruence. Qed.

(** C10. The conversation history that [main] assembles holds no
    message with empty content: its entries are exactly the non-empty
    user and agent texts of the exchanges, in order; when every text is
    empty the history is empty, although there is at least one
    exchange. *)
Theorem history_has_no_empty_message (f : form.state) :
  Forall (fun m => content m <> []) (collect_history f)
  /\ (forall m,
        In m (collect_history f) <->
        exists i,
          i < Pos.to_nat (form.num_exchanges f)
          /\ ((m = {| role := lit "user"; content := form.user_message f i |}
               /\ form.user_message f i <> [])
              \/ (m = {| role := lit "assistant";
                         content := form.agent_response f i |}
                  /\ form.agent_response f i <> [])))
  /\ ((forall i, i < Pos.to_nat (form.num_exchanges f) ->
                 form.user_message f i = [] /\ form.agent_response f i = []) ->
      collect_history f = [])
  /\ 1 <= Pos.to_nat (form.num_exchanges f).
Proof.
  assert (Hin : forall m,
      In m (collect_history f) <->
      exists i,
        i < Pos.to_nat (form.num_exchanges f)
        /\ ((m = {| role := lit "user"; content := form.user_message f i |}
             /\ form.user_message f i <> [])
            \/ (m = {| role := lit "assistant";
                       content := form.agent_response f i |}
                /\ form.agent_response f i <> []))).
  { intros m. rewrite collect_history_flat_map, in_flat_map. split.
    - intros (i & Hi & Hm). exists i. apply in_seq in Hi.
      split; [lia|]. unfold exchange_entries in Hm.
      apply in_app_or in Hm as [Hm | Hm].
      + destruct (truthy (form.user_message f i)) eqn:Ht; [|contradiction].
        destruct Hm as [<- | []]. left.
        split; [reflexivity | now apply truthy_nonempty].
      + destruct (truthy (form.agent_response f i)) eqn:Ht; [|contradiction].
        destruct Hm as [<- | []]. right.
        split; [reflexivity | now apply truthy_nonempty].
    - intros (i & Hi & Hm). exists i. split; [apply in_seq; lia|].
      unfold exchange_entries. apply in_or_app.
      destruct Hm as [[-> Hne] | [-> Hne]]; [left | right];
        apply truthy_nonempty in Hne; rewrite Hne; now left. }
  split; [|split; [exact Hin | split]].
  - apply Forall_forall. intros m Hm.
    apply Hin in Hm as (i & _ & [[-> Hne] | [-> Hne]]); exact Hne.
  - intros Hall. destruct (collect_history f) as [|m h] eqn:E; [reflexivity|].
    destruct (proj1 (Hin m) (or_introl eq_refl)) as (i & Hi & Hm).
    destruct (Hall i Hi) as [Hu Ha].
    destruct Hm as [[_ Hne] | [_ Hne]]; contradiction.
  - pose proof (Pos2Nat.is_pos (form.num_exchanges f)). lia.
Qed.

End Runs.

(** C9. The rendering is a function of the request: equal requests give
    equal instructions, and in any two runs of [analyze_prompt] on the
    same request, in whatever states and with whatever provider and
    decoder behaviour, the instructions sent are the same string. *)
Theorem instruction_is_the_same_in_every_run
    (mc1 mc2 : anthropic.Client -> anthropic.request -> result anthropic.response)
    (cc1 cc2 : option pystr -> openai.request -> result openai.response)
    (jl1 jl2 : pystr -> result json)
    (inputs1 inputs2 : Inputs) (s1 s2 : Proc) (p1 p2 : pystr) :
  inputs1 = inputs2 ->
  analysis_prompt inputs1 = analysis_prompt inputs2
  /\ (In p1 (sent_prompts (trace (analyze_prompt mc1 cc1 jl1 inputs1 s1))) ->
      In p2 (sent_prompts (trace (analyze_prompt mc2 cc2 jl2 inputs2 s2))) ->
      p1 = p2).
Proof.
  intros <-. split; [reflexivity|].
  intros H1 H2.
  apply sent_prompts_analyze in H1, H2. congruence.
Qed.

(* ================================================================= *)
(** ** The prompt template *)

Lemma In_dumps_message (m : message) (history : list message) :
  In m history -> substring (dumps_message m) (json_dumps_indent2 history).
Proof.
  intros Hin. destruct history as [|m0 h]; [contradiction|].
  unfold json_dumps_indent2.
  apply substring_app_r, substring_app_r, substring_app_l.
  apply substring_trans with (lit "  " ++ dumps_message m);
    [auto with substr|].
  apply substring_join.
  apply (in_map (fun m => lit "  " ++ dumps_message m)), Hin.
Qed.

Lemma substring_history (inputs : Inputs) :
  substring (json_dumps_indent2 (conversation_history inputs))
    (analysis_prompt inputs).
Proof.
  apply substring_prompt_line with (label := lit "- **Conversation History**: ").
  unfold prompt_lines. cbn [In]. tauto.
Qed.

(** The instruction is the fixed text with the nine fields in the order
    of the template. *)
Lemma analysis_prompt_layout (inputs : Inputs) :
  analysis_prompt inputs
  = template_head ++ bot_type inputs
    ++ nl ++ lit "- **System Prompt**: " ++ system_prompt inputs
    ++ nl ++ lit "- **Conversation History**: "
    ++ json_dumps_indent2 (conversation_history inputs)
    ++ nl ++ lit "- **Defective User Message**: "
    ++ defective_user_message inputs
    ++ nl ++ lit "- **Defective Agent Response**: "
    ++ defective_agent_response inputs
    ++ nl ++ lit "- **Issue Description**: " ++ defective_description inputs
    ++ nl ++ lit "- **Agent's Interpretation**: "
    ++ agent_interpretation inputs
    ++ nl ++ lit "- **Expected Behavior**: " ++ expected_behavior inputs
    ++ nl ++ lit "- **Behavioral Guidelines**: "
    ++ behavioral_guidelines inputs
    ++ template_tail.
Proof.
  unfold analysis_prompt, prompt_lines, template_head, template_tail,
    json_shape_description.
  cbn [join]. rewrite <- !app_assoc. reflexivity.
Qed.

Lemma substring_json_shape (inputs : Inputs) :
  substring json_shape_description (analysis_prompt inputs).
Proof.
  rewrite analysis_prompt_layout.
  do 26 apply substring_app_r.
  unfold template_tail. apply substring_join. cbn [In]. tauto.
Qed.

(* ================================================================= *)
(** ** Decoding what [json.dumps] wrote *)

Import json_decoder.

Ltac div_lia := zify; Z.to_euclidean_division_equations; lia.

Lemma hex_value_hexdigit (d : N) :
  (d < 16)%N -> hex_value (hexdigit d) = Some d.
Proof.
  intros H.
  assert (Hall : forallb
                   (fun k => match hex_value (hexdigit (N.of_nat k)) with
                             | Some x => N.eqb x (N.of_nat k)
                             | None => false
                             end) (seq 0 16) = true) by (vm_compute; reflexivity).
  rewrite forallb_forall in Hall.
  specialize (Hall (N.to_nat d)). rewrite N2Nat.id in Hall.
  destruct (hex_value (hexdigit d)) as [x|].
  - f_equal. apply N.eqb_eq, Hall, in_seq. lia.
  - discriminate Hall. apply in_seq. lia.
Qed.

Lemma decode_hex4_hex4 (n : N) :
  (n < 65536)%N ->
  decode_hex4 (hexdigit (n / 4096 mod 16)) (hexdigit (n / 256 mod 16))
    (hexdigit (n / 16 mod 16)) (hexdigit (n mod 16)) = Some n.
Proof.
  intros H. unfold decode_hex4.
  rewrite !hex_value_hexdigit by div_lia.
  f_equal. div_lia.
Qed.

Lemma land_mul_pow2_low (a b k : N) :
  (b < 2 ^ k)%N -> N.land (a * 2 ^ k) b = 0%N.
Proof.
  intros H. apply N.bits_inj_0. intros i. rewrite N.land_spec.
  destruct (N.lt_ge_cases i k) as [Hlt|Hge].
  - now rewrite N.mul_pow2_bits_low.
  - destruct (N.eq_0_gt_0_cases b) as [->|Hpos].
    + now rewrite N.bits_0, andb_false_r.
    + rewrite (N.bits_above_log2 b i), andb_false_r; [reflexivity|].
      apply N.lt_le_trans with k; [|exact Hge].
      now apply N.log2_lt_pow2.
Qed.

Lemma lor_mul_pow2_low (a b k : N) :
  (b < 2 ^ k)%N -> N.lor (a * 2 ^ k) b = (a * 2 ^ k + b)%N.
Proof.
  intros H. pose proof (land_mul_pow2_low a b k H) as Hl.
  now rewrite (N.add_nocarry_lxor _ _ Hl), (N.lxor_lor _ _ Hl).
Qed.

Lemma surrogate_halves (c : N) :
  (65536 <= c < 1114112)%N ->
  high_half c = (55296 + (c - 65536) / 1024)%N
  /\ low_half c = (56320 + (c - 65536) mod 1024)%N
  /\ join_surrogates (high_half c) (low_half c) = c.
Proof.
  intros Hc. unfold high_half, low_half.
  change 1023%N with (N.ones 10).
  rewrite !N.land_ones, N.shiftr_div_pow2.
  change (2 ^ 10)%N with 1024%N.
  set (n := (c - 65536)%N).
  assert (Hn : (n < 1048576)%N) by (subst n; lia).
  assert (Ha : (n / 1024 < 1024)%N) by div_lia.
  assert (Hb : (n mod 1024 < 1024)%N) by div_lia.
  rewrite (N.mod_small (n / 1024) 1024 Ha).
  assert (H1 : N.lor 55296 (n / 1024) = (55296 + n / 1024)%N).
  { change 55296%N with (54 * 2 ^ 10)%N. now apply lor_mul_pow2_low. }
  assert (H2 : N.lor 56320 (n mod 1024) = (56320 + n mod 1024)%N).
  { change 56320%N with (55 * 2 ^ 10)%N. now apply lor_mul_pow2_low. }
  rewrite H1, H2. split; [reflexivity | split; [reflexivity|]].
  unfold join_surrogates.
  replace (55296 + n / 1024 - 55296)%N with (n / 1024)%N by div_lia.
  replace (56320 + n mod 1024 - 56320)%N with (n mod 1024)%N by div_lia.
  rewrite N.shiftl_mul_pow2, lor_mul_pow2_low by exact Hb.
  change (2 ^ 10)%N with 1024%N. subst n. div_lia.
Qed.

Lemma scanstring_u_escape (n : N) (tail : pystr) (idx begin : nat) :
  (n < 65536)%N ->
  is_high_surrogate n = false ->
  scanstring (u_escape n ++ tail) idx begin
  = cons_char n (scanstring tail (idx + 6) begin).
Proof.
  intros Hn Hs. unfold u_escape, hex4.
  change (lit "\u") with [92%N; 117%N].
  cbn [app scanstring N.eqb Pos.eqb].
  rewrite (decode_hex4_hex4 n Hn), Hs. reflexivity.
Qed.

Lemma scanstring_surrogate_pair (c : N) (tail : pystr) (idx begin : nat) :
  (65536 <= c < 1114112)%N ->
  scanstring (u_escape (high_half c) ++ u_escape (low_half c) ++ tail)
    idx begin
  = cons_char c (scanstring tail (idx + 12) begin).
Proof.
  intros Hc. destruct (surrogate_halves c Hc) as (Hh & Hl & Hj).
  assert (Hhi : (55296 <= high_half c <= 56319)%N) by (rewrite Hh; div_lia).
  assert (Hlo : (56320 <= low_half c <= 57343)%N) by (rewrite Hl; div_lia).
  unfold u_escape, hex4.
  change (lit "\u") with [92%N; 117%N].
  cbn [app scanstring N.eqb Pos.eqb].
  rewrite (decode_hex4_hex4 (high_half c)) by lia.
  replace (is_high_surrogate (high_half c)) with true
    by (unfold is_high_surrogate; symmetry; apply andb_true_iff;
        split; apply N.leb_le; lia).
  cbn [andb N.eqb Pos.eqb].
  rewrite (decode_hex4_hex4 (low_half c)) by lia.
  replace (is_low_surrogate (low_half c)) with true
    by (unfold is_low_surrogate; symmetry; apply andb_true_iff;
        split; apply N.leb_le; lia).
  now rewrite Hj.
Qed.

Lemma scanstring_escape_char (c : N) (tail : pystr) (idx begin : nat) :
  scalar c ->
  scanstring (escape_char c ++ tail) idx begin
  = cons_char c
      (scanstring tail (idx + List.length (escape_char c)) begin).
Proof.
  intros Hc. unfold escape_char.
  destruct (N.eqb_spec c 92) as [->|H92]; [reflexivity|].
  destruct (N.eqb_spec c 34) as [->|H34]; [reflexivity|].
  destruct (N.eqb_spec c 8) as [->|H8]; [reflexivity|].
  destruct (N.eqb_spec c 12) as [->|H12]; [reflexivity|].
  destruct (N.eqb_spec c 10) as [->|H10]; [reflexivity|].
  destruct (N.eqb_spec c 13) as [->|H13]; [reflexivity|].
  destruct (N.eqb_spec c 9) as [->|H9]; [reflexivity|].
  destruct (N.leb_spec 32 c) as [Hlo|Hlo];
    [destruct (N.leb_spec c 126) as [Hhi|Hhi]|]; cbn [andb].
  - cbn [app scanstring].
    rewrite (proj2 (N.eqb_neq c 34) H34), (proj2 (N.eqb_neq c 92) H92).
    rewrite (proj2 (N.ltb_ge c 32) Hlo).
    now rewrite Nat.add_1_r.
  - destruct (N.ltb_spec c 65536) as [Hb|Hb].
    + apply scanstring_u_escape; [exact Hb|].
      unfold is_high_surrogate, scalar in *.
      apply andb_false_iff.
      destruct Hc as [Hc|Hc]; [left; apply N.leb_gt | right; apply N.leb_gt];
        lia.
    + cbv zeta. rewrite <- app_assoc.
      fold (high_half c). fold (low_half c).
      apply scanstring_surrogate_pair. unfold scalar in Hc. lia.
  - destruct (N.ltb_spec c 65536) as [Hb|Hb]; [|lia].
    apply scanstring_u_escape; [exact Hb|].
    unfold is_high_surrogate.
    apply andb_false_iff. left. apply N.leb_gt. lia.
Qed.

Lemma scanstring_flat_map_escape (s tail : pystr) (idx begin : nat) :
  Forall scalar s ->
  scanstring (flat_map escape_char s ++ dq ++ tail) idx begin
  = Scanned s tail (idx + List.length (flat_map escape_char s) + 1).
Proof.
  intros Hs. revert idx. induction Hs as [|c s Hc Hs IH]; intros idx.
  - cbn. f_equal. lia.
  - cbn [flat_map]. rewrite <- app_assoc, scanstring_escape_char by exact Hc.
    rewrite IH. cbn [cons_char]. f_equal.
    rewrite length_app. lia.
Qed.

(** [json.loads(json.dumps(s)) == s] for a string of scalar values. *)
Lemma loads_encode_basestring_ascii (s : pystr) :
  Forall scalar s ->
  loads (encode_basestring_ascii s) = Ok (JStr s).
Proof.
  intros Hs. unfold loads, encode_basestring_ascii.
  change (dq ++ flat_map escape_char s ++ dq)
    with (34%N :: (flat_map escape_char s ++ dq)).
  cbn [skip_ws is_ws N.eqb Pos.eqb orb scan_once].
  rewrite <- (app_nil_r (flat_map escape_char s ++ dq)), <- app_assoc.
  rewrite scanstring_flat_map_escape by exact Hs.
  reflexivity.
Qed.

Lemma encode_basestring_ascii_inj (s t : pystr) :
  Forall scalar s -> Forall scalar t ->
  encode_basestring_ascii s = encode_basestring_ascii t -> s = t.
Proof.
  intros Hs Ht H.
  pose proof (loads_encode_basestring_ascii s Hs) as H1.
  rewrite H, (loads_encode_basestring_ascii t Ht) in H1.
  now injection H1.
Qed.

Lemma scanstring_escaped (s tail : pystr) (idx begin : nat) :
  Forall scalar s ->
  scanstring (flat_map escape_char s ++ 34%N :: tail) idx begin
  = Scanned s tail (idx + List.length (flat_map escape_char s) + 1).
Proof. apply scanstring_flat_map_escape. Qed.

Lemma scan_once_message (fuel : nat) (m : message) (tail : pystr)
    (idx : nat) :
  wf_message m ->
  exists idx',
    scan_once (S (S (S (S fuel)))) (dumps_message m ++ tail) idx
    = Scanned (message_json m) tail idx'.
Proof.
  intros [Hr Hc]. unfold dumps_message, encode_basestring_ascii.
  rewrite <- !app_assoc.
  unfold q, lit, dq, nl.
  cbn [String.length list_ascii_of_string map N_of_ascii app plus].
  cbn -[flat_map].
  rewrite (scanstring_escaped _ _ _ _ Hr).
  cbn -[flat_map].
  rewrite (scanstring_escaped _ _ _ _ Hc).
  cbn -[flat_map].
  eexists. reflexivity.
Qed.

Lemma json_dumps_indent2_items (m : message) (history : list message) :
  json_dumps_indent2 (m :: history)
  = lit "[" ++ nl ++ lit "  " ++ items_text m history.
Proof.
  unfold json_dumps_indent2. do 2 f_equal.
  revert m. induction history as [|m' h IH]; intros m.
  - cbn [map join items_text]. symmetry. apply app_assoc.
  - change (map (fun m0 => lit "  " ++ dumps_message m0) (m :: m' :: h))
      with ((lit "  " ++ dumps_message m)
            :: map (fun m0 => lit "  " ++ dumps_message m0) (m' :: h)).
    change (join (lit "," ++ nl) ((lit "  " ++ dumps_message m)
              :: map (fun m0 => lit "  " ++ dumps_message m0) (m' :: h)))
      with ((lit "  " ++ dumps_message m) ++ (lit "," ++ nl)
            ++ join (lit "," ++ nl)
                 (map (fun m0 => lit "  " ++ dumps_message m0) (m' :: h))).
    rewrite <- !app_assoc. rewrite (IH m').
    cbn [items_text]. rewrite <- ?app_assoc. reflexivity.
Qed.

Lemma dumps_message_head (m : message) :
  exists rest, dumps_message m = 123%N :: rest.
Proof. unfold dumps_message. eexists. reflexivity. Qed.

Lemma skip_ws_items_text (m : message) (history : list message)
    (idx : nat) :
  skip_ws (items_text m history) idx = (items_text m history, idx).
Proof.
  destruct (dumps_message_head m) as [rest Hd].
  destruct history; cbn [items_text]; rewrite Hd; reflexivity.
Qed.

Lemma array_items_S (fuel : nat) (acc : list json) (s : pystr) (idx : nat) :
  array_items (S fuel) acc s idx
  = match scan_once fuel s idx with
    | Scanned v s1 i1 =>
        let acc' := acc ++ [v] in
        let (s2, i2) := skip_ws s1 i1 in
        match s2 with
        | 93%N :: rest => Scanned (JList acc') rest (S i2)
        | 44%N :: s3 =>
            let (s4, i4) := skip_ws s3 (S i2) in
            array_items fuel acc' s4 i4
        | _ => DecodeError "Expecting ',' delimiter" i2
        end
    | other => other
    end.
Proof. reflexivity. Qed.

Lemma array_items_text (history : list message) (m : message)
    (fuel : nat) (acc : list json) (idx : nat) :
  Forall wf_message (m :: history) ->
  exists idx',
    array_items (S (S (S (S (S (List.length history + fuel))))))
      acc (items_text m history) idx
    = Scanned (JList (acc ++ map message_json (m :: history))) [] idx'.
Proof.
  revert m acc idx. induction history as [|m' h IH]; intros m acc idx Hwf.
  - apply Forall_inv in Hwf.
    rewrite array_items_S. cbn [items_text List.length plus].
    destruct (scan_once_message fuel m (nl ++ lit "]") idx Hwf) as [i1 ->].
    eexists. reflexivity.
  - pose proof (Forall_inv Hwf) as Hm. apply Forall_inv_tail in Hwf.
    rewrite array_items_S. cbn [items_text List.length plus].
    destruct (scan_once_message (S (List.length h + fuel)) m
                (lit "," ++ nl ++ lit "  " ++ items_text m' h) idx Hm)
      as [i1 ->].
    change (lit "," ++ nl ++ lit "  " ++ items_text m' h)
      with (44%N :: 10%N :: 32%N :: 32%N :: items_text m' h).
    cbn [skip_ws is_ws N.eqb Pos.eqb orb].
    rewrite skip_ws_items_text.
    destruct (IH m' (acc ++ [message_json m]) (S (S (S (S i1)))) Hwf)
      as [i2 ->].
    exists i2. do 2 f_equal. rewrite <- app_assoc. reflexivity.
Qed.

Lemma is_wf_history_true (history : list message) :
  is_wf_history history = true -> wf_history history.
Proof.
  assert (Hs : forall s, forallb is_scalar s = true -> Forall scalar s).
  { intros s H. apply Forall_forall. intros c Hc.
    rewrite forallb_forall in H. specialize (H c Hc).
    unfold is_scalar in H. unfold scalar.
    apply orb_true_iff in H as [H | H].
    - left. now apply N.ltb_lt.
    - right. apply andb_true_iff in H as [H1 H2].
      split; now apply N.ltb_lt. }
  unfold is_wf_history, wf_history. intros H.
  apply Forall_forall. intros m Hm.
  rewrite forallb_forall in H. specialize (H m Hm).
  apply andb_true_iff in H as [Hr Hc]. split; auto.
Qed.

(** [json.loads(json.dumps(history, indent=2))] gives the history back. *)
Lemma loads_json_dumps_indent2 (history : list message) :
  wf_history history ->
  loads (json_dumps_indent2 history) = Ok (JList (map message_json history)).
Proof.
  intros Hwf. destruct history as [|m h]; [reflexivity|].
  rewrite json_dumps_indent2_items.
  change (lit "[" ++ nl ++ lit "  " ++ items_text m h)
    with (91%N :: 10%N :: 32%N :: 32%N :: items_text m h).
  unfold loads.
  cbn [skip_ws is_ws N.eqb Pos.eqb orb List.length scan_once].
  rewrite skip_ws_items_text.
  destruct (dumps_message_head m) as [rest Hd].
  assert (Hi : exists rest', items_text m h = 123%N :: rest').
  { destruct h; cbn [items_text]; rewrite Hd; eexists; reflexivity. }
  destruct Hi as [rest' Hi].
  assert (Hlen : exists fuel,
             S (S (S (S (List.length (items_text m h)))))
             = S (S (S (S (S (List.length h + fuel)))))).
  { clear. revert m. induction h as [|m' h IH]; intros m.
    - cbn [items_text]. destruct (dumps_message_head m) as [rest ->].
      eexists. cbn [List.length app plus]. reflexivity.
    - destruct (IH m') as [fuel Hf]. cbn [items_text].
      destruct (dumps_message_head m) as [rest ->].
      exists (fuel + List.length rest + 4).
      cbn [List.length app]. rewrite !length_app.
      change (List.length (lit ",")) with 1.
      change (List.length nl) with 1. change (List.length (lit "  ")) with 2.
      cbn [List.length plus]. lia. }
  destruct Hlen as [fuel0 Hlen].
  assert (Hfuel : exists fuel,
             S (2 * S (S (S (S (List.length (items_text m h))))))
             = S (S (S (S (S (List.length h + fuel)))))).
  { exists (List.length (items_text m h) + 5 + fuel0). lia. }
  destruct Hfuel as [fuel ->].
  destruct (array_items_text h m fuel [] 4 Hwf) as [i Ha].
  rewrite Hi in Ha |- *. cbn iota. rewrite Ha.
  reflexivity.
Qed.

Lemma json_dumps_indent2_inj (h1 h2 : list message) :
  wf_history h1 -> wf_history h2 ->
  json_dumps_indent2 h1 = json_dumps_indent2 h2 -> h1 = h2.
Proof.
  intros H1 H2 H.
  pose proof (loads_json_dumps_indent2 h1 H1) as E.
  rewrite H, (loads_json_dumps_indent2 h2 H2) in E.
  injection E as E. clear - E.
  revert h2 E. induction h1 as [|[r1 c1] h1 IH]; intros [|[r2 c2] h2] E;
    try discriminate; [reflexivity|].
  cbn in E. injection E as <- <- E. f_equal. now apply IH.
Qed.

(** C4 (amended). For every request the instruction contains, in the
    order of the template and untouched, the text of the bot type, the
    system prompt, the serialized conversation history, the defective
    user message, the defective agent response, the issue description,
    the agent interpretation, the expected behavior and the behavioral
    guidelines; the role and the content of every message of the history
    are in it as JSON string literals, and [json.loads] gives the
    history back from its serialization when its strings are made of
    Unicode scalar values.  The provider and the model are not part of
    the template: the instruction is the same whatever they are. *)
Theorem instruction_embeds_the_template_fields (inputs : Inputs) :
  Forall (fun field => substring field (analysis_prompt inputs))
    [ bot_type inputs; system_prompt inputs;
      json_dumps_indent2 (conversation_history inputs);
      defective_user_message inputs; defective_agent_response inputs;
      defective_description inputs; agent_interpretation inputs;
      expected_behavior inputs; behavioral_guidelines inputs ]
  /\ (forall m,
        In m (conversation_history inputs) ->
        substring (encode_basestring_ascii (role m)) (analysis_prompt inputs)
        /\ substring (encode_basestring_ascii (content m))
             (analysis_prompt inputs))
  /\ analysis_prompt inputs
     = template_head ++ bot_type inputs
       ++ nl ++ lit "- **System Prompt**: " ++ system_prompt inputs
       ++ nl ++ lit "- **Conversation History**: "
       ++ json_dumps_indent2 (conversation_history inputs)
       ++ nl ++ lit "- **Defective User Message**: "
       ++ defective_user_message inputs
       ++ nl ++ lit "- **Defective Agent Response**: "
       ++ defective_agent_response inputs
       ++ nl ++ lit "- **Issue Description**: " ++ defective_description inputs
       ++ nl ++ lit "- **Agent's Interpretation**: "
       ++ agent_interpretation inputs
       ++ nl ++ lit "- **Expected Behavior**: " ++ expected_behavior inputs
       ++ nl ++ lit "- **Behavioral Guidelines**: "
       ++ behavioral_guidelines inputs
       ++ template_tail
  /\ (wf_history (conversation_history inputs) ->
      json_decoder.loads (json_dumps_indent2 (conversation_history inputs))
      = Ok (JList (map message_json (conversation_history inputs))))
  /\ (forall p m,
        analysis_prompt (with_routing inputs p m) = analysis_prompt inputs).
Proof.
  split; [|split; [|split;
    [apply analysis_prompt_layout
    |split; [apply loads_json_dumps_indent2 | reflexivity]]]].
  - repeat constructor;
      match goal with
      | |- substring ?field _ =>
          lazymatch goal with
          | |- substring (json_dumps_indent2 _) _ => apply substring_history
          | _ =>
              eapply substring_prompt_line;
              unfold prompt_lines; cbn [In];
              repeat first [left; reflexivity | right]
          end
      end.
  - intros m Hm.
    assert (Hd : substring (dumps_message m) (analysis_prompt inputs)).
    { eapply substring_trans; [apply In_dumps_message, Hm|].
      apply substring_history. }
    split; (eapply substring_trans; [|exact Hd]); unfold dumps_message.
    + do 5 apply substring_app_r. apply substring_app_l, substring_refl.
    + do 11 apply substring_app_r. apply substring_app_l, substring_refl.
Qed.

(** C7 (amended). In the scenario of a request for Anthropic with
    model [claude-3-haiku-20240307], every text field [x] and an empty
    history, the instruction contains [x] eleven times (eight fields
    and the words expert, Expected and Explain of the fixed text; eleven
    again with bot type [Text Bot], ten with [Voice Bot]) and the
    description of the required JSON shape; and when the provider
    returns the reply of the scenario, which [json.loads] decodes to the
    structure of the scenario, [analyze_prompt] makes one call and
    returns that structure. *)
Theorem scenario_end_to_end
    (cc : option pystr -> openai.request -> result openai.response)
    (jl : pystr -> result json)
    (bot : pystr) (c : anthropic.Client) (key : option pystr) :
  jl scenario_reply = Ok scenario_result ->
  occurrences (lit "x") (analysis_prompt (scenario_request (lit "x"))) = 11
  /\ occurrences (lit "x") (analysis_prompt (scenario_request (lit "Text Bot")))
     = 11
  /\ occurrences (lit "x") (analysis_prompt (scenario_request (lit "Voice Bot")))
     = 10
  /\ substring json_shape_description (analysis_prompt (scenario_request bot))
  /\ analyze_prompt (mock_anthropic scenario_reply) cc jl (scenario_request bot)
       {| anthropic_client := Some c; openai_api_key := key |}
     = mkRun (Ok scenario_result)
         {| anthropic_client := Some c; openai_api_key := key |}
         [AnthropicCreate c (anthropic_request (scenario_request bot))].
Proof.
  intros Hjl.
  split; [vm_compute; reflexivity|].
  split; [vm_compute; reflexivity|].
  split; [vm_compute; reflexivity|].
  split; [apply substring_json_shape|].
  rewrite (analyze_prompt_anthropic (mock_anthropic scenario_reply) cc jl
             (scenario_request bot)
             {| anthropic_client := Some c; openai_api_key := key |}
             c eq_refl eq_refl).
  cbn. rewrite Hjl. reflexivity.
Qed.

(* ================================================================= *)
(** ** Counterexamples to the claims that the code does not meet *)

Ltac not_in_list H :=
  vm_compute in H;
  repeat (destruct H as [H | H]; [discriminate H|]);
  exact H.

Ltac not_substring H :=
  apply is_substring_true in H; vm_compute in H; discriminate H.

(** C1, counterexample. A request for Anthropic with the model [gpt-4],
    which is not a key of Anthropic's mapping, is not rejected: the call
    to the provider is made with that model and its answer is returned. *)
Lemma unlisted_model_is_dispatched :
  dict_get model_providers (provider unlisted_request) = Some anthropic_models
  /\ ~ In (model unlisted_request) (keys anthropic_models)
  /\ mock_analyze scenario_reply unlisted_request configured
     = mkRun (Ok scenario_result) configured
         [ AnthropicCreate sample_client (anthropic_request unlisted_request) ]
  /\ anthropic.model (anthropic_request unlisted_request) = lit "gpt-4".
Proof.
  split; [reflexivity|].
  split; [intros H; not_in_list H|].
  split; [vm_compute; reflexivity | reflexivity].
Qed.

(** C4, counterexample. For a well-formed request the instruction
    contains neither the model nor the provider, and the content of a
    message that holds a double quote is not in it as it stands. *)
Lemma model_is_not_in_the_instruction :
  valid_request openai_sample_request
  /\ ~ substring (model openai_sample_request)
         (analysis_prompt openai_sample_request)
  /\ ~ substring (provider openai_sample_request)
         (analysis_prompt openai_sample_request)
  /\ In quoting_message (conversation_history openai_sample_request)
  /\ ~ substring (content quoting_message)
         (analysis_prompt openai_sample_request).
Proof.
  split.
  { split; [left; reflexivity|].
    split; [repeat constructor; intros H; vm_compute in H; discriminate H|].
    split; [repeat constructor|].
    exists openai_models. split; [reflexivity | left; reflexivity]. }
  split; [intros H; not_substring H|].
  split; [intros H; not_substring H|].
  split; [left; reflexivity | intros H; not_substring H].
Qed.

(** C7, counterexample. In the scenario the instruction does not
    contain [x] nine times, whether the bot type is [x] or one of the
    two values of the form. *)
Lemma scenario_x_count_is_not_nine :
  occurrences (lit "x") (analysis_prompt (scenario_request (lit "x"))) <> 9
  /\ occurrences (lit "x")
       (analysis_prompt (scenario_request (lit "Text Bot"))) <> 9
  /\ occurrences (lit "x")
       (analysis_prompt (scenario_request (lit "Voice Bot"))) <> 9.
Proof.
  repeat split; intros H; vm_compute in H; discriminate H.
Qed.

(* ================================================================= *)
(** ** The theorems at concrete inputs *)

(** C1 at the request with the unlisted model and at the OpenAI sample. *)
Lemma model_is_passed_through_unchecked_witness :
  (provider unlisted_request = lit "Anthropic"
   /\ anthropic_client configured = Some sample_client
   /\ provider_calls
        (trace (mock_analyze scenario_reply unlisted_request configured))
      = [AnthropicCreate sample_client (anthropic_request unlisted_request)]
   /\ anthropic.model (anthropic_request unlisted_request)
      = model unlisted_request)
  /\ (provider openai_sample_request <> lit "Anthropic"
      /\ provider_calls
           (trace (mock_analyze scenario_reply openai_sample_request
                     configured))
         = [OpenAICreate (openai_api_key configured)
              (openai_request openai_sample_request)]
      /\ openai.model (openai_request openai_sample_request)
         = model openai_sample_request).
Proof.
  split.
  - split; [reflexivity|]. split; [reflexivity|].
    apply (proj1 (model_is_passed_through_unchecked only_anthropic_secrets
                    (mock_anthropic scenario_reply)
                    (mock_openai scenario_reply) json_decoder.loads
                    unlisted_request configured filled_form));
      reflexivity.
  - assert (Hne : provider openai_sample_request <> lit "Anthropic")
      by (intros H; vm_compute in H; discriminate H).
    split; [exact Hne|].
    apply (proj1 (proj2 (model_is_passed_through_unchecked
                           only_anthropic_secrets
                           (mock_anthropic scenario_reply)
                           (mock_openai scenario_reply) json_decoder.loads
                           openai_sample_request configured filled_form))).
    exact Hne.
Defined.

(** C3 at the scenario request, with and without the client, and at
    the OpenAI sample. *)
Lemma dispatch_routes_to_selected_provider_witness :
  (provider (scenario_request (lit "x")) = lit "Anthropic"
   /\ provider_calls
        (trace (mock_analyze scenario_reply (scenario_request (lit "x"))
                  configured))
      = [ AnthropicCreate sample_client
            (anthropic_request (scenario_request (lit "x"))) ]
   /\ Forall (fun ev => is_openai_call ev = false)
        (trace (mock_analyze scenario_reply (scenario_request (lit "x"))
                  configured))
   /\ anthropic_client (fresh None) = None
   /\ trace (mock_analyze scenario_reply (scenario_request (lit "x"))
                (fresh None))
      = [ StError (lit "Analysis Error: "
                   ++ lit "'PromptDebugger' object has no attribute 'anthropic_client'") ])
  /\ (provider openai_sample_request = lit "OpenAI"
      /\ provider_calls
           (trace (mock_analyze scenario_reply openai_sample_request
                     configured))
         = [ OpenAICreate (Some (lit "sk-oai"))
               (openai_request openai_sample_request) ]
      /\ Forall (fun ev => is_anthropic_call ev = false)
           (trace (mock_analyze scenario_reply openai_sample_request
                     configured))).
Proof.
  destruct (proj1 (dispatch_routes_to_selected_provider
                     (mock_anthropic scenario_reply)
                     (mock_openai scenario_reply) json_decoder.loads
                     (scenario_request (lit "x")) configured) eq_refl)
    as (Hcall & _ & Hnone).
  destruct (proj1 (dispatch_routes_to_selected_provider
                     (mock_anthropic scenario_reply)
                     (mock_openai scenario_reply) json_decoder.loads
                     (scenario_request (lit "x")) (fresh None)) eq_refl)
    as (_ & Hlookup & _).
  destruct (proj2 (dispatch_routes_to_selected_provider
                     (mock_anthropic scenario_reply)
                     (mock_openai scenario_reply) json_decoder.loads
                     openai_sample_request configured) eq_refl)
    as (Hcall' & Hnone').
  split.
  - split; [reflexivity|]. split; [exact Hcall|]. split; [exact Hnone|].
    split; [reflexivity | exact (Hlookup eq_refl)].
  - split; [reflexivity|]. split; [exact Hcall' | exact Hnone'].
Defined.

(** C4 at the OpenAI sample, whose history holds a quotation. *)
Lemma instruction_embeds_the_template_fields_witness :
  In quoting_message (conversation_history openai_sample_request)
  /\ substring (encode_basestring_ascii (content quoting_message))
       (analysis_prompt openai_sample_request)
  /\ wf_history (conversation_history openai_sample_request)
  /\ json_decoder.loads
       (json_dumps_indent2 (conversation_history openai_sample_request))
     = Ok (JList (map message_json
                    (conversation_history openai_sample_request))).
Proof.
  destruct (instruction_embeds_the_template_fields openai_sample_request)
    as (_ & Hm & _ & Hl & _).
  assert (Hin : In quoting_message
                  (conversation_history openai_sample_request))
    by (left; reflexivity).
  assert (Hwf : wf_history (conversation_history openai_sample_request))
    by (apply is_wf_history_true; vm_compute; reflexivity).
  split; [exact Hin|].
  split; [exact (proj2 (Hm quoting_message Hin))|].
  split; [exact Hwf | exact (Hl Hwf)].
Defined.

(** C6 at the form without system prompt and at the filled form. *)
Lemma empty_required_field_blocks_dispatch_witness :
  (In [] (required_fields blank_form)
   /\ form.analyze_clicked blank_form = true
   /\ provider_calls
        (trace (mock_main only_anthropic_secrets scenario_reply blank_form
                  (fresh None))) = []
   /\ In (StWarning fill_in_warning)
        (trace (mock_main only_anthropic_secrets scenario_reply blank_form
                  (fresh None))))
  /\ (~ In [] (required_fields filled_form)
      /\ form.analyze_clicked filled_form = true
      /\ collect_history filled_form = []
      /\ mock_main only_anthropic_secrets scenario_reply filled_form
           (fresh None)
         = bind (PromptDebugger_init only_anthropic_secrets)
             (fun _ =>
                bind (mock_analyze scenario_reply (main_inputs filled_form))
                  st_json)
             (fresh None)).
Proof.
  pose proof (empty_required_field_blocks_dispatch only_anthropic_secrets
                (mock_anthropic scenario_reply) (mock_openai scenario_reply)
                json_decoder.loads blank_form (fresh None)) as [Hblank _].
  pose proof (empty_required_field_blocks_dispatch only_anthropic_secrets
                (mock_anthropic scenario_reply) (mock_openai scenario_reply)
                json_decoder.loads filled_form (fresh None)) as [_ Hfilled].
  assert (Hempty : In [] (required_fields blank_form))
    by (left; reflexivity).
  assert (Hfull : ~ In [] (required_fields filled_form))
    by (intros H; not_in_list H).
  split.
  - destruct (Hblank Hempty) as (_ & Hcalls & _ & Hwarn).
    split; [exact Hempty|]. split; [reflexivity|].
    split; [exact Hcalls | exact (Hwarn eq_refl)].
  - split; [exact Hfull|]. split; [reflexivity|]. split; [reflexivity|].
    exact (proj2 (Hfilled Hfull eq_refl eq_refl)).
Defined.

(** C7 with the decoder model, which reads the reply of the scenario. *)
Lemma scenario_end_to_end_witness :
  json_decoder.loads scenario_reply = Ok scenario_result
  /\ occurrences (lit "x") (analysis_prompt (scenario_request (lit "x"))) = 11
  /\ substring json_shape_description
       (analysis_prompt (scenario_request (lit "x")))
  /\ mock_analyze scenario_reply (scenario_request (lit "x")) configured
     = mkRun (Ok scenario_result) configured
         [ AnthropicCreate sample_client
             (anthropic_request (scenario_request (lit "x"))) ].
Proof.
  assert (Hj : json_decoder.loads scenario_reply = Ok scenario_result)
    by (vm_compute; reflexivity).
  destruct (scenario_end_to_end (mock_openai scenario_reply)
              json_decoder.loads (lit "x") sample_client
              (Some (lit "sk-oai")) Hj)
    as (Hx & _ & _ & Hshape & Hrun).
  split; [exact Hj|]. split; [exact Hx|]. split; [exact Hshape|].
  exact Hrun.
Defined.

(** C9 at two runs of the scenario request that differ in state and in
    the providers' answers. *)
Lemma instruction_is_the_same_in_every_run_witness :
  scenario_request (lit "x") = scenario_request (lit "x")
  /\ In (analysis_prompt (scenario_request (lit "x")))
       (sent_prompts
          (trace (mock_analyze scenario_reply (scenario_request (lit "x"))
                    configured)))
  /\ In (analysis_prompt (scenario_request (lit "x")))
       (sent_prompts
          (trace (mock_analyze (lit "not json") (scenario_request (lit "x"))
                    (half_configured None))))
  /\ analysis_prompt (scenario_request (lit "x"))
     = analysis_prompt (scenario_request (lit "x")).
Proof.
  assert (H1 : In (analysis_prompt (scenario_request (lit "x")))
                 (sent_prompts
                    (trace (mock_analyze scenario_reply
                              (scenario_request (lit "x")) configured))))
    by (left; vm_compute; reflexivity).
  assert (H2 : In (analysis_prompt (scenario_request (lit "x")))
                 (sent_prompts
                    (trace (mock_analyze (lit "not json")
                              (scenario_request (lit "x"))
                              (half_configured None)))))
    by (left; vm_compute; reflexivity).
  split; [reflexivity|]. split; [exact H1|]. split; [exact H2|].
  exact (proj2 (instruction_is_the_same_in_every_run
                  (mock_anthropic scenario_reply)
                  (mock_anthropic (lit "not json"))
                  (mock_openai scenario_reply)
                  (mock_openai (lit "not json"))
                  json_decoder.loads json_decoder.loads
                  (scenario_request (lit "x")) (scenario_request (lit "x"))
                  configured (half_configured None)
                  (analysis_prompt (scenario_request (lit "x")))
                  (analysis_prompt (scenario_request (lit "x")))
                  eq_refl) H1 H2).
Defined.

(** C10 at the form with empty exchanges and at the form that talks. *)
Lemma history_has_no_empty_message_witness :
  ((forall i, i < Pos.to_nat (form.num_exchanges filled_form) ->
              form.user_message filled_form i = []
              /\ form.agent_response filled_form i = [])
   /\ collect_history filled_form = [])
  /\ (0 < Pos.to_nat (form.num_exchanges talk_form)
      /\ form.user_message talk_form 0 <> []
      /\ In {| role := lit "user"; content := form.user_message talk_form 0 |}
           (collect_history talk_form))
  /\ Forall (fun m => content m <> []) (collect_history talk_form).
Proof.
  destruct (history_has_no_empty_message filled_form) as (_ & _ & Hall & _).
  destruct (history_has_no_empty_message talk_form) as (Hne & Hin & _ & _).
  assert (Hempty : forall i,
             i < Pos.to_nat (form.num_exchanges filled_form) ->
             form.user_message filled_form i = []
             /\ form.agent_response filled_form i = [])
    by (intros i _; split; reflexivity).
  assert (Hlt : 0 < Pos.to_nat (form.num_exchanges talk_form))
    by (vm_compute; repeat constructor).
  assert (Hhi : form.user_message talk_form 0 <> [])
    by (intros H; vm_compute in H; discriminate H).
  split; [split; [exact Hempty | exact (Hall Hempty)]|].
  split; [|exact Hne].
  split; [exact Hlt|]. split; [exact Hhi|].
  apply Hin. exists 0. split; [exact Hlt|]. left.
  split; [reflexivity | exact Hhi].
Defined.

(* ================================================================= *)
(** ** Further properties of the dispatch *)

Section Dispatch.

(** The entries of the secrets file. *)
Variable secrets : list (pystr * pystr).
Variable messages_create :
  anthropic.Client -> anthropic.request -> result anthropic.response.
Variable ChatCompletion_create :
  option pystr -> openai.request -> result openai.response.
Variable json_loads : pystr -> result json.

Local Abbreviation run_analyze :=
  (analyze_prompt messages_create ChatCompletion_create json_loads).
Local Abbreviation run_init := (PromptDebugger_init (SecretsFile secrets)).
Local Abbreviation run_main :=
  (main (SecretsFile secrets) messages_create ChatCompletion_create
     json_loads).

Lemma settle_state s calls r : final (settle s calls r) = s.
Proof.
  destruct r as [v|e]; cbn; [reflexivity|].
  destruct (isinstance_Exception e); [|reflexivity].
  destruct (has_surrogate (lit "Analysis Error: " ++ exn_str e));
    reflexivity.
Qed.

(** [analyze_prompt] raises what its [try] body raised and [except
    Exception] does not catch, or the error of a notice that could not
    be shown; either way it has shown no notice. *)
Lemma settle_raises s calls r e :
  value (settle s calls r) = Raised e ->
  trace (settle s calls r) = calls
  /\ ((r = Raised e /\ isinstance_Exception e = false)
      \/ e = unicode_encode_error).
Proof.
  destruct r as [v|e']; cbn; [discriminate|].
  destruct (isinstance_Exception e') eqn:He; cbn.
  - destruct (has_surrogate (lit "Analysis Error: " ++ exn_str e')); cbn;
      [|discriminate].
    intros H. injection H as <-. auto.
  - intros H. injection H as <-. auto.
Qed.

Lemma settle_fatal s calls e :
  isinstance_Exception e = false ->
  settle s calls (Raised e) = mkRun (Raised e) s calls.
Proof. intros H. cbn. now rewrite H. Qed.

Lemma settle_errors s calls r :
  List.length (filter is_error_notice (trace (settle s calls r)))
  <= S (List.length (filter is_error_notice calls)).
Proof.
  destruct (settle_trace_cases s calls r) as [-> | [msg ->]].
  - lia.
  - rewrite filter_app, length_app. cbn. lia.
Qed.

Lemma not_anthropic_of_openai (p : pystr) :
  p = lit "OpenAI" -> p <> lit "Anthropic".
Proof.
  intros -> H. apply (f_equal (@List.length N)) in H.
  vm_compute in H. discriminate H.
Qed.

(** X1. A failure of the provider call that is an [Exception] (rate
    limit, timeout, authentication, service error) is recovered on
    either path when its message can be shown: the call was made once,
    the failure is reported as [Analysis Error:] with its message, and
    the empty dictionary is returned.  When the message holds a
    surrogate, [st.error] raises inside the [except] block: the call was
    made, no notice is shown and [analyze_prompt] raises
    [UnicodeEncodeError]. *)
Theorem provider_failure_is_recovered (inputs : Inputs) (s : Proc)
    (e : exn) :
  isinstance_Exception e = true ->
  (forall c,
     provider inputs = lit "Anthropic" ->
     anthropic_client s = Some c ->
     messages_create c (anthropic_request inputs) = Raised e ->
     run_analyze inputs s
     = if has_surrogate (exn_str e)
       then mkRun (Raised unicode_encode_error) s
              [ AnthropicCreate c (anthropic_request inputs) ]
       else mkRun (Ok (JDict [])) s
              [ AnthropicCreate c (anthropic_request inputs);
                StError (lit "Analysis Error: " ++ exn_str e) ])
  /\ (provider inputs <> lit "Anthropic" ->
      ChatCompletion_create (openai_api_key s) (openai_request inputs)
      = Raised e ->
      run_analyze inputs s
      = if has_surrogate (exn_str e)
        then mkRun (Raised unicode_encode_error) s
               [ OpenAICreate (openai_api_key s) (openai_request inputs) ]
        else mkRun (Ok (JDict [])) s
               [ OpenAICreate (openai_api_key s) (openai_request inputs);
                 StError (lit "Analysis Error: " ++ exn_str e) ]).
Proof.
  intros He. split.
  - intros c Hp Hc Hr.
    rewrite (analyze_prompt_anthropic messages_create ChatCompletion_create
               json_loads inputs s c Hp Hc), Hr.
    destruct (has_surrogate (exn_str e)) eqn:Hs;
      [now apply settle_value_unencodable | now apply settle_value_Exception].
  - intros Hp Hr.
    rewrite (analyze_prompt_openai messages_create ChatCompletion_create
               json_loads inputs s Hp), Hr.
    destruct (has_surrogate (exn_str e)) eqn:Hs;
      [now apply settle_value_unencodable | now apply settle_value_Exception].
Qed.

(** X2. A reply without any content block (Anthropic) or without any
    choice (OpenAI) is recovered too: indexing the empty list fails,
    the notice reads [Analysis Error: list index out of range], and the
    empty dictionary is returned; [json.loads] is not reached. *)
Theorem empty_reply_is_recovered (inputs : Inputs) (s : Proc) :
  (forall c,
     provider inputs = lit "Anthropic" ->
     anthropic_client s = Some c ->
     messages_create c (anthropic_request inputs) = Ok [] ->
     run_analyze inputs s
     = mkRun (Ok (JDict [])) s
         [ AnthropicCreate c (anthropic_request inputs);
           StError (lit "Analysis Error: " ++ lit "list index out of range") ])
  /\ (provider inputs <> lit "Anthropic" ->
      ChatCompletion_create (openai_api_key s) (openai_request inputs)
      = Ok [] ->
      run_analyze inputs s
      = mkRun (Ok (JDict [])) s
          [ OpenAICreate (openai_api_key s) (openai_request inputs);
            StError (lit "Analysis Error: "
                     ++ lit "list index out of range") ]).
Proof.
  split.
  - intros c Hp Hc Hr.
    rewrite (analyze_prompt_anthropic messages_create ChatCompletion_create
               json_loads inputs s c Hp Hc), Hr.
    reflexivity.
  - intros Hp Hr.
    rewrite (analyze_prompt_openai messages_create ChatCompletion_create
               json_loads inputs s Hp), Hr.
    reflexivity.
Qed.

(** X3. Whatever value [json.loads] makes of the text of the first
    block or choice is returned as it is, dictionary or not: nothing
    checks its shape, the later blocks and choices are not read, and no
    notice is shown. *)
Theorem parsed_value_is_returned_unvalidated (inputs : Inputs) (s : Proc)
    (text : pystr) (v : json) :
  json_loads text = Ok v ->
  (forall c more,
     provider inputs = lit "Anthropic" ->
     anthropic_client s = Some c ->
     messages_create c (anthropic_request inputs)
     = Ok (anthropic.TextBlock text :: more) ->
     run_analyze inputs s
     = mkRun (Ok v) s [AnthropicCreate c (anthropic_request inputs)])
  /\ (forall more,
        provider inputs <> lit "Anthropic" ->
        ChatCompletion_create (openai_api_key s) (openai_request inputs)
        = Ok ({| openai.message_content := Some text |} :: more) ->
        run_analyze inputs s
        = mkRun (Ok v) s
            [OpenAICreate (openai_api_key s) (openai_request inputs)]).
Proof.
  intros Hj. split.
  - intros c more Hp Hc Hr.
    rewrite (analyze_prompt_anthropic messages_create ChatCompletion_create
               json_loads inputs s c Hp Hc), Hr. cbn.
    now rewrite Hj.
  - intros more Hp Hr.
    rewrite (analyze_prompt_openai messages_create ChatCompletion_create
               json_loads inputs s Hp), Hr. cbn.
    now rewrite Hj.
Qed.

(** X4. What is not an [Exception] (an interrupt, a system exit) is not
    caught: when the provider call raises it, [analyze_prompt] raises it
    without any notice, and [main], on a filled form with the button
    pressed, raises it as well and displays nothing. *)
Theorem fatal_exception_propagates (inputs : Inputs) (s : Proc)
    (f : form.state) (e : exn) :
  isinstance_Exception e = false ->
  (forall c,
     provider inputs = lit "Anthropic" ->
     anthropic_client s = Some c ->
     messages_create c (anthropic_request inputs) = Raised e ->
     run_analyze inputs s
     = mkRun (Raised e) s [AnthropicCreate c (anthropic_request inputs)])
  /\ (provider inputs <> lit "Anthropic" ->
      ChatCompletion_create (openai_api_key s) (openai_request inputs)
      = Raised e ->
      run_analyze inputs s
      = mkRun (Raised e) s
          [OpenAICreate (openai_api_key s) (openai_request inputs)])
  /\ (~ In [] (required_fields f) ->
      form.analyze_clicked f = true ->
      value (run_analyze (main_inputs f) (final (run_init s))) = Raised e ->
      value (run_main f s) = Raised e
      /\ filter is_display (trace (run_main f s)) = []).
Proof.
  intros He. split; [|split].
  - intros c Hp Hc Hr.
    rewrite (analyze_prompt_anthropic messages_create ChatCompletion_create
               json_loads inputs s c Hp Hc), Hr.
    now apply settle_fatal.
  - intros Hp Hr.
    rewrite (analyze_prompt_openai messages_create ChatCompletion_create
               json_loads inputs s Hp), Hr.
    now apply settle_fatal.
  - intros Hfull Hclick Hv. apply (forallb_truthy json_loads) in Hfull. split.
    + rewrite (main_unfold secrets messages_create ChatCompletion_create
                 json_loads f s), Hclick, Hfull. cbn [negb].
      unfold bind at 1. destruct (init_returns secrets s) as [-> _].
      unfold bind. now rewrite Hv.
    + rewrite (main_trace secrets messages_create ChatCompletion_create
                 json_loads f s), Hclick, Hfull.
      cbn zeta. rewrite Hv, app_nil_r.
      rewrite filter_app.
      assert (Hi : filter is_display (trace (run_init s)) = [])
        by (destruct (init_returns secrets s) as [_ [-> | ->]]; reflexivity).
      rewrite Hi. cbn [app].
      destruct (analyze_prompt_cases messages_create ChatCompletion_create
                  json_loads (main_inputs f) (final (run_init s)))
        as [(_ & _ & ->) | [(c & _ & _ & ->) | (_ & ->)]];
        match goal with
        | |- context [settle ?st ?calls ?r] =>
            destruct (settle_trace_cases st calls r) as [-> | [msg ->]]
        end; reflexivity.
Qed.

(** X5. A run of [analyze_prompt] leaves [self.anthropic_client] and
    [openai.api_key] as they were, calls a provider at most once (no
    retry) and shows at most one notice.  When it raises, it has shown
    no notice, and what it raises is either not an [Exception] or the
    [UnicodeEncodeError] of a notice that could not be shown. *)
Theorem analyze_prompt_is_contained (inputs : Inputs) (s : Proc) :
  final (run_analyze inputs s) = s
  /\ List.length (provider_calls (trace (run_analyze inputs s))) <= 1
  /\ List.length (filter is_error_notice (trace (run_analyze inputs s))) <= 1
  /\ forall e, value (run_analyze inputs s) = Raised e ->
               (isinstance_Exception e = false \/ e = unicode_encode_error)
               /\ filter is_error_notice (trace (run_analyze inputs s)) = [].
Proof.
  destruct (analyze_prompt_cases messages_create ChatCompletion_create
              json_loads inputs s)
    as [(_ & _ & ->) | [(c & _ & _ & ->) | (_ & ->)]];
    (split; [apply settle_state|]);
    (split; [rewrite settle_provider_calls; cbn; lia|]);
    (split; [apply settle_errors|]);
    intros e He; apply settle_raises in He as [-> He];
    (split; [tauto | reflexivity]).
Qed.

Lemma analyze_calls_le (inputs : Inputs) (s : Proc) :
  List.length (provider_calls (trace (run_analyze inputs s))) <= 1.
Proof.
  destruct (analyze_prompt_cases messages_create ChatCompletion_create
              json_loads inputs s)
    as [(_ & _ & ->) | [(c & _ & _ & ->) | (_ & ->)]];
    rewrite settle_provider_calls; cbn; lia.
Qed.

Lemma analyze_no_display (inputs : Inputs) (s : Proc) :
  filter is_display (trace (run_analyze inputs s)) = [].
Proof.
  destruct (analyze_prompt_cases messages_create ChatCompletion_create
              json_loads inputs s)
    as [(_ & _ & ->) | [(c & _ & _ & ->) | (_ & ->)]];
    match goal with
    | |- context [settle ?st ?calls ?r] =>
        destruct (settle_trace_cases st calls r) as [-> | [msg ->]]
    end; reflexivity.
Qed.

Lemma init_no_display (s : Proc) :
  filter is_display (trace (run_init s)) = [].
Proof.
  destruct (init_returns secrets s) as [_ [-> | ->]]; reflexivity.
Qed.

(** X6. One run of [main] calls a provider at most once and displays at
    most one result, whatever the form. *)
Theorem main_calls_at_most_once (f : form.state) (s : Proc) :
  List.length (provider_calls (trace (run_main f s))) <= 1
  /\ List.length (filter is_display (trace (run_main f s))) <= 1.
Proof.
  rewrite (main_trace secrets messages_create ChatCompletion_create
             json_loads f s).
  rewrite provider_calls_app, init_provider_calls, filter_app,
    init_no_display.
  cbn [app].
  destruct (form.analyze_clicked f); [|cbn; lia].
  destruct (forallb truthy (required_fields f)); [|cbn; lia].
  cbn zeta. rewrite provider_calls_app, filter_app, analyze_no_display.
  rewrite !length_app.
  pose proof (analyze_calls_le (main_inputs f) (final (run_init s))).
  destruct (value (run_analyze (main_inputs f) (final (run_init s))))
    as [v|e]; [|cbn; lia].
  destruct (st_json_cases v
              (final (run_analyze (main_inputs f) (final (run_init s)))))
    as [-> | ->]; cbn; lia.
Qed.

(** X7. With a secrets file, the constructor does not raise and calls
    no provider; it shows nothing when the file holds both keys, and the
    one notice [Missing API keys in Streamlit secrets.] as soon as one
    is absent from it.  With no secrets file, the constructor raises the
    error of the lookup, which [except KeyError] does not catch: it
    shows no notice and leaves the state as it was. *)
Theorem constructor_reports_missing_keys (s : Proc) :
  (value (PromptDebugger_init (SecretsFile secrets) s) = Ok tt
   /\ provider_calls (trace (PromptDebugger_init (SecretsFile secrets) s)) = []
   /\ (trace (PromptDebugger_init (SecretsFile secrets) s) = [] <->
       dict_get secrets (lit "ANTHROPIC_API_KEY") <> None
       /\ dict_get secrets (lit "OPENAI_API_KEY") <> None)
   /\ (trace (PromptDebugger_init (SecretsFile secrets) s)
       = [missing_keys_notice] <->
       dict_get secrets (lit "ANTHROPIC_API_KEY") = None
       \/ dict_get secrets (lit "OPENAI_API_KEY") = None))
  /\ PromptDebugger_init NoSecretsFile s
     = mkRun (Raised secrets_not_found) s []
  /\ isinstance_KeyError secrets_not_found = false
  /\ isinstance_Exception secrets_not_found = true.
Proof.
  split; [|repeat split].
  split; [apply init_returns|]. split; [apply init_provider_calls|].
  destruct (dict_get secrets (lit "ANTHROPIC_API_KEY")) as [k|] eqn:H.
  - destruct (dict_get secrets (lit "OPENAI_API_KEY")) as [k'|] eqn:H'.
    + rewrite (init_with_both_keys secrets s k k' H H'). cbn [trace].
      split; split.
      * intros _. split; discriminate.
      * reflexivity.
      * discriminate.
      * intros [E | E]; discriminate E.
    + rewrite (init_without_openai_key secrets s k H H'). cbn [trace].
      split; split.
      * discriminate.
      * intros [_ E]. now contradiction E.
      * auto.
      * reflexivity.
  - rewrite (init_without_anthropic_key secrets s H). cbn [trace].
    split; split.
    + discriminate.
    + intros [E _]. now contradiction E.
    + auto.
    + reflexivity.
Qed.

(** X8. With both keys in the secrets, the constructor followed by a
    dispatch hands the configured credentials to the call: the Anthropic
    call goes through a client built with [ANTHROPIC_API_KEY], the
    OpenAI call is made with [openai.api_key] set to [OPENAI_API_KEY],
    whatever the state was before. *)
Theorem configured_keys_reach_the_calls (inputs : Inputs) (s : Proc)
    (k k' : pystr) :
  dict_get secrets (lit "ANTHROPIC_API_KEY") = Some k ->
  dict_get secrets (lit "OPENAI_API_KEY") = Some k' ->
  (provider inputs = lit "Anthropic" ->
   provider_calls (trace (bind run_init (fun _ => run_analyze inputs) s))
   = [AnthropicCreate {| anthropic.api_key := k |}
        (anthropic_request inputs)])
  /\ (provider inputs <> lit "Anthropic" ->
      provider_calls (trace (bind run_init (fun _ => run_analyze inputs) s))
      = [OpenAICreate (Some k') (openai_request inputs)]).
Proof.
  intros Hk Hk'.
  assert (Ht : trace (bind run_init (fun _ => run_analyze inputs) s)
               = trace (run_analyze inputs
                          {| anthropic_client :=
                               Some {| anthropic.api_key := k |};
                             openai_api_key := Some k' |})).
  { rewrite bind_trace, (init_with_both_keys secrets s k k' Hk Hk').
    reflexivity. }
  rewrite Ht. set (s' := {| anthropic_client := _; openai_api_key := _ |}).
  split; intros Hp.
  - rewrite (analyze_prompt_anthropic messages_create ChatCompletion_create
               json_loads inputs s' {| anthropic.api_key := k |} Hp eq_refl).
    now rewrite settle_provider_calls.
  - rewrite (analyze_prompt_openai messages_create ChatCompletion_create
               json_loads inputs s' Hp).
    now rewrite settle_provider_calls.
Qed.

(** X9. The two keys are read in one [try]: when [ANTHROPIC_API_KEY] is
    absent the constructor stops before it reads [OPENAI_API_KEY], so
    the state is left untouched even if that key is in the secrets, and
    a request for OpenAI is then sent with [openai.api_key] as it was
    before. *)
Theorem openai_key_is_skipped_without_anthropic_key (inputs : Inputs)
    (s : Proc) :
  dict_get secrets (lit "ANTHROPIC_API_KEY") = None ->
  final (run_init s) = s
  /\ (provider inputs <> lit "Anthropic" ->
      provider_calls (trace (bind run_init (fun _ => run_analyze inputs) s))
      = [OpenAICreate (openai_api_key s) (openai_request inputs)]).
Proof.
  intros Hk. rewrite (init_without_anthropic_key secrets s Hk).
  split; [reflexivity|]. intros Hp.
  rewrite bind_trace, (init_without_anthropic_key secrets s Hk).
  cbn [trace value final]. rewrite provider_calls_app.
  rewrite (analyze_prompt_openai messages_create ChatCompletion_create
             json_loads inputs s Hp).
  now rewrite settle_provider_calls.
Qed.

(** X10. Until the button is pressed a run of [main] is the constructor
    alone, however the form is filled: no warning, no provider call, no
    display. *)
Theorem main_waits_for_the_button (f : form.state) (s : Proc) :
  form.analyze_clicked f = false ->
  run_main f s = mkRun (Ok tt) (final (run_init s)) (trace (run_init s)).
Proof.
  intros Hclick.
  rewrite (main_unfold secrets messages_create ChatCompletion_create
             json_loads f s), Hclick.
  unfold bind. destruct (init_returns secrets s) as [-> _].
  cbn. now rewrite app_nil_r.
Qed.

(** X11. On a filled form with the button pressed, when
    [analyze_prompt] returns a value that [st.json] can show, [main]
    displays exactly that value, once and last: the trace is the
    constructor's, then the dispatch's, then that display; after a
    recovered failure the display shows the empty dictionary.  When the
    value is a string that holds a surrogate, [st.json] raises: [main]
    raises [UnicodeEncodeError] and displays nothing. *)
Theorem main_displays_the_analysis (f : form.state) (s : Proc) (v : json) :
  ~ In [] (required_fields f) ->
  form.analyze_clicked f = true ->
  value (run_analyze (main_inputs f) (final (run_init s))) = Ok v ->
  if displayable v then
    value (run_main f s) = Ok tt
    /\ trace (run_main f s)
       = trace (run_init s)
         ++ trace (run_analyze (main_inputs f) (final (run_init s)))
         ++ [StJson v]
    /\ filter is_display (trace (run_main f s)) = [StJson v]
  else
    value (run_main f s) = Raised unicode_encode_error
    /\ trace (run_main f s)
       = trace (run_init s)
         ++ trace (run_analyze (main_inputs f) (final (run_init s)))
    /\ filter is_display (trace (run_main f s)) = [].
Proof.
  intros Hfull Hclick Hv. apply (forallb_truthy json_loads) in Hfull.
  set (r := run_analyze (main_inputs f) (final (run_init s))) in *.
  assert (Hval : value (run_main f s) = value (st_json v (final r))).
  { rewrite (main_unfold secrets messages_create ChatCompletion_create
               json_loads f s), Hclick, Hfull. cbn [negb].
    unfold bind at 1. destruct (init_returns secrets s) as [-> _].
    unfold bind. fold r. rewrite Hv. reflexivity. }
  assert (Ht : trace (run_main f s)
               = trace (run_init s) ++ trace r ++ trace (st_json v (final r))).
  { rewrite (main_trace secrets messages_create ChatCompletion_create
               json_loads f s), Hclick, Hfull.
    cbn zeta. fold r. now rewrite Hv. }
  assert (Hnd : filter is_display (trace r) = [])
    by apply analyze_no_display.
  rewrite Hval, Ht, !filter_app, init_no_display, Hnd. cbn [app].
  destruct (st_json_cases v (final r)) as [E | E]; rewrite E;
    unfold st_json, displayable in *;
    destruct v as [| | | |t| |]; try discriminate E;
    try (repeat split; reflexivity);
    destruct (has_surrogate t); try discriminate E; cbn [negb];
    repeat split; try reflexivity.
  cbn [trace]. now rewrite !app_nil_r.
Qed.

(** X12. What can end a run of [main] with an exception: the missing
    secrets file, which the constructor does not handle; an exception of
    the dispatch that is not an [Exception]; or the [UnicodeEncodeError]
    of a notice or of a result that cannot be shown.  Nothing else makes
    [main] raise: with a secrets file, every [Exception] of a provider
    or of [json.loads] whose message can be shown is recovered. *)
Theorem main_raises_only_for_named_causes (src : secrets_source)
    (f : form.state) (s : Proc) (e : exn) :
  value (main src messages_create ChatCompletion_create json_loads f s)
  = Raised e ->
  (src = NoSecretsFile /\ e = secrets_not_found)
  \/ (isinstance_Exception e = false
      /\ value (run_analyze (main_inputs f)
                  (final (PromptDebugger_init src s))) = Raised e)
  \/ e = unicode_encode_error.
Proof.
  destruct src as [|entries].
  - intros H. left. split; [reflexivity|].
    change (main NoSecretsFile messages_create ChatCompletion_create
              json_loads f s)
      with (mkRun (A := unit) (Raised secrets_not_found) s []) in H.
    now injection H.
  - rewrite (main_unfold entries messages_create ChatCompletion_create
               json_loads f s).
    unfold bind at 1. destruct (init_returns entries s) as [-> _].
    cbn [value].
    destruct (form.analyze_clicked f); [|discriminate].
    destruct (negb (forallb truthy (required_fields f))); [discriminate|].
    unfold bind.
    destruct (value (run_analyze (main_inputs f)
                       (final (PromptDebugger_init entries s))))
      as [v|e'] eqn:Hv; cbn [value].
    + destruct (st_json_cases v
                  (final (run_analyze (main_inputs f)
                            (final (PromptDebugger_init entries s)))))
        as [-> | ->]; cbn [value]; [discriminate|].
      intros H. injection H as <-. auto.
    + intros H. injection H as ->. right.
      destruct (analyze_prompt_cases messages_create ChatCompletion_create
                  json_loads (main_inputs f)
                  (final (PromptDebugger_init entries s)))
        as [(_ & _ & E) | [(c & _ & _ & E) | (_ & E)]];
        rewrite E in Hv; apply settle_raises in Hv as [_ [[_ He] | He]];
        auto.
Qed.

(** X19. With a secrets file that lacks [ANTHROPIC_API_KEY], pressing
    the button on a filled form that selects Anthropic shows the
    missing-keys notice, then the [Analysis Error] notice of the missing
    client, then the empty dictionary; no provider is called and the run
    returns normally. *)
Theorem main_without_anthropic_key (f : form.state) (s : Proc) :
  dict_get secrets (lit "ANTHROPIC_API_KEY") = None ->
  anthropic_client s = None ->
  selectbox (keys model_providers) (form.provider f) = lit "Anthropic" ->
  ~ In [] (required_fields f) ->
  form.analyze_clicked f = true ->
  main (SecretsFile secrets) messages_create ChatCompletion_create
    json_loads f s
  = mkRun (Ok tt) s
      [ missing_keys_notice;
        StError (lit "Analysis Error: "
                 ++ lit "'PromptDebugger' object has no attribute 'anthropic_client'");
        StJson (JDict []) ].
Proof.
  intros Hk Hc Hp Hfull Hclick. apply (forallb_truthy json_loads) in Hfull.
  rewrite (main_unfold secrets messages_create ChatCompletion_create
             json_loads f s), Hclick, Hfull. cbn [negb].
  unfold bind at 1. rewrite (init_without_anthropic_key secrets s Hk).
  cbn [value final trace]. unfold bind.
  rewrite (analyze_prompt_no_client messages_create ChatCompletion_create
             json_loads (main_inputs f) s Hp Hc).
  reflexivity.
Qed.

End Dispatch.

(* ================================================================= *)
(** ** Further properties of the form *)

Lemma dict_get_In {V} (d : list (pystr * V)) (x : pystr) :
  In x (keys d) -> exists v, dict_get d x = Some v /\ In (x, v) d.
Proof.
  induction d as [|[k v] d IH]; cbn; [contradiction|].
  intros Hin. destruct (pystr_eqb k x) eqn:E.
  - apply pystr_eqb_eq in E. subst k. exists v. auto.
  - apply pystr_eqb_neq in E. destruct Hin as [Hk | Hin]; [contradiction|].
    destruct (IH Hin) as (w & Hw & Hi). exists w. auto.
Qed.

Lemma dict_get_not_In {V} (d : list (pystr * V)) (x : pystr) :
  ~ In x (keys d) -> dict_get d x = None.
Proof.
  induction d as [|[k v] d IH]; cbn; [reflexivity|].
  intros Hin. destruct (pystr_eqb k x) eqn:E.
  - apply pystr_eqb_eq in E. tauto.
  - apply IH. tauto.
Qed.

Lemma history_roles (f : form.state) (m : message) :
  In m (collect_history f) ->
  role m = lit "user" \/ role m = lit "assistant".
Proof.
  rewrite collect_history_flat_map, in_flat_map.
  intros (i & _ & Hm). unfold exchange_entries in Hm.
  apply in_app_or in Hm as [Hm | Hm];
    [destruct (truthy (form.user_message f i))
    |destruct (truthy (form.agent_response f i))];
    try contradiction; destruct Hm as [<- | []]; auto.
Qed.

(** X13. Every request that [main] hands to [analyze_prompt] is well
    formed: the bot type is one of the two offered, the seven required
    texts are not empty, the roles of the history are [user] and
    [assistant], and the model is a key of the mapping of the provider,
    itself a key of the catalog. *)
Theorem dispatched_requests_are_well_formed (f : form.state) :
  ~ In [] (required_fields f) ->
  valid_request (main_inputs f).
Proof.
  intros Hfull. unfold required_fields in Hfull. cbn [In] in Hfull.
  split; [|split; [|split]].
  - apply selectbox_In. discriminate.
  - cbn [main_inputs system_prompt behavioral_guidelines
         defective_user_message defective_agent_response
         defective_description agent_interpretation expected_behavior].
    repeat constructor; intros E; apply Hfull; tauto.
  - apply Forall_forall. intros m Hm. cbn [In].
    destruct (history_roles f m Hm) as [-> | ->]; auto.
  - unfold main_inputs. cbn [provider model].
    destruct (selectbox_provider (form.provider f)) as [[Hp Hd] | [Hp Hd]];
      rewrite Hd; eexists; (split; [reflexivity|]);
      apply selectbox_In; discriminate.
Qed.

Lemma flat_map_length_le {A B} (g : A -> list B) (n : nat) (l : list A) :
  (forall a, List.length (g a) <= n) ->
  List.length (flat_map g l) <= n * List.length l.
Proof.
  intros Hg. induction l as [|a l IH]; cbn; [lia|].
  rewrite length_app. specialize (Hg a). lia.
Qed.

Lemma flat_map_ext_In {A B} (g h : A -> list B) (l : list A) :
  (forall a, In a l -> g a = h a) -> flat_map g l = flat_map h l.
Proof.
  induction l as [|a l IH]; cbn; [reflexivity|].
  intros H. rewrite (H a) by auto. f_equal. apply IH. auto.
Qed.

Lemma full_history_length (f : form.state) (start n : nat) :
  List.length (flat_map (full_exchange f) (seq start n)) = 2 * n.
Proof.
  revert start. induction n as [|n IH]; intros start; cbn; [reflexivity|].
  rewrite IH. lia.
Qed.

(** X14. The history holds at most two entries per exchange, in the
    order of the exchanges with the user before the agent; when every
    text of every exchange is filled it is exactly the user and the
    agent entry of each exchange in turn. *)
Theorem history_is_bounded (f : form.state) :
  List.length (collect_history f)
  <= 2 * Pos.to_nat (form.num_exchanges f)
  /\ ((forall i, i < Pos.to_nat (form.num_exchanges f) ->
                 form.user_message f i <> []
                 /\ form.agent_response f i <> []) ->
      collect_history f
      = flat_map (full_exchange f)
          (seq 0 (Pos.to_nat (form.num_exchanges f)))
      /\ List.length (collect_history f)
         = 2 * Pos.to_nat (form.num_exchanges f)).
Proof.
  rewrite collect_history_flat_map. split.
  - assert (Hg : forall i, List.length (exchange_entries f i) <= 2).
    { intros i. unfold exchange_entries.
      destruct (truthy (form.user_message f i)),
               (truthy (form.agent_response f i)); cbn; lia. }
    pose proof (flat_map_length_le (exchange_entries f) 2
                  (seq 0 (Pos.to_nat (form.num_exchanges f))) Hg) as H.
    now rewrite length_seq in H.
  - intros Hall.
    assert (E : flat_map (exchange_entries f)
                  (seq 0 (Pos.to_nat (form.num_exchanges f)))
                = flat_map (full_exchange f)
                    (seq 0 (Pos.to_nat (form.num_exchanges f)))).
    { apply flat_map_ext_In. intros i Hi. apply in_seq in Hi.
      destruct (Hall i ltac:(lia)) as [Hu Ha].
      apply truthy_nonempty in Hu, Ha.
      unfold exchange_entries, full_exchange. now rewrite Hu, Ha. }
    rewrite E. split; [reflexivity|]. apply full_history_length.
Qed.

(** X15. The label lookup of the model select box finds a display name
    for every model the box offers; on a model that is not a key of the
    provider's mapping, or on an unknown provider, it raises
    [KeyError]. *)
Theorem model_options_have_labels (provider x : pystr) (s : Proc) :
  (forall models,
     dict_get model_providers provider = Some models ->
     In x (keys models) ->
     exists label,
       format_func provider x s = mkRun (Ok label) s []
       /\ In (x, label) models)
  /\ (forall models,
        dict_get model_providers provider = Some models ->
        ~ In x (keys models) ->
        exists e,
          format_func provider x s = mkRun (Raised e) s []
          /\ exn_cls e = KeyError)
  /\ (dict_get model_providers provider = None ->
      exists e,
        format_func provider x s = mkRun (Raised e) s []
        /\ exn_cls e = KeyError).
Proof.
  unfold format_func, bind, getitem. split; [|split].
  - intros models Hd Hin. rewrite Hd. cbn.
    destruct (dict_get_In models x Hin) as (label & Hl & Hi).
    rewrite Hl. cbn. eauto.
  - intros models Hd Hin. rewrite Hd. cbn.
    rewrite (dict_get_not_In models x Hin). cbn. eauto.
  - intros Hd. rewrite Hd. cbn. eauto.
Qed.

(* ================================================================= *)
(** ** Further properties of the instruction *)

(** X16. The instruction is as long as the fixed text of the template,
    929 characters, plus the eight text fields and the serialized
    history: nothing is cut and nothing is padded. *)
Theorem instruction_length (inputs : Inputs) :
  List.length (analysis_prompt inputs)
  = 929
    + List.length (bot_type inputs)
    + List.length (system_prompt inputs)
    + List.length (json_dumps_indent2 (conversation_history inputs))
    + List.length (defective_user_message inputs)
    + List.length (defective_agent_response inputs)
    + List.length (defective_description inputs)
    + List.length (agent_interpretation inputs)
    + List.length (expected_behavior inputs)
    + List.length (behavioral_guidelines inputs).
Proof.
  rewrite analysis_prompt_layout, !length_app.
  replace (List.length template_head) with 138
    by (vm_compute; reflexivity).
  replace (List.length template_tail) with 563
    by (vm_compute; reflexivity).
  replace (List.length nl) with 1 by reflexivity.
  replace (List.length (lit "- **System Prompt**: ")) with 21
    by (vm_compute; reflexivity).
  replace (List.length (lit "- **Conversation History**: ")) with 28
    by (vm_compute; reflexivity).
  replace (List.length (lit "- **Defective User Message**: ")) with 30
    by (vm_compute; reflexivity).
  replace (List.length (lit "- **Defective Agent Response**: ")) with 32
    by (vm_compute; reflexivity).
  replace (List.length (lit "- **Issue Description**: ")) with 25
    by (vm_compute; reflexivity).
  replace (List.length (lit "- **Agent's Interpretation**: ")) with 30
    by (vm_compute; reflexivity).
  replace (List.length (lit "- **Expected Behavior**: ")) with 25
    by (vm_compute; reflexivity).
  replace (List.length (lit "- **Behavioral Guidelines**: ")) with 29
    by (vm_compute; reflexivity).
  lia.
Qed.

(** X17. With the other fields fixed, the instruction tells the history:
    two histories of strings of Unicode scalar values that give the same
    instruction are the same history. *)
Theorem instruction_determines_history (inputs : Inputs)
    (h1 h2 : list message) :
  wf_history h1 -> wf_history h2 ->
  analysis_prompt (with_history inputs h1)
  = analysis_prompt (with_history inputs h2) ->
  h1 = h2.
Proof.
  intros H1 H2 H. rewrite !analysis_prompt_layout in H.
  cbn [with_history bot_type system_prompt conversation_history
       defective_user_message defective_agent_response
       defective_description agent_interpretation expected_behavior
       behavioral_guidelines] in H.
  do 7 apply app_inv_head in H.
  apply app_inv_tail in H.
  now apply json_dumps_indent2_inj.
Qed.

Lemma is_plain_ascii_true (s : pystr) :
  forallb is_plain_ascii s = true -> Forall plain_ascii s.
Proof.
  intros H. apply Forall_forall. intros c Hc.
  rewrite forallb_forall in H. specialize (H c Hc).
  unfold is_plain_ascii in H. unfold plain_ascii.
  apply orb_true_iff in H as [H | H].
  - left. now apply N.eqb_eq.
  - right. apply andb_true_iff in H as [Hl Hh].
    split; now apply N.leb_le.
Qed.

Lemma hexdigit_plain (d : N) : (d < 16)%N -> plain_ascii (hexdigit d).
Proof.
  intros H. unfold hexdigit, plain_ascii.
  destruct (N.ltb_spec d 10); right; lia.
Qed.

Lemma u_escape_plain (n : N) : Forall plain_ascii (u_escape n).
Proof.
  unfold u_escape, hex4. apply Forall_app. split.
  - apply is_plain_ascii_true. reflexivity.
  - repeat (apply Forall_cons;
            [apply hexdigit_plain, N.mod_lt; discriminate|]).
    apply Forall_nil.
Qed.

Lemma escape_char_plain (c : N) : Forall plain_ascii (escape_char c).
Proof.
  unfold escape_char.
  repeat match goal with
         | |- Forall _ (if (c =? ?k)%N then _ else _) =>
             destruct (c =? k)%N;
             [apply is_plain_ascii_true; reflexivity|]
         end.
  destruct (N.leb_spec 32 c) as [Hlo|Hlo];
    [destruct (N.leb_spec c 126) as [Hhi|Hhi]|]; cbn [andb].
  - apply Forall_cons; [right; lia | apply Forall_nil].
  - destruct (c <? 65536)%N; [apply u_escape_plain|].
    cbv zeta. apply Forall_app. split; apply u_escape_plain.
  - destruct (c <? 65536)%N; [apply u_escape_plain|].
    cbv zeta. apply Forall_app. split; apply u_escape_plain.
Qed.

Lemma encode_basestring_ascii_plain (s : pystr) :
  Forall plain_ascii (encode_basestring_ascii s).
Proof.
  unfold encode_basestring_ascii.
  apply Forall_app. split; [apply is_plain_ascii_true; reflexivity|].
  apply Forall_app. split; [|apply is_plain_ascii_true; reflexivity].
  induction s as [|c s IH]; cbn [flat_map]; [constructor|].
  apply Forall_app. split; [apply escape_char_plain | exact IH].
Qed.

Lemma dumps_message_plain (m : message) :
  Forall plain_ascii (dumps_message m).
Proof.
  unfold dumps_message.
  repeat first
    [ apply encode_basestring_ascii_plain
    | apply is_plain_ascii_true; reflexivity
    | apply Forall_app; split ].
Qed.

Lemma join_plain (sep : pystr) (parts : list pystr) :
  Forall plain_ascii sep ->
  Forall (Forall plain_ascii) parts ->
  Forall plain_ascii (join sep parts).
Proof.
  intros Hsep Hparts. induction Hparts as [|p ps Hp Hps IH]; [constructor|].
  destruct ps as [|p' ps]; [exact Hp|].
  change (join sep (p :: p' :: ps)) with (p ++ sep ++ join sep (p' :: ps)).
  repeat (apply Forall_app; split); assumption.
Qed.

(** X18. The serialized history is made of printable ASCII characters
    and line breaks only, whatever code points the messages hold: a
    character outside that range reaches the instruction only through
    the text fields, never through the history. *)
Theorem serialized_history_is_ascii (history : list message) :
  Forall plain_ascii (json_dumps_indent2 history).
Proof.
  destruct history as [|m h]; [apply is_plain_ascii_true; reflexivity|].
  unfold json_dumps_indent2.
  repeat (apply Forall_app; split);
    try (apply is_plain_ascii_true; reflexivity).
  apply join_plain; [apply is_plain_ascii_true; reflexivity|].
  apply Forall_forall. intros p Hp. apply in_map_iff in Hp as (m' & <- & _).
  apply Forall_app. split;
    [apply is_plain_ascii_true; reflexivity | apply dumps_message_plain].
Qed.

(* ================================================================= *)
(** ** The errors of the decoder *)

Lemma skip_ws_length (s : pystr) (idx : nat) :
  List.length (fst (skip_ws s idx)) <= List.length s.
Proof.
  revert idx. induction s as [|c s IH]; intros idx; cbn; [lia|].
  destruct (is_ws c); cbn; [|lia].
  specialize (IH (S idx)). lia.
Qed.

Lemma cons_char_Scanned (c : N) (r : scanned pystr) text rest i :
  cons_char c r = Scanned text rest i ->
  exists text', r = Scanned text' rest i.
Proof. destruct r; cbn; intros H; try discriminate. injection H as <- <- <-. eauto. Qed.

Lemma cons_char_TooDeep (c : N) (r : scanned pystr) :
  cons_char c r = TooDeep -> r = TooDeep.
Proof. destruct r; cbn; intros H; try discriminate. reflexivity. Qed.

Lemma cons_char_StopIteration (c : N) (r : scanned pystr) i :
  cons_char c r = StopIteration i -> r = StopIteration i.
Proof. destruct r; cbn; intros H; try discriminate. exact H. Qed.

Lemma scanstring_shape (n : nat) :
  forall s idx begin,
    List.length s <= n ->
    scanstring s idx begin <> TooDeep
    /\ (forall i, scanstring s idx begin <> StopIteration i)
    /\ (forall text rest i,
          scanstring s idx begin = Scanned text rest i ->
          List.length rest < List.length s).
Proof.
  induction n as [|n IH]; intros s idx begin Hn.
  - destruct s; [|cbn in Hn; lia]. cbn. repeat split; intros; discriminate.
  - destruct s as [|c s1]; [cbn; repeat split; intros; discriminate|].
    cbn in Hn.
    assert (Htail : forall t j c',
               List.length t <= n ->
               cons_char c' (scanstring t j begin) <> TooDeep
               /\ (forall i, cons_char c' (scanstring t j begin)
                             <> StopIteration i)
               /\ (forall text rest i,
                     cons_char c' (scanstring t j begin)
                     = Scanned text rest i ->
                     List.length rest < List.length t)).
    { intros t j c' Ht. destruct (IH t j begin Ht) as (H1 & H2 & H3).
      repeat split.
      - intros H. apply cons_char_TooDeep in H. contradiction.
      - intros i H. apply cons_char_StopIteration in H. now apply (H2 i).
      - intros text rest i H. apply cons_char_Scanned in H as [text' H].
        now apply (H3 text' rest i). }
    cbn [scanstring].
    destruct (c =? 34)%N.
    { repeat split; try (intros; discriminate).
      intros text rest i H. injection H as _ <- _. cbn. lia. }
    destruct (c =? 92)%N.
    + destruct s1 as [|esc s2];
        [repeat split; intros; discriminate|].
      destruct (esc =? 117)%N.
      * destruct s2 as [|a [|b [|c' [|d s3]]]];
          try (repeat split; intros; discriminate).
        destruct (decode_hex4 a b c' d) as [u|];
          [|repeat split; intros; discriminate].
        cbn in Hn.
        assert (Hsingle := Htail s3 (idx + 6) u ltac:(lia)).
        assert (Hs : cons_char u (scanstring s3 (idx + 6) begin) <> TooDeep
                /\ (forall i, cons_char u (scanstring s3 (idx + 6) begin)
                              <> StopIteration i)
                /\ (forall text rest i,
                     cons_char u (scanstring s3 (idx + 6) begin)
                     = Scanned text rest i ->
                     List.length rest
                     < List.length (c :: esc :: a :: b :: c' :: d :: s3))).
        { destruct Hsingle as (H1 & H2 & H3). repeat split; auto.
          intros text rest i H. specialize (H3 text rest i H). cbn. lia. }
        cbv zeta.
        destruct (is_high_surrogate u); [|exact Hs].
        destruct s3 as [|x [|y [|a2 [|b2 [|c2 [|d2 s4]]]]]]; try exact Hs.
        destruct ((x =? 92) && (y =? 117))%N; [|exact Hs].
        destruct (decode_hex4 a2 b2 c2 d2) as [u2|];
          [|repeat split; intros; discriminate].
        destruct (is_low_surrogate u2); [|exact Hs].
        cbn in Hn.
        destruct (Htail s4 (idx + 12) (join_surrogates u u2) ltac:(lia))
          as (H1 & H2 & H3).
        repeat split; auto.
        intros text rest i H. specialize (H3 text rest i H). cbn. lia.
      * destruct (simple_escape esc) as [ch|];
          [|repeat split; intros; discriminate].
        cbn in Hn.
        destruct (Htail s2 (idx + 2) ch ltac:(lia)) as (H1 & H2 & H3).
        repeat split; auto.
        intros text rest i H. specialize (H3 text rest i H). cbn. lia.
    + destruct (c <? 32)%N; [repeat split; intros; discriminate|].
      destruct (Htail s1 (S idx) c ltac:(lia)) as (H1 & H2 & H3).
      repeat split; auto.
      intros text rest i H. specialize (H3 text rest i H). cbn. lia.
Qed.

Lemma strip_prefix_length (p s rest : pystr) :
  strip_prefix p s = Some rest ->
  List.length rest + List.length p = List.length s.
Proof.
  revert s. induction p as [|a p IH]; intros s; cbn.
  - intros H. injection H as <-. lia.
  - destruct s as [|b s]; [discriminate|].
    destruct (a =? b)%N; [|discriminate].
    intros H. apply IH in H. cbn. lia.
Qed.

Lemma constant_shape (name : string) (v : json) (s : pystr) (idx : nat)
    (r : scanned json) :
  0 < List.length (lit name) ->
  constant name v s idx = Some r ->
  exists rest i, r = Scanned v rest i /\ List.length rest < List.length s.
Proof.
  intros Hname. unfold constant.
  destruct (strip_prefix (lit name) s) as [rest|] eqn:E; [|discriminate].
  intros H. injection H as <-. apply strip_prefix_length in E.
  exists rest. eexists. split; [reflexivity | lia].
Qed.

Lemma span_digits_length (s : pystr) :
  List.length (snd (span_digits s)) <= List.length s.
Proof.
  induction s as [|c s IH]; cbn; [lia|].
  destruct (is_digit c); [|cbn; lia].
  destruct (span_digits s) as [ds rest]. cbn in *. lia.
Qed.

Lemma match_integer_length (s int rest : pystr) :
  match_integer s = Some (int, rest) -> List.length rest < List.length s.
Proof.
  unfold match_integer. destruct s as [|c s']; [discriminate|].
  destruct (c =? 48)%N.
  - intros H. injection H as _ <-. cbn. lia.
  - destruct (is_digit c); [|discriminate].
    pose proof (span_digits_length s') as Hs.
    destruct (span_digits s') as [ds r]. cbn in Hs.
    intros H. injection H as _ <-. cbn. lia.
Qed.

Lemma match_fraction_length (s : pystr) :
  List.length (snd (match_fraction s)) <= List.length s.
Proof.
  unfold match_fraction. destruct s as [|c s']; [cbn; lia|].
  destruct c as [|p]; [cbn; lia|].
  assert (Hdef : List.length (snd (([] : pystr), N.pos p :: s'))
                 <= List.length (N.pos p :: s')) by (cbn; lia).
  pose proof (span_digits_length s') as Hs.
  repeat (destruct p as [p|p|]; try exact Hdef).
  destruct (span_digits s') as [[|d ds] r]; cbn in *; lia.
Qed.

Lemma match_exponent_length (s : pystr) :
  List.length (snd (match_exponent s)) <= List.length s.
Proof.
  unfold match_exponent. destruct s as [|e s']; [cbn; lia|].
  destruct ((e =? 101) || (e =? 69))%N; [|cbn; lia].
  assert (Hsign : forall sign s'',
             List.length s'' <= List.length s' ->
             List.length
               (snd (match span_digits s'' with
                     | ([], _) => (([] : pystr), e :: s')
                     | (ds, rest) => (e :: sign ++ ds, rest)
                     end))
             <= List.length (e :: s')).
  { intros sign s'' Hle. pose proof (span_digits_length s'') as Hs.
    destruct (span_digits s'') as [[|d ds] r]; cbn in *; lia. }
  destruct s' as [|c t]; [apply Hsign; lia|].
  destruct ((c =? 43) || (c =? 45))%N; apply Hsign; cbn; lia.
Qed.

Lemma match_number_shape (s : pystr) (idx : nat) (r : scanned json) :
  match_number s idx = Some r ->
  exists v rest i, r = Scanned v rest i /\ List.length rest < List.length s.
Proof.
  unfold match_number.
  set (p := match s with
            | 45%N :: t => (true, t)
            | _ => (false, s)
            end).
  assert (Hp : List.length (snd p) <= List.length s).
  { subst p. destruct s as [|c t]; [cbn; lia|].
    destruct c as [|q]; [cbn; lia|].
    repeat (destruct q as [q|q|]; try (cbn; lia)). }
  destruct p as [neg s1]. cbn in Hp.
  destruct (match_integer s1) as [[int s2]|] eqn:Ei; [|discriminate].
  apply match_integer_length in Ei.
  pose proof (match_fraction_length s2) as Hf.
  destruct (match_fraction s2) as [frac s3]. cbn in Hf.
  pose proof (match_exponent_length s3) as He.
  destruct (match_exponent s3) as [exp s4]. cbn in He.
  intros H. injection H as <-.
  eexists. exists s4. eexists. split; [reflexivity | lia].
Qed.

Lemma scan_atom_shape (s : pystr) (idx : nat) :
  scan_atom s idx <> TooDeep
  /\ (forall v rest i,
        scan_atom s idx = Scanned v rest i ->
        List.length rest < List.length s).
Proof.
  assert (Hall : forall r,
             first_of (constant "null" JNull s idx)
               (first_of (constant "true" (JBool true) s idx)
               (first_of (constant "false" (JBool false) s idx)
               (first_of (match_number s idx)
               (first_of (constant "NaN" (JFloat (lit "NaN")) s idx)
               (first_of (constant "Infinity" (JFloat (lit "Infinity")) s idx)
                  (constant "-Infinity" (JFloat (lit "-Infinity")) s idx))))))
             = Some r ->
             exists v rest i,
               r = Scanned v rest i /\ List.length rest < List.length s).
  { intros r. unfold first_of.
    repeat match goal with
           | |- context [match constant ?n ?v s idx with _ => _ end] =>
               let E := fresh "E" in
               destruct (constant n v s idx) eqn:E;
               [intros H; injection H as <-;
                apply constant_shape in E;
                [destruct E as (rest & i & -> & Hl); eauto
                |vm_compute; lia]
               |]
           | |- context [match match_number s idx with _ => _ end] =>
               let E := fresh "E" in
               destruct (match_number s idx) eqn:E;
               [intros H; injection H as <-;
                now apply match_number_shape in E
               |]
           end.
    intros H.
    match type of H with
    | constant ?n ?v s idx = Some r =>
        apply constant_shape in H;
        [destruct H as (rest & i & -> & Hl); eauto | vm_compute; lia]
    | None = Some _ => discriminate H
    end. }
  unfold scan_atom. cbv zeta.
  destruct (first_of _ _) as [r|].
  - destruct (Hall r eq_refl) as (v & rest & i & -> & Hl).
    split; [discriminate|].
    intros v' rest' i' H. injection H as _ <- _. exact Hl.
  - split; intros; discriminate.
Qed.

Lemma scans_within_Scanned {A} (a : A) rest i n (P : Prop) :
  List.length rest < n -> scans_within (Scanned a rest i) n P.
Proof.
  intros H. split; [|discriminate].
  intros a' rest' i' E. injection E as _ <- _. exact H.
Qed.

Lemma scans_within_StopIteration {A} i n (P : Prop) :
  scans_within (@StopIteration A i) n P.
Proof. split; intros; discriminate. Qed.

Lemma scans_within_DecodeError {A} msg pos n (P : Prop) :
  scans_within (@DecodeError A msg pos) n P.
Proof. split; intros; discriminate. Qed.

Lemma scans_within_weaken {A} (r : scanned A) n m (P Q : Prop) :
  scans_within r n P -> n <= m -> (Q -> P) -> scans_within r m Q.
Proof.
  intros [H1 H2] Hle Himp. split.
  - intros a rest i E. specialize (H1 a rest i E). lia.
  - intros HQ. apply H2, Himp, HQ.
Qed.

Lemma scanner_budget (fuel : nat) :
  (forall s idx,
     scans_within (scan_once fuel s idx) (List.length s)
       (2 * List.length s + 1 <= fuel))
  /\ (forall acc s idx,
        scans_within (object_items fuel acc s idx) (List.length s)
          (2 * List.length s + 2 <= fuel))
  /\ (forall acc s idx,
        scans_within (array_items fuel acc s idx) (List.length s)
          (2 * List.length s + 2 <= fuel)).
Proof.
  induction fuel as [|fuel (IHs & IHo & IHa)].
  { repeat split; cbn; intros; try discriminate; lia. }
  split; [|split].
  - (* scan_once *)
    intros s idx. destruct s as [|c s'];
      [apply scans_within_StopIteration|].
    cbn [scan_once].
    destruct (c =? 34)%N.
    { destruct (scanstring_shape (List.length s') s' (S idx) idx (le_n _))
        as (H1 & H2 & H3).
      destruct (scanstring s' (S idx) idx) as [text rest i|i|msg pos|] eqn:E.
      - apply scans_within_Scanned. specialize (H3 text rest i eq_refl).
        cbn. lia.
      - apply scans_within_StopIteration.
      - apply scans_within_DecodeError.
      - contradiction. }
    destruct (c =? 123)%N.
    { pose proof (skip_ws_length s' (S idx)) as Hw.
      destruct (skip_ws s' (S idx)) as [s1 i1]. cbn [fst] in Hw.
      assert (Hdef : scans_within (object_items fuel [] s1 i1)
                       (List.length (c :: s'))
                       (2 * List.length (c :: s') + 1 <= S fuel)).
      { apply (scans_within_weaken _ _ _ _ _ (IHo [] s1 i1));
          cbn [List.length]; lia. }
      destruct s1 as [|c1 r1]; [exact Hdef|].
      destruct c1 as [|p]; [exact Hdef|].
      repeat (destruct p as [p|p|]; try exact Hdef).
      apply scans_within_Scanned. cbn [List.length] in *. lia. }
    destruct (c =? 91)%N.
    { pose proof (skip_ws_length s' (S idx)) as Hw.
      destruct (skip_ws s' (S idx)) as [s1 i1]. cbn [fst] in Hw.
      assert (Hdef : scans_within (array_items fuel [] s1 i1)
                       (List.length (c :: s'))
                       (2 * List.length (c :: s') + 1 <= S fuel)).
      { apply (scans_within_weaken _ _ _ _ _ (IHa [] s1 i1));
          cbn [List.length]; lia. }
      destruct s1 as [|c1 r1]; [exact Hdef|].
      destruct c1 as [|p]; [exact Hdef|].
      repeat (destruct p as [p|p|]; try exact Hdef).
      apply scans_within_Scanned. cbn [List.length] in *. lia. }
    destruct (scan_atom_shape (c :: s') idx) as [H1 H2].
    split; [exact H2 | intros _; exact H1].
  - (* object_items *)
    intros acc s idx. cbn [object_items].
    assert (Hname : scans_within
                      (@DecodeError json
                         "Expecting property name enclosed in double quotes"
                         idx)
                      (List.length s) (2 * List.length s + 2 <= S fuel))
      by apply scans_within_DecodeError.
    destruct s as [|c s1]; [exact Hname|].
    destruct c as [|p]; [exact Hname|].
    repeat (destruct p as [p|p|]; try exact Hname).
    clear Hname.
    destruct (scanstring_shape (List.length s1) s1 (S idx) idx (le_n _))
      as (H1 & H2 & H3).
    destruct (scanstring s1 (S idx) idx) as [key s2 i2|i|msg pos|] eqn:E;
      [|apply scans_within_StopIteration|apply scans_within_DecodeError
       |contradiction].
    specialize (H3 key s2 i2 eq_refl).
    pose proof (skip_ws_length s2 i2) as Hw3.
    destruct (skip_ws s2 i2) as [s3 i3]. cbn [fst] in Hw3.
    assert (Hcolon : scans_within
                       (@DecodeError json "Expecting ':' delimiter" i3)
                       (List.length (34%N :: s1))
                       (2 * List.length (34%N :: s1) + 2 <= S fuel))
      by apply scans_within_DecodeError.
    destruct s3 as [|c3 s4]; [exact Hcolon|].
    destruct c3 as [|p]; [exact Hcolon|].
    repeat (destruct p as [p|p|]; try exact Hcolon).
    clear Hcolon.
    pose proof (skip_ws_length s4 (S i3)) as Hw5.
    destruct (skip_ws s4 (S i3)) as [s5 i5]. cbn [fst] in Hw5.
    cbn [List.length] in *.
    destruct (IHs s5 i5) as [Hs1 Hs2].
    destruct (scan_once fuel s5 i5) as [v s6 i6|i|msg pos|] eqn:Ev;
      [|apply scans_within_StopIteration|apply scans_within_DecodeError|].
    2:{ split; [intros; discriminate|]. intros Hb. exfalso.
        apply Hs2; [lia | reflexivity]. }
    specialize (Hs1 v s6 i6 eq_refl).
    pose proof (skip_ws_length s6 i6) as Hw7.
    destruct (skip_ws s6 i6) as [s7 i7]. cbn [fst] in Hw7.
    assert (Hcomma : scans_within
                       (@DecodeError json "Expecting ',' delimiter" i7)
                       (S (List.length s1))
                       (2 * S (List.length s1) + 2 <= S fuel))
      by apply scans_within_DecodeError.
    destruct s7 as [|c7 s8]; [exact Hcomma|].
    destruct c7 as [|p]; [exact Hcomma|].
    repeat (destruct p as [p|p|]; try exact Hcomma).
    all: first
      [ (* the closing brace *)
        apply scans_within_Scanned; cbn [List.length] in *; lia
      | (* the comma *)
        pose proof (skip_ws_length s8 (S i7)) as Hw9;
        destruct (skip_ws s8 (S i7)) as [s9 i9]; cbn [fst] in Hw9;
        cbn [List.length] in *;
        apply (scans_within_weaken _ _ _ _ _
                 (IHo (dict_set acc key v) s9 i9)); lia ].
  - (* array_items *)
    intros acc s idx. cbn [array_items].
    destruct (IHs s idx) as [Hs1 Hs2].
    destruct (scan_once fuel s idx) as [v s1 i1|i|msg pos|] eqn:Ev;
      [|apply scans_within_StopIteration|apply scans_within_DecodeError|].
    2:{ split; [intros; discriminate|]. intros Hb. exfalso.
        apply Hs2; [lia | reflexivity]. }
    specialize (Hs1 v s1 i1 eq_refl).
    pose proof (skip_ws_length s1 i1) as Hw2.
    destruct (skip_ws s1 i1) as [s2 i2]. cbn [fst] in Hw2.
    assert (Hcomma : scans_within
                       (@DecodeError json "Expecting ',' delimiter" i2)
                       (List.length s)
                       (2 * List.length s + 2 <= S fuel))
      by apply scans_within_DecodeError.
    destruct s2 as [|c2 s3]; [exact Hcomma|].
    destruct c2 as [|p]; [exact Hcomma|].
    repeat (destruct p as [p|p|]; try exact Hcomma).
    all: first
      [ (* the closing bracket *)
        apply scans_within_Scanned; cbn [List.length] in *; lia
      | (* the comma *)
        pose proof (skip_ws_length s3 (S i2)) as Hw4;
        destruct (skip_ws s3 (S i2)) as [s4 i4]; cbn [fst] in Hw4;
        cbn [List.length] in *;
        apply (scans_within_weaken _ _ _ _ _ (IHa (acc ++ [v]) s4 i4));
        lia ].
Qed.

(** The nesting budget of [loads] is never exhausted. *)
Lemma loads_within_budget (doc : pystr) :
  loads doc <> Raised recursion_error.
Proof.
  assert (Hrest :
            (let (s, idx) := skip_ws doc 0 in
             match scan_once (S (S (2 * List.length doc))) s idx with
             | Scanned v rest idx' =>
                 match skip_ws rest idx' with
                 | ([], _) => Ok v
                 | (_ :: _, e0) => Raised (decode_error "Extra data" doc e0)
                 end
             | StopIteration i => Raised (decode_error "Expecting value" doc i)
             | DecodeError msg pos => Raised (decode_error msg doc pos)
             | TooDeep => Raised recursion_error
             end) <> Raised recursion_error).
  { pose proof (skip_ws_length doc 0) as Hw.
    destruct (skip_ws doc 0) as [s idx]. cbn [fst] in Hw.
    destruct (proj1 (scanner_budget (S (S (2 * List.length doc)))) s idx)
      as [_ Hdeep].
    destruct (scan_once (S (S (2 * List.length doc))) s idx)
      as [v rest idx'|i|msg pos|].
    - destruct (skip_ws rest idx') as [[|c r] e0]; discriminate.
    - discriminate.
    - discriminate.
    - exfalso. apply Hdeep; [lia | reflexivity]. }
  unfold loads.
  destruct doc as [|c doc']; [exact Hrest|].
  destruct (N.eq_dec c 65279) as [-> | Hc]; [discriminate|].
  destruct c as [|p]; [exact Hrest|].
  repeat (destruct p as [p|p|]; try exact Hrest; try (exfalso; apply Hc; reflexivity)).
Qed.

(** What the decoder model raises is a [JSONDecodeError] on the text. *)
Lemma loads_error_shape (doc : pystr) (e : exn) :
  json_decoder.loads doc = Raised e ->
  exists msg pos, e = json_decoder.decode_error msg doc pos.
Proof.
  intros H.
  assert (Hne : e <> json_decoder.recursion_error).
  { intros ->. now apply (loads_within_budget doc). }
  revert H. unfold json_decoder.loads. intros H.
  assert (Hrest :
            (let (s, idx) := json_decoder.skip_ws doc 0 in
             match json_decoder.scan_once (S (S (2 * List.length doc))) s idx
             with
             | json_decoder.Scanned v rest idx' =>
                 match json_decoder.skip_ws rest idx' with
                 | ([], _) => Ok v
                 | (_ :: _, e0) =>
                     Raised (json_decoder.decode_error "Extra data" doc e0)
                 end
             | json_decoder.StopIteration i =>
                 Raised (json_decoder.decode_error "Expecting value" doc i)
             | json_decoder.DecodeError msg pos =>
                 Raised (json_decoder.decode_error msg doc pos)
             | json_decoder.TooDeep => Raised json_decoder.recursion_error
             end) = Raised e ->
            exists msg pos, e = json_decoder.decode_error msg doc pos).
  { clear H. destruct (json_decoder.skip_ws doc 0) as [s idx].
    destruct (json_decoder.scan_once (S (S (2 * List.length doc))) s idx)
      as [v rest idx'|i|msg pos|].
    - destruct (json_decoder.skip_ws rest idx') as [[|c r] e0];
        [discriminate|]. intros H. injection H as <-. eauto.
    - intros H. injection H as <-. eauto.
    - intros H. injection H as <-. eauto.
    - intros H. injection H as <-. now contradiction Hne. }
  destruct doc as [|c doc']; [exact (Hrest H)|].
  destruct (N.eq_dec c 65279) as [-> | Hc].
  - injection H as <-. eauto.
  - apply Hrest.
    destruct c as [|p]; [exact H|].
    repeat (destruct p as [p|p|]; try exact H; try (exfalso; apply Hc; reflexivity)).
Qed.

(** A source literal holds no surrogate. *)
Lemma has_surrogate_lit (str : string) : has_surrogate (lit str) = false.
Proof.
  unfold has_surrogate, lit. induction str as [|a str IH]; [reflexivity|].
  cbn [list_ascii_of_string map existsb]. rewrite IH, orb_false_r.
  pose proof (N_ascii_bounded a) as H. unfold is_surrogate.
  apply andb_false_iff. left. apply N.leb_gt. lia.
Qed.

(** Whatever the decoder model raises is a [JSONDecodeError], an
    [Exception] whose message is plain text, which [st.error] can show. *)
Lemma loads_raises_Exception (doc : pystr) (e : exn) :
  json_decoder.loads doc = Raised e ->
  exn_cls e = JSONDecodeError
  /\ isinstance_Exception e = true
  /\ has_surrogate (exn_str e) = false.
Proof.
  intros H. destruct (loads_error_shape doc e H) as (msg & pos & ->).
  split; [reflexivity|]. split; [reflexivity|].
  unfold json_decoder.decode_error, json_decoder.errmsg,
    json_decoder.decimal.
  cbn [exn_str]. now rewrite !has_surrogate_app, !has_surrogate_lit.
Qed.

(* ================================================================= *)
(** ** The reply that [json.loads] does not accept *)

Lemma analyze_prompt_anthropic_text
    (messages_create :
       anthropic.Client -> anthropic.request -> result anthropic.response)
    (ChatCompletion_create :
       option pystr -> openai.request -> result openai.response)
    (json_loads : pystr -> result json)
    (inputs : Inputs) (s : Proc) (c : anthropic.Client)
    (text : pystr) (more : list anthropic.block) :
  provider inputs = lit "Anthropic" ->
  anthropic_client s = Some c ->
  messages_create c (anthropic_request inputs)
  = Ok (anthropic.TextBlock text :: more) ->
  analyze_prompt messages_create ChatCompletion_create json_loads inputs s
  = settle s [AnthropicCreate c (anthropic_request inputs)] (json_loads text).
Proof.
  intros Hp Hc Hr.
  now rewrite (analyze_prompt_anthropic messages_create ChatCompletion_create
                 json_loads inputs s c Hp Hc), Hr.
Qed.

Lemma analyze_prompt_openai_text
    (messages_create :
       anthropic.Client -> anthropic.request -> result anthropic.response)
    (ChatCompletion_create :
       option pystr -> openai.request -> result openai.response)
    (json_loads : pystr -> result json)
    (inputs : Inputs) (s : Proc)
    (text : pystr) (more : list openai.choice) :
  provider inputs <> lit "Anthropic" ->
  ChatCompletion_create (openai_api_key s) (openai_request inputs)
  = Ok ({| openai.message_content := Some text |} :: more) ->
  analyze_prompt messages_create ChatCompletion_create json_loads inputs s
  = settle s [OpenAICreate (openai_api_key s) (openai_request inputs)]
      (json_loads text).
Proof.
  intros Hp Hr.
  now rewrite (analyze_prompt_openai messages_create ChatCompletion_create
                 json_loads inputs s Hp), Hr.
Qed.

(** A text that is not valid JSON is rejected by the decoder model or
    read with one of the constants NaN, Infinity and -Infinity. *)
Lemma invalid_json_cases (text : pystr) :
  valid_json text = false ->
  (exists e, json_decoder.loads text = Raised e)
  \/ (exists v, json_decoder.loads text = Ok v /\ standard_json v = false).
Proof.
  unfold valid_json.
  destruct (json_decoder.loads text) as [v|e]; intros H; eauto.
Qed.

(** C5 (amended). What [analyze_prompt] makes of the text of the reply
    is what [json.loads] makes of it, on either path.  When [json.loads]
    raises an [Exception], a [JSONDecodeError] or another, whose message
    can be shown, [analyze_prompt] returns the empty dictionary without
    raising and reports [Analysis Error:] followed by that message.
    When [json.loads] returns a value, that value is returned and
    nothing is reported.  With the decoder of the standard library,
    every error is a [JSONDecodeError] with a message that can be shown,
    so a text that is not valid JSON ends in one of two ways: the
    decoder rejects it, and the run returns the empty dictionary with
    the notice of that [JSONDecodeError]; or the decoder
    reads it with one of the constants NaN, Infinity and -Infinity, and
    the run returns the value read, with no notice. *)
Theorem rejected_reply_is_recovered
    (messages_create :
       anthropic.Client -> anthropic.request -> result anthropic.response)
    (ChatCompletion_create :
       option pystr -> openai.request -> result openai.response)
    (json_loads : pystr -> result json)
    (inputs : Inputs) (s : Proc) (text : pystr) :
  (forall e,
     json_loads text = Raised e ->
     isinstance_Exception e = true ->
     has_surrogate (exn_str e) = false ->
     (forall c more,
        provider inputs = lit "Anthropic" ->
        anthropic_client s = Some c ->
        messages_create c (anthropic_request inputs)
        = Ok (anthropic.TextBlock text :: more) ->
        analyze_prompt messages_create ChatCompletion_create json_loads
          inputs s
        = mkRun (Ok (JDict [])) s
            [ AnthropicCreate c (anthropic_request inputs);
              StError (lit "Analysis Error: " ++ exn_str e) ])
     /\ (forall more,
          provider inputs <> lit "Anthropic" ->
          ChatCompletion_create (openai_api_key s) (openai_request inputs)
          = Ok ({| openai.message_content := Some text |} :: more) ->
          analyze_prompt messages_create ChatCompletion_create json_loads
            inputs s
          = mkRun (Ok (JDict [])) s
              [ OpenAICreate (openai_api_key s) (openai_request inputs);
                StError (lit "Analysis Error: " ++ exn_str e) ]))
  /\ (forall v,
        json_loads text = Ok v ->
        (forall c more,
           provider inputs = lit "Anthropic" ->
           anthropic_client s = Some c ->
           messages_create c (anthropic_request inputs)
           = Ok (anthropic.TextBlock text :: more) ->
           analyze_prompt messages_create ChatCompletion_create json_loads
             inputs s
           = mkRun (Ok v) s [AnthropicCreate c (anthropic_request inputs)])
        /\ (forall more,
             provider inputs <> lit "Anthropic" ->
             ChatCompletion_create (openai_api_key s) (openai_request inputs)
             = Ok ({| openai.message_content := Some text |} :: more) ->
             analyze_prompt messages_create ChatCompletion_create json_loads
               inputs s
             = mkRun (Ok v) s
                 [OpenAICreate (openai_api_key s) (openai_request inputs)]))
  /\ (valid_json text = false ->
      (forall c more,
         provider inputs = lit "Anthropic" ->
         anthropic_client s = Some c ->
         messages_create c (anthropic_request inputs)
         = Ok (anthropic.TextBlock text :: more) ->
         (exists e,
            json_decoder.loads text = Raised e
            /\ exn_cls e = JSONDecodeError
            /\ analyze_prompt messages_create ChatCompletion_create
                 json_decoder.loads inputs s
               = mkRun (Ok (JDict [])) s
                   [ AnthropicCreate c (anthropic_request inputs);
                     StError (lit "Analysis Error: " ++ exn_str e) ])
         \/ (exists v,
               json_decoder.loads text = Ok v
               /\ standard_json v = false
               /\ analyze_prompt messages_create ChatCompletion_create
                    json_decoder.loads inputs s
                  = mkRun (Ok v) s
                      [AnthropicCreate c (anthropic_request inputs)]))
      /\ (forall more,
           provider inputs <> lit "Anthropic" ->
           ChatCompletion_create (openai_api_key s) (openai_request inputs)
           = Ok ({| openai.message_content := Some text |} :: more) ->
           (exists e,
              json_decoder.loads text = Raised e
              /\ exn_cls e = JSONDecodeError
              /\ analyze_prompt messages_create ChatCompletion_create
                   json_decoder.loads inputs s
                 = mkRun (Ok (JDict [])) s
                     [ OpenAICreate (openai_api_key s)
                         (openai_request inputs);
                       StError (lit "Analysis Error: " ++ exn_str e) ])
           \/ (exists v,
                 json_decoder.loads text = Ok v
                 /\ standard_json v = false
                 /\ analyze_prompt messages_create ChatCompletion_create
                      json_decoder.loads inputs s
                    = mkRun (Ok v) s
                        [ OpenAICreate (openai_api_key s)
                            (openai_request inputs) ]))).
Proof.
  split; [|split].
  - intros e Hj He Hs. split.
    + intros c more Hp Hc Hr.
      rewrite (analyze_prompt_anthropic_text _ _ _ _ _ _ _ _ Hp Hc Hr), Hj.
      now apply settle_value_Exception.
    + intros more Hp Hr.
      rewrite (analyze_prompt_openai_text _ _ _ _ _ _ _ Hp Hr), Hj.
      now apply settle_value_Exception.
  - intros v Hj. split.
    + intros c more Hp Hc Hr.
      now rewrite (analyze_prompt_anthropic_text _ _ _ _ _ _ _ _ Hp Hc Hr), Hj.
    + intros more Hp Hr.
      now rewrite (analyze_prompt_openai_text _ _ _ _ _ _ _ Hp Hr), Hj.
  - intros Hinvalid. split.
    + intros c more Hp Hc Hr.
      rewrite (analyze_prompt_anthropic_text _ _ json_decoder.loads
                 _ _ _ _ _ Hp Hc Hr).
      destruct (invalid_json_cases text Hinvalid) as [[e Hj] | (v & Hj & Hv)].
      * left. exists e. split; [exact Hj|]. rewrite Hj.
        destruct (loads_raises_Exception text e Hj) as (Hcls & He & Hs).
        split; [exact Hcls|]. now apply settle_value_Exception.
      * right. exists v. rewrite Hj. auto.
    + intros more Hp Hr.
      rewrite (analyze_prompt_openai_text _ _ json_decoder.loads
                 _ _ _ _ Hp Hr).
      destruct (invalid_json_cases text Hinvalid) as [[e Hj] | (v & Hj & Hv)].
      * left. exists e. split; [exact Hj|]. rewrite Hj.
        destruct (loads_raises_Exception text e Hj) as (Hcls & He & Hs).
        split; [exact Hcls|]. now apply settle_value_Exception.
      * right. exists v. rewrite Hj. auto.
Qed.

(** C5, counterexample. The reply [NaN] is not valid JSON, yet
    [json.loads] reads it as a float: on either path [analyze_prompt]
    returns that float, which is not the empty dictionary, and reports
    nothing. *)
Lemma nan_reply_is_returned_without_notice :
  valid_json (lit "NaN") = false
  /\ json_decoder.loads (lit "NaN") = Ok (JFloat (lit "NaN"))
  /\ mock_analyze (lit "NaN") (scenario_request (lit "x")) configured
     = mkRun (Ok (JFloat (lit "NaN"))) configured
         [ AnthropicCreate sample_client
             (anthropic_request (scenario_request (lit "x"))) ]
  /\ mock_analyze (lit "NaN") openai_sample_request configured
     = mkRun (Ok (JFloat (lit "NaN"))) configured
         [ OpenAICreate (Some (lit "sk-oai"))
             (openai_request openai_sample_request) ]
  /\ JFloat (lit "NaN") <> JDict [].
Proof.
  split; [vm_compute; reflexivity|].
  split; [vm_compute; reflexivity|].
  split; [vm_compute; reflexivity|].
  split; [vm_compute; reflexivity | discriminate].
Qed.

(** C5 with both providers answering [not json], which the decoder
    rejects, and answering [NaN], which it reads. *)
Lemma rejected_reply_is_recovered_witness :
  json_decoder.loads (lit "not json") = Raised not_json_error
  /\ exn_cls not_json_error = JSONDecodeError
  /\ exn_str not_json_error
     = lit "Expecting value: line 1 column 1 (char 0)"
  /\ mock_analyze (lit "not json") (scenario_request (lit "x")) configured
     = mkRun (Ok (JDict [])) configured
         [ AnthropicCreate sample_client
             (anthropic_request (scenario_request (lit "x")));
           StError (lit "Analysis Error: " ++ exn_str not_json_error) ]
  /\ mock_analyze (lit "not json") openai_sample_request configured
     = mkRun (Ok (JDict [])) configured
         [ OpenAICreate (openai_api_key configured)
             (openai_request openai_sample_request);
           StError (lit "Analysis Error: " ++ exn_str not_json_error) ]
  /\ valid_json (lit "NaN") = false
  /\ ((exists e,
         json_decoder.loads (lit "NaN") = Raised e
         /\ exn_cls e = JSONDecodeError
         /\ mock_analyze (lit "NaN") (scenario_request (lit "x")) configured
            = mkRun (Ok (JDict [])) configured
                [ AnthropicCreate sample_client
                    (anthropic_request (scenario_request (lit "x")));
                  StError (lit "Analysis Error: " ++ exn_str e) ])
      \/ (exists v,
            json_decoder.loads (lit "NaN") = Ok v
            /\ standard_json v = false
            /\ mock_analyze (lit "NaN") (scenario_request (lit "x"))
                 configured
               = mkRun (Ok v) configured
                   [ AnthropicCreate sample_client
                       (anthropic_request (scenario_request (lit "x"))) ])).
Proof.
  assert (Hj : json_decoder.loads (lit "not json") = Raised not_json_error)
    by (vm_compute; reflexivity).
  assert (Hne : provider openai_sample_request <> lit "Anthropic")
    by (intros H; vm_compute in H; discriminate H).
  assert (Hnan : valid_json (lit "NaN") = false) by (vm_compute; reflexivity).
  destruct (proj1 (rejected_reply_is_recovered
                     (mock_anthropic (lit "not json"))
                     (mock_openai (lit "not json")) json_decoder.loads
                     (scenario_request (lit "x")) configured
                     (lit "not json"))
              not_json_error Hj eq_refl eq_refl) as [Ha _].
  destruct (proj1 (rejected_reply_is_recovered
                     (mock_anthropic (lit "not json"))
                     (mock_openai (lit "not json")) json_decoder.loads
                     openai_sample_request configured
                     (lit "not json"))
              not_json_error Hj eq_refl eq_refl) as [_ Ho].
  destruct (proj2 (proj2 (rejected_reply_is_recovered
                            (mock_anthropic (lit "NaN"))
                            (mock_openai (lit "NaN")) json_decoder.loads
                            (scenario_request (lit "x")) configured
                            (lit "NaN"))) Hnan) as [Hn _].
  split; [exact Hj|]. split; [reflexivity|].
  split; [vm_compute; reflexivity|].
  split; [exact (Ha sample_client [] eq_refl eq_refl eq_refl)|].
  split; [exact (Ho [] Hne eq_refl)|].
  split; [exact Hnan|].
  exact (Hn sample_client [] eq_refl eq_refl eq_refl).
Defined.

(* ================================================================= *)
(** ** The further properties at concrete inputs *)

(** X1 with both providers failing on a rate limit, and with a failure
    whose message cannot be shown. *)
Lemma provider_failure_is_recovered_witness :
  isinstance_Exception rate_limit_error = true
  /\ analyze_prompt (failing_anthropic rate_limit_error)
       (failing_openai rate_limit_error) json_decoder.loads
       (scenario_request (lit "x")) configured
     = mkRun (Ok (JDict [])) configured
         [ AnthropicCreate sample_client
             (anthropic_request (scenario_request (lit "x")));
           StError (lit "Analysis Error: " ++ exn_str rate_limit_error) ]
  /\ analyze_prompt (failing_anthropic rate_limit_error)
       (failing_openai rate_limit_error) json_decoder.loads
       openai_sample_request configured
     = mkRun (Ok (JDict [])) configured
         [ OpenAICreate (openai_api_key configured)
             (openai_request openai_sample_request);
           StError (lit "Analysis Error: " ++ exn_str rate_limit_error) ]
  /\ isinstance_Exception unencodable_error = true
  /\ has_surrogate (exn_str unencodable_error) = true
  /\ analyze_prompt (failing_anthropic unencodable_error)
       (failing_openai unencodable_error) json_decoder.loads
       (scenario_request (lit "x")) configured
     = mkRun (Raised unicode_encode_error) configured
         [ AnthropicCreate sample_client
             (anthropic_request (scenario_request (lit "x"))) ].
Proof.
  split; [reflexivity|]. split; [|split; [|split; [reflexivity|split;
    [reflexivity|]]]].
  - exact (proj1 (provider_failure_is_recovered
                    (failing_anthropic rate_limit_error)
                    (failing_openai rate_limit_error) json_decoder.loads
                    (scenario_request (lit "x")) configured
                    rate_limit_error eq_refl)
             sample_client eq_refl eq_refl eq_refl).
  - exact (proj2 (provider_failure_is_recovered
                    (failing_anthropic rate_limit_error)
                    (failing_openai rate_limit_error) json_decoder.loads
                    openai_sample_request configured
                    rate_limit_error eq_refl)
             (not_anthropic_of_openai _ eq_refl) eq_refl).
  - exact (proj1 (provider_failure_is_recovered
                    (failing_anthropic unencodable_error)
                    (failing_openai unencodable_error) json_decoder.loads
                    (scenario_request (lit "x")) configured
                    unencodable_error eq_refl)
             sample_client eq_refl eq_refl eq_refl).
Defined.

(** X2 with both providers answering with nothing. *)
Lemma empty_reply_is_recovered_witness :
  analyze_prompt silent_anthropic silent_openai json_decoder.loads
    (scenario_request (lit "x")) configured
  = mkRun (Ok (JDict [])) configured
      [ AnthropicCreate sample_client
          (anthropic_request (scenario_request (lit "x")));
        StError (lit "Analysis Error: " ++ lit "list index out of range") ]
  /\ analyze_prompt silent_anthropic silent_openai json_decoder.loads
       openai_sample_request configured
     = mkRun (Ok (JDict [])) configured
         [ OpenAICreate (openai_api_key configured)
             (openai_request openai_sample_request);
           StError (lit "Analysis Error: "
                    ++ lit "list index out of range") ].
Proof.
  split.
  - apply (proj1 (empty_reply_is_recovered silent_anthropic silent_openai
                    json_decoder.loads (scenario_request (lit "x"))
                    configured) sample_client); reflexivity.
  - apply (proj2 (empty_reply_is_recovered silent_anthropic silent_openai
                    json_decoder.loads openai_sample_request configured));
      [apply not_anthropic_of_openai|]; reflexivity.
Defined.

(** X3 with both providers answering with a JSON array. *)
Lemma parsed_value_is_returned_unvalidated_witness :
  json_decoder.loads (lit "[1, 2]") = Ok (JList [JInt 1; JInt 2])
  /\ mock_analyze (lit "[1, 2]") (scenario_request (lit "x")) configured
     = mkRun (Ok (JList [JInt 1; JInt 2])) configured
         [ AnthropicCreate sample_client
             (anthropic_request (scenario_request (lit "x"))) ]
  /\ mock_analyze (lit "[1, 2]") openai_sample_request configured
     = mkRun (Ok (JList [JInt 1; JInt 2])) configured
         [ OpenAICreate (openai_api_key configured)
             (openai_request openai_sample_request) ].
Proof.
  assert (Hj : json_decoder.loads (lit "[1, 2]")
               = Ok (JList [JInt 1; JInt 2]))
    by (vm_compute; reflexivity).
  split; [exact Hj|]. split.
  - apply (proj1 (parsed_value_is_returned_unvalidated
                    (mock_anthropic (lit "[1, 2]"))
                    (mock_openai (lit "[1, 2]")) json_decoder.loads
                    (scenario_request (lit "x")) configured
                    (lit "[1, 2]") (JList [JInt 1; JInt 2]) Hj)
             sample_client []); reflexivity.
  - apply (proj2 (parsed_value_is_returned_unvalidated
                    (mock_anthropic (lit "[1, 2]"))
                    (mock_openai (lit "[1, 2]")) json_decoder.loads
                    openai_sample_request configured
                    (lit "[1, 2]") (JList [JInt 1; JInt 2]) Hj) []);
      [apply not_anthropic_of_openai|]; reflexivity.
Defined.

(** X4 with both providers interrupted. *)
Lemma fatal_exception_propagates_witness :
  isinstance_Exception keyboard_interrupt = false
  /\ analyze_prompt (failing_anthropic keyboard_interrupt)
       (failing_openai keyboard_interrupt) json_decoder.loads
       (scenario_request (lit "x")) configured
     = mkRun (Raised keyboard_interrupt) configured
         [ AnthropicCreate sample_client
             (anthropic_request (scenario_request (lit "x"))) ]
  /\ analyze_prompt (failing_anthropic keyboard_interrupt)
       (failing_openai keyboard_interrupt) json_decoder.loads
       openai_sample_request configured
     = mkRun (Raised keyboard_interrupt) configured
         [ OpenAICreate (openai_api_key configured)
             (openai_request openai_sample_request) ]
  /\ value (main both_secrets (failing_anthropic keyboard_interrupt)
              (failing_openai keyboard_interrupt) json_decoder.loads
              filled_form (fresh None))
     = Raised keyboard_interrupt
  /\ filter is_display
       (trace (main both_secrets (failing_anthropic keyboard_interrupt)
                 (failing_openai keyboard_interrupt) json_decoder.loads
                 filled_form (fresh None))) = [].
Proof.
  pose proof (fatal_exception_propagates both_secrets
                (failing_anthropic keyboard_interrupt)
                (failing_openai keyboard_interrupt) json_decoder.loads
                (scenario_request (lit "x")) configured filled_form
                keyboard_interrupt eq_refl) as (Ha & _ & _).
  pose proof (fatal_exception_propagates both_secrets
                (failing_anthropic keyboard_interrupt)
                (failing_openai keyboard_interrupt) json_decoder.loads
                openai_sample_request configured filled_form
                keyboard_interrupt eq_refl) as (_ & Ho & _).
  pose proof (fatal_exception_propagates both_secrets
                (failing_anthropic keyboard_interrupt)
                (failing_openai keyboard_interrupt) json_decoder.loads
                openai_sample_request (fresh None) filled_form
                keyboard_interrupt eq_refl) as (_ & _ & Hm).
  assert (Hfull : ~ In [] (required_fields filled_form))
    by (intros H; not_in_list H).
  split; [reflexivity|].
  split; [apply (Ha sample_client); reflexivity|].
  split; [apply Ho; [apply not_anthropic_of_openai|]; reflexivity|].
  apply (Hm Hfull eq_refl). vm_compute. reflexivity.
Defined.

(** X5 with the provider interrupted, and with a failure whose message
    cannot be shown. *)
Lemma analyze_prompt_is_contained_witness :
  (value (analyze_prompt (failing_anthropic keyboard_interrupt)
            (failing_openai keyboard_interrupt) json_decoder.loads
            (scenario_request (lit "x")) configured)
   = Raised keyboard_interrupt
   /\ isinstance_Exception keyboard_interrupt = false
   /\ filter is_error_notice
        (trace (analyze_prompt (failing_anthropic keyboard_interrupt)
                  (failing_openai keyboard_interrupt) json_decoder.loads
                  (scenario_request (lit "x")) configured)) = [])
  /\ (value (analyze_prompt (failing_anthropic unencodable_error)
               (failing_openai unencodable_error) json_decoder.loads
               (scenario_request (lit "x")) configured)
      = Raised unicode_encode_error
      /\ filter is_error_notice
           (trace (analyze_prompt (failing_anthropic unencodable_error)
                     (failing_openai unencodable_error) json_decoder.loads
                     (scenario_request (lit "x")) configured)) = []).
Proof.
  destruct (analyze_prompt_is_contained
              (failing_anthropic keyboard_interrupt)
              (failing_openai keyboard_interrupt) json_decoder.loads
              (scenario_request (lit "x")) configured) as (_ & _ & _ & Hk).
  destruct (analyze_prompt_is_contained
              (failing_anthropic unencodable_error)
              (failing_openai unencodable_error) json_decoder.loads
              (scenario_request (lit "x")) configured) as (_ & _ & _ & Hu).
  split.
  - split; [reflexivity|]. split; [reflexivity|].
    exact (proj2 (Hk keyboard_interrupt eq_refl)).
  - split; [reflexivity|].
    exact (proj2 (Hu unicode_encode_error eq_refl)).
Defined.

(** X7 with both keys in the file, with the Anthropic key only, and
    with no file. *)
Lemma constructor_reports_missing_keys_witness :
  (dict_get both_secrets (lit "ANTHROPIC_API_KEY") <> None
   /\ dict_get both_secrets (lit "OPENAI_API_KEY") <> None
   /\ trace (PromptDebugger_init (SecretsFile both_secrets) (fresh None))
      = [])
  /\ (dict_get only_anthropic_secrets (lit "OPENAI_API_KEY") = None
      /\ trace (PromptDebugger_init (SecretsFile only_anthropic_secrets)
                  (fresh None))
         = [missing_keys_notice])
  /\ PromptDebugger_init NoSecretsFile (fresh None)
     = mkRun (Raised secrets_not_found) (fresh None) [].
Proof.
  destruct (constructor_reports_missing_keys both_secrets (fresh None))
    as ((_ & _ & Hboth & _) & Hnone & _).
  destruct (constructor_reports_missing_keys only_anthropic_secrets
              (fresh None)) as ((_ & _ & _ & Hone) & _).
  assert (Ha : dict_get both_secrets (lit "ANTHROPIC_API_KEY") <> None)
    by (intros H; vm_compute in H; discriminate H).
  assert (Ho : dict_get both_secrets (lit "OPENAI_API_KEY") <> None)
    by (intros H; vm_compute in H; discriminate H).
  split; [|split].
  - split; [exact Ha|]. split; [exact Ho|].
    exact (proj2 Hboth (conj Ha Ho)).
  - split; [reflexivity|]. exact (proj2 Hone (or_intror eq_refl)).
  - exact Hnone.
Defined.

(** X8 with both keys, from a fresh process. *)
Lemma configured_keys_reach_the_calls_witness :
  dict_get both_secrets (lit "ANTHROPIC_API_KEY") = Some (lit "sk-ant")
  /\ dict_get both_secrets (lit "OPENAI_API_KEY") = Some (lit "sk-oai")
  /\ provider_calls
       (trace (bind (PromptDebugger_init both_secrets)
                 (fun _ => mock_analyze scenario_reply
                             (scenario_request (lit "x")))
                 (fresh None)))
     = [ AnthropicCreate {| anthropic.api_key := lit "sk-ant" |}
           (anthropic_request (scenario_request (lit "x"))) ]
  /\ provider_calls
       (trace (bind (PromptDebugger_init both_secrets)
                 (fun _ => mock_analyze scenario_reply openai_sample_request)
                 (fresh None)))
     = [ OpenAICreate (Some (lit "sk-oai"))
           (openai_request openai_sample_request) ].
Proof.
  split; [reflexivity|]. split; [reflexivity|]. split.
  - apply (proj1 (configured_keys_reach_the_calls both_secrets
                    (mock_anthropic scenario_reply)
                    (mock_openai scenario_reply) json_decoder.loads
                    (scenario_request (lit "x")) (fresh None)
                    (lit "sk-ant") (lit "sk-oai") eq_refl eq_refl)).
    reflexivity.
  - apply (proj2 (configured_keys_reach_the_calls both_secrets
                    (mock_anthropic scenario_reply)
                    (mock_openai scenario_reply) json_decoder.loads
                    openai_sample_request (fresh None)
                    (lit "sk-ant") (lit "sk-oai") eq_refl eq_refl)).
    apply not_anthropic_of_openai. reflexivity.
Defined.

(** X9 with the OpenAI key alone in the secrets. *)
Lemma openai_key_is_skipped_without_anthropic_key_witness :
  dict_get only_openai_secrets (lit "ANTHROPIC_API_KEY") = None
  /\ dict_get only_openai_secrets (lit "OPENAI_API_KEY")
     = Some (lit "sk-oai")
  /\ final (PromptDebugger_init only_openai_secrets (fresh None))
     = fresh None
  /\ provider_calls
       (trace (bind (PromptDebugger_init only_openai_secrets)
                 (fun _ => mock_analyze scenario_reply openai_sample_request)
                 (fresh None)))
     = [ OpenAICreate None (openai_request openai_sample_request) ].
Proof.
  destruct (openai_key_is_skipped_without_anthropic_key only_openai_secrets
              (mock_anthropic scenario_reply) (mock_openai scenario_reply)
              json_decoder.loads openai_sample_request (fresh None) eq_refl)
    as [Hf Hc].
  split; [reflexivity|]. split; [reflexivity|]. split; [exact Hf|].
  apply Hc. apply not_anthropic_of_openai. reflexivity.
Defined.

(** X10 at a filled form whose button is not pressed. *)
Lemma main_waits_for_the_button_witness :
  form.analyze_clicked chat_form = false
  /\ mock_main both_secrets scenario_reply chat_form (fresh None)
     = mkRun (Ok tt)
         (final (PromptDebugger_init both_secrets (fresh None)))
         (trace (PromptDebugger_init both_secrets (fresh None))).
Proof.
  split; [reflexivity|].
  exact (main_waits_for_the_button both_secrets
           (mock_anthropic scenario_reply) (mock_openai scenario_reply)
           json_decoder.loads chat_form (fresh None) eq_refl).
Defined.

(** X11 at the filled form, with both keys in the file: with the reply
    of the scenario, and with a reply that is a string holding a lone
    surrogate. *)
Lemma main_displays_the_analysis_witness :
  ~ In [] (required_fields filled_form)
  /\ form.analyze_clicked filled_form = true
  /\ (value (mock_analyze scenario_reply (main_inputs filled_form)
               (final (PromptDebugger_init both_secrets (fresh None))))
      = Ok scenario_result
      /\ displayable scenario_result = true
      /\ value (mock_main both_secrets scenario_reply filled_form
                  (fresh None))
         = Ok tt
      /\ filter is_display
           (trace (mock_main both_secrets scenario_reply filled_form
                     (fresh None)))
         = [StJson scenario_result])
  /\ (value (mock_analyze surrogate_reply (main_inputs filled_form)
               (final (PromptDebugger_init both_secrets (fresh None))))
      = Ok surrogate_string
      /\ displayable surrogate_string = false
      /\ value (mock_main both_secrets surrogate_reply filled_form
                  (fresh None))
         = Raised unicode_encode_error
      /\ filter is_display
           (trace (mock_main both_secrets surrogate_reply filled_form
                     (fresh None)))
         = []).
Proof.
  assert (Hfull : ~ In [] (required_fields filled_form))
    by (intros H; not_in_list H).
  assert (Hv : value (mock_analyze scenario_reply (main_inputs filled_form)
                        (final (PromptDebugger_init both_secrets
                                  (fresh None))))
               = Ok scenario_result)
    by (vm_compute; reflexivity).
  assert (Hv' : value (mock_analyze surrogate_reply (main_inputs filled_form)
                         (final (PromptDebugger_init both_secrets
                                   (fresh None))))
                = Ok surrogate_string)
    by (vm_compute; reflexivity).
  pose proof (main_displays_the_analysis both_secrets
                (mock_anthropic scenario_reply) (mock_openai scenario_reply)
                json_decoder.loads filled_form (fresh None) scenario_result
                Hfull eq_refl Hv) as Hshown.
  pose proof (main_displays_the_analysis both_secrets
                (mock_anthropic surrogate_reply)
                (mock_openai surrogate_reply)
                json_decoder.loads filled_form (fresh None) surrogate_string
                Hfull eq_refl Hv') as Hfailed.
  split; [exact Hfull|]. split; [reflexivity|]. split.
  - split; [exact Hv|]. split; [reflexivity|].
    split; [exact (proj1 Hshown) | exact (proj2 (proj2 Hshown))].
  - split; [exact Hv'|]. split; [reflexivity|].
    split; [exact (proj1 Hfailed) | exact (proj2 (proj2 Hfailed))].
Defined.

(** X12 at the three causes: no secrets file; an interrupt during the
    provider call; a result that cannot be shown. *)
Lemma main_raises_only_for_named_causes_witness :
  (value (mock_main NoSecretsFile scenario_reply filled_form (fresh None))
   = Raised secrets_not_found
   /\ ((NoSecretsFile = NoSecretsFile
        /\ secrets_not_found = secrets_not_found)
       \/ (isinstance_Exception secrets_not_found = false
           /\ value (mock_analyze scenario_reply (main_inputs filled_form)
                       (final (PromptDebugger_init NoSecretsFile
                                 (fresh None))))
              = Raised secrets_not_found)
       \/ secrets_not_found = unicode_encode_error))
  /\ (value (main both_secrets (failing_anthropic keyboard_interrupt)
               (failing_openai keyboard_interrupt) json_decoder.loads
               filled_form (fresh None))
      = Raised keyboard_interrupt
      /\ isinstance_Exception keyboard_interrupt = false)
  /\ value (mock_main both_secrets surrogate_reply filled_form (fresh None))
     = Raised unicode_encode_error.
Proof.
  assert (H1 : value (mock_main NoSecretsFile scenario_reply filled_form
                        (fresh None))
               = Raised secrets_not_found) by reflexivity.
  split; [|split].
  - split; [exact H1|].
    exact (main_raises_only_for_named_causes
             (mock_anthropic scenario_reply) (mock_openai scenario_reply)
             json_decoder.loads NoSecretsFile filled_form (fresh None)
             secrets_not_found H1).
  - split; vm_compute; reflexivity.
  - vm_compute. reflexivity.
Defined.

(** X13 at the filled form. *)
Lemma dispatched_requests_are_well_formed_witness :
  ~ In [] (required_fields filled_form)
  /\ valid_request (main_inputs filled_form).
Proof.
  assert (Hfull : ~ In [] (required_fields filled_form))
    by (intros H; not_in_list H).
  split; [exact Hfull|].
  exact (dispatched_requests_are_well_formed filled_form Hfull).
Defined.

(** X14 at the form with two filled exchanges. *)
Lemma history_is_bounded_witness :
  (forall i, i < Pos.to_nat (form.num_exchanges chat_form) ->
             form.user_message chat_form i <> []
             /\ form.agent_response chat_form i <> [])
  /\ collect_history chat_form
     = flat_map (full_exchange chat_form)
         (seq 0 (Pos.to_nat (form.num_exchanges chat_form)))
  /\ List.length (collect_history chat_form) = 4.
Proof.
  assert (Hall : forall i,
             i < Pos.to_nat (form.num_exchanges chat_form) ->
             form.user_message chat_form i <> []
             /\ form.agent_response chat_form i <> [])
    by (intros i _; split; intros H; vm_compute in H; discriminate H).
  split; [exact Hall|].
  exact (proj2 (history_is_bounded chat_form) Hall).
Defined.

(** X15 for a model of OpenAI, a model it does not have, and a provider
    the catalog does not have. *)
Lemma model_options_have_labels_witness :
  (dict_get model_providers (lit "OpenAI") = Some openai_models
   /\ In (lit "gpt-4") (keys openai_models)
   /\ exists label,
        format_func (lit "OpenAI") (lit "gpt-4") (fresh None)
        = mkRun (Ok label) (fresh None) []
        /\ In (lit "gpt-4", label) openai_models)
  /\ (~ In (lit "gpt-5") (keys openai_models)
      /\ exists e,
           format_func (lit "OpenAI") (lit "gpt-5") (fresh None)
           = mkRun (Raised e) (fresh None) []
           /\ exn_cls e = KeyError)
  /\ (dict_get model_providers (lit "Mistral") = None
      /\ exists e,
           format_func (lit "Mistral") (lit "gpt-4") (fresh None)
           = mkRun (Raised e) (fresh None) []
           /\ exn_cls e = KeyError).
Proof.
  assert (Hin : In (lit "gpt-4") (keys openai_models))
    by (right; left; reflexivity).
  assert (Hout : ~ In (lit "gpt-5") (keys openai_models))
    by (intros H; not_in_list H).
  split; [|split].
  - split; [reflexivity|]. split; [exact Hin|].
    exact (proj1 (model_options_have_labels (lit "OpenAI") (lit "gpt-4")
                    (fresh None)) openai_models eq_refl Hin).
  - split; [exact Hout|].
    exact (proj1 (proj2 (model_options_have_labels (lit "OpenAI")
                           (lit "gpt-5") (fresh None)))
             openai_models eq_refl Hout).
  - split; [reflexivity|].
    exact (proj2 (proj2 (model_options_have_labels (lit "Mistral")
                           (lit "gpt-4") (fresh None))) eq_refl).
Defined.

(** X17 at the OpenAI sample and its own history. *)
Lemma instruction_determines_history_witness :
  wf_history [quoting_message]
  /\ analysis_prompt (with_history openai_sample_request [quoting_message])
     = analysis_prompt (with_history openai_sample_request [quoting_message])
  /\ [quoting_message] = [quoting_message].
Proof.
  assert (Hwf : wf_history [quoting_message])
    by (apply is_wf_history_true; vm_compute; reflexivity).
  split; [exact Hwf|]. split; [reflexivity|].
  exact (instruction_determines_history openai_sample_request
           [quoting_message] [quoting_message] Hwf Hwf eq_refl).
Defined.

(** X19 at the filled form, with a secrets file that holds the OpenAI
    key only. *)
Lemma main_without_anthropic_key_witness :
  dict_get only_openai_secrets (lit "ANTHROPIC_API_KEY") = None
  /\ anthropic_client (fresh None) = None
  /\ selectbox (keys model_providers) (form.provider filled_form)
     = lit "Anthropic"
  /\ ~ In [] (required_fields filled_form)
  /\ form.analyze_clicked filled_form = true
  /\ mock_main (SecretsFile only_openai_secrets) scenario_reply filled_form
       (fresh None)
     = mkRun (Ok tt) (fresh None)
         [ missing_keys_notice;
           StError (lit "Analysis Error: "
                    ++ lit "'PromptDebugger' object has no attribute 'anthropic_client'");
           StJson (JDict []) ].
Proof.
  assert (Hfull : ~ In [] (required_fields filled_form))
    by (intros H; not_in_list H).
  do 3 (split; [reflexivity|]). split; [exact Hfull|].
  split; [reflexivity|].
  exact (main_without_anthropic_key only_openai_secrets
           (mock_anthropic scenario_reply)
           (mock_openai scenario_reply) json_decoder.loads filled_form
           (fresh None) eq_refl eq_refl eq_refl Hfull eq_refl).
Defined.
